(** * NEXIS voice assistant: intent router, reminder store and scheduler

    A shallow embedding of [brain/processor.py], [memory/storage.py],
    [windows_control/apps.py], [brain/knowledge.py], [utils/helpers.py],
    [config.py] and the session loop of [main.py].

    Conventions of the embedding.
    - Text is a [string] of 8-bit characters read as ASCII: the character
      classes of Python's [re] and [str] methods are the ASCII ones.
    - The operating system, the network, the clock, the C library's
      [strftime] and Python's own [eval] are collaborators: they are the
      fields of the record [Env], over which every statement quantifies.
    - The SQLite file is a record of two row lists kept in rowid order; a
      query without [ORDER BY] is a table scan and returns rows in that
      order.  Storage faults (disk, locking) are not modelled.
    - A Python exception that leaves a function is a value [Raised e]. *)

From Stdlib Require Import Bool Arith ZArith Lia List Ascii String.
From Stdlib Require Import Sorting.Sorted Sorting.Permutation.
Import ListNotations.

Set Implicit Arguments.
Local Open Scope string_scope.
Local Open Scope bool_scope.

(* ================================================================== *)
(** * Characters and the Python [str] methods the code calls          *)
(* ================================================================== *)

Module Chars.

Definition code (c : ascii) : nat := nat_of_ascii c.

Definition in_range (lo hi : nat) (c : ascii) : bool :=
  Nat.leb lo (code c) && Nat.leb (code c) hi.

(** [\d] *)
Definition is_digit (c : ascii) : bool := in_range 48 57 c.

(** [\s] and [str.isspace]: tab, LF, VT, FF, CR, FS, GS, RS, US, space. *)
Definition is_space (c : ascii) : bool :=
  in_range 9 13 c || in_range 28 32 c.

Definition is_upper (c : ascii) : bool := in_range 65 90 c.
Definition is_lower (c : ascii) : bool := in_range 97 122 c.

(** [\w] *)
Definition is_word (c : ascii) : bool :=
  is_digit c || is_upper c || is_lower c || Nat.eqb (code c) 95.

(** [.] without DOTALL: anything but a line feed. *)
Definition is_dot (c : ascii) : bool := negb (Nat.eqb (code c) 10).

Definition lower_char (c : ascii) : ascii :=
  if is_upper c then ascii_of_nat (code c + 32) else c.

(** [str.lower] *)
Fixpoint lower (s : string) : string :=
  match s with
  | EmptyString => EmptyString
  | String c s' => String (lower_char c) (lower s')
  end.

Fixpoint lstrip (s : string) : string :=
  match s with
  | EmptyString => EmptyString
  | String c s' => if is_space c then lstrip s' else s
  end.

(** Drops the trailing white space: a character is kept when something
    that is kept follows it, or when it is not white space. *)
Fixpoint rstrip (s : string) : string :=
  match s with
  | EmptyString => EmptyString
  | String c s' =>
      match rstrip s' with
      | EmptyString => if is_space c then EmptyString else String c EmptyString
      | r => String c r
      end
  end.

(** [str.strip] *)
Definition strip (s : string) : string := rstrip (lstrip s).

(** [needle in haystack] *)
Fixpoint contains (needle hay : string) : bool :=
  prefix needle hay ||
  match hay with
  | EmptyString => false
  | String _ hay' => contains needle hay'
  end.

(** [str.replace] for a one-character pattern. *)
Fixpoint replace_char (c : ascii) (by_ : string) (s : string) : string :=
  match s with
  | EmptyString => EmptyString
  | String x s' =>
      if Ascii.eqb x c then by_ ++ replace_char c by_ s'
      else String x (replace_char c by_ s')
  end.

Fixpoint forallb_str (p : ascii -> bool) (s : string) : bool :=
  match s with
  | EmptyString => true
  | String c s' => p c && forallb_str p s'
  end.

(** [int(s)] on a string of decimal digits. *)
Fixpoint int_acc (acc : Z) (s : string) : Z :=
  match s with
  | EmptyString => acc
  | String c s' => int_acc (10 * acc + (Z.of_nat (code c) - 48))%Z s'
  end.

Definition int_of (s : string) : Z := int_acc 0%Z s.

(** [sep.join(l)] *)
Fixpoint join (sep : string) (l : list string) : string :=
  match l with
  | [] => EmptyString
  | [x] => x
  | x :: l' => x ++ sep ++ join sep l'
  end.

End Chars.

(* ================================================================== *)
(** * The fragment of Python's [re] the code uses                     *)
(* ================================================================== *)

Module Re.
Import Chars.

(** Every quantifier of the source's patterns but [?] ranges over one
    character class ([\s+], [\d{1,2}], [.+?], [.*]), so repetition is
    [Rep class min max greedy]; [?] on a group is [Opt]. *)
Inductive re : Type :=
| Eps
| Chr (c : ascii)
| Cls (p : ascii -> bool)
| Seq (a b : re)
| Alt (a b : re)
| Opt (a : re)
| Rep (p : ascii -> bool) (lo : nat) (hi : option nat) (greedy : bool)
| Grp (n : nat) (a : re)
| WordB
| Eos.

(** Where the matcher stands: index, the character before it, the rest. *)
Record cursor : Type := Cursor {
  pos  : nat;
  prev : option ascii;
  rest : string
}.

Definition span : Type := (nat * nat)%type.
Definition caps : Type := list (nat * span).

Fixpoint cap_get (n : nat) (cs : caps) : option span :=
  match cs with
  | [] => None
  | (m, sp) :: cs' => if Nat.eqb m n then Some sp else cap_get n cs'
  end.

Definition head_char (s : string) : option ascii :=
  match s with
  | EmptyString => None
  | String c _ => Some c
  end.

Definition wordish (o : option ascii) : bool :=
  match o with
  | None => false
  | Some c => is_word c
  end.

(** [\b]: exactly one side is a word character. *)
Definition at_boundary (cur : cursor) : bool :=
  xorb (wordish (prev cur)) (wordish (head_char (rest cur))).

(** [$] without MULTILINE: the end, or just before a final line feed. *)
Definition at_end (cur : cursor) : bool :=
  match rest cur with
  | EmptyString => true
  | String c EmptyString => Nat.eqb (code c) 10
  | _ => false
  end.

(** A literal under [re.IGNORECASE] (flag [ic]) compares lower-cased. *)
Definition chr_eq (ic : bool) (c x : ascii) : bool :=
  if ic then Ascii.eqb (lower_char c) (lower_char x) else Ascii.eqb c x.

Definition orelse {A} (x : option A) (y : unit -> option A) : option A :=
  match x with
  | Some _ => x
  | None => y tt
  end.

Definition may_take (hi : option nat) : bool :=
  match hi with
  | Some O => false
  | _ => true
  end.

Definition dec_hi (hi : option nat) : option nat := option_map pred hi.

Section Matcher.
Variable A : Type.
Variable ic : bool.

(** Repetition of a class, backtracking as [re] does: a greedy one tries
    the longer run first, a lazy one the shorter. *)
Fixpoint rep (p : ascii -> bool) (greedy : bool) (lo : nat) (hi : option nat)
         (i : nat) (pv : option ascii) (s : string) (cs : caps)
         (k : cursor -> caps -> option A) {struct s} : option A :=
  let more (_ : unit) :=
    match s with
    | String c s' =>
        if p c && may_take hi
        then rep p greedy (pred lo) (dec_hi hi) (S i) (Some c) s' cs k
        else None
    | EmptyString => None
    end in
  let stop (_ : unit) := k (Cursor i pv s) cs in
  match lo with
  | S _ => more tt
  | O => if greedy then orelse (more tt) stop else orelse (stop tt) more
  end.

Fixpoint run (r : re) (cur : cursor) (cs : caps)
         (k : cursor -> caps -> option A) {struct r} : option A :=
  match r with
  | Eps => k cur cs
  | Chr c =>
      match rest cur with
      | String x s' =>
          if chr_eq ic c x then k (Cursor (S (pos cur)) (Some x) s') cs else None
      | EmptyString => None
      end
  | Cls p =>
      match rest cur with
      | String x s' =>
          if p x then k (Cursor (S (pos cur)) (Some x) s') cs else None
      | EmptyString => None
      end
  | Seq a b => run a cur cs (fun cur' cs' => run b cur' cs' k)
  | Alt a b => orelse (run a cur cs k) (fun _ => run b cur cs k)
  | Opt a => orelse (run a cur cs k) (fun _ => k cur cs)
  | Rep p lo hi g => rep p g lo hi (pos cur) (prev cur) (rest cur) cs k
  | Grp n a =>
      run a cur cs (fun cur' cs' => k cur' ((n, (pos cur, pos cur')) :: cs'))
  | WordB => if at_boundary cur then k cur cs else None
  | Eos => if at_end cur then k cur cs else None
  end.
End Matcher.

(** A match object: where it starts, where it ends, and its groups. *)
Record mobj : Type := Match {
  m_start : nat;
  m_end   : nat;
  m_caps  : caps
}.

Definition match_here (ic : bool) (r : re) (cur : cursor) : option mobj :=
  run ic r cur [] (fun cur' cs => Some (Match (pos cur) (pos cur') cs)).

Fixpoint search_from (ic : bool) (r : re) (i : nat) (pv : option ascii)
         (s : string) : option mobj :=
  match match_here ic r (Cursor i pv s) with
  | Some m => Some m
  | None =>
      match s with
      | String c s' => search_from ic r (S i) (Some c) s'
      | EmptyString => None
      end
  end.

(** [pattern.search(s)]: the leftmost match. *)
Definition search (ic : bool) (r : re) (s : string) : option mobj :=
  search_from ic r 0 None s.

(** [re.match(pattern, s)]: a match at index 0 only. *)
Definition match_start (ic : bool) (r : re) (s : string) : option mobj :=
  match_here ic r (Cursor 0 None s).

Definition found (ic : bool) (r : re) (s : string) : bool :=
  match search ic r s with
  | Some _ => true
  | None => false
  end.

(** [m.group(n)]: [None] for a group that took no part in the match. *)
Definition group (s : string) (m : mobj) (n : nat) : option string :=
  match cap_get n (m_caps m) with
  | Some (a, b) => Some (substring a (b - a) s)
  | None => None
  end.

(** [re.sub(pattern, "", s)]: the leftmost non-overlapping matches are
    deleted.  [skip] counts the characters of the current match still to
    drop; an empty match deletes nothing. *)
Fixpoint sub_go (ic : bool) (r : re) (skip : nat) (i : nat)
         (pv : option ascii) (s : string) : string :=
  match s with
  | EmptyString => EmptyString
  | String c s' =>
      match skip with
      | S n => sub_go ic r n (S i) (Some c) s'
      | O =>
          match match_here ic r (Cursor i pv s) with
          | Some m =>
              match m_end m - i with
              | O => String c (sub_go ic r 0 (S i) (Some c) s')
              | S n => sub_go ic r n (S i) (Some c) s'
              end
          | None => String c (sub_go ic r 0 (S i) (Some c) s')
          end
      end
  end.

Definition sub_empty (ic : bool) (r : re) (s : string) : string :=
  sub_go ic r 0 0 None s.

(** Pattern builders. *)
Fixpoint lit (s : string) : re :=
  match s with
  | EmptyString => Eps
  | String c EmptyString => Chr c
  | String c s' => Seq (Chr c) (lit s')
  end.

Fixpoint alts (l : list re) : re :=
  match l with
  | [] => Eps
  | [a] => a
  | a :: l' => Alt a (alts l')
  end.

Fixpoint seqs (l : list re) : re :=
  match l with
  | [] => Eps
  | [a] => a
  | a :: l' => Seq a (seqs l')
  end.

Definition lits (l : list string) : re := alts (map lit l).

Definition plus (p : ascii -> bool) : re := Rep p 1 None true.
Definition star (p : ascii -> bool) : re := Rep p 0 None true.

End Re.

(* ================================================================== *)
(** * Exceptions                                                      *)
(* ================================================================== *)

Inductive exn : Type :=
| ValueError (msg : string)
| OverflowError (msg : string).

Inductive result (A : Type) : Type :=
| Returned (a : A)
| Raised (e : exn).

Arguments Returned {A} a.
Arguments Raised {A} e.

Definition bind {A B} (x : result A) (f : A -> result B) : result B :=
  match x with
  | Returned a => f a
  | Raised e => Raised e
  end.

Notation "'try!' x <- e1 ;; e2" := (bind e1 (fun x => e2))
  (at level 61, x name, e1 at next level, right associativity).

(* ================================================================== *)
(** * [datetime.datetime], naive (no tzinfo), as the code creates it  *)
(* ================================================================== *)

Module DT.
Local Open Scope Z_scope.

Record datetime : Type := Datetime {
  year : Z; month : Z; day : Z;
  hour : Z; minute : Z; second : Z; microsecond : Z
}.

Definition is_leap (y : Z) : bool :=
  (y mod 4 =? 0) && (negb (y mod 100 =? 0) || (y mod 400 =? 0)).

Definition days_in_month (y m : Z) : Z :=
  match m with
  | 2 => if is_leap y then 29 else 28
  | 4 | 6 | 9 | 11 => 30
  | _ => 31
  end.

(** The invariant of every [datetime] object (the constructor enforces it). *)
Definition valid (d : datetime) : bool :=
  (1 <=? year d) && (year d <=? 9999) &&
  (1 <=? month d) && (month d <=? 12) &&
  (1 <=? day d) && (day d <=? days_in_month (year d) (month d)) &&
  (0 <=? hour d) && (hour d <? 24) &&
  (0 <=? minute d) && (minute d <? 60) &&
  (0 <=? second d) && (second d <? 60) &&
  (0 <=? microsecond d) && (microsecond d <? 1000000).

(** [dt.replace(hour=h, minute=m, second=0, microsecond=0)] *)
Definition replace_time (d : datetime) (h m : Z) : result datetime :=
  if negb ((0 <=? h) && (h <? 24)) then Raised (ValueError "hour must be in 0..23")
  else if negb ((0 <=? m) && (m <? 60)) then Raised (ValueError "minute must be in 0..59")
  else Returned (Datetime (year d) (month d) (day d) h m 0 0).

(** [dt + datetime.timedelta(days=1)] *)
Definition add_one_day (d : datetime) : result datetime :=
  if day d <? days_in_month (year d) (month d)
  then Returned (Datetime (year d) (month d) (day d + 1)
                          (hour d) (minute d) (second d) (microsecond d))
  else if month d <? 12
  then Returned (Datetime (year d) (month d + 1) 1
                          (hour d) (minute d) (second d) (microsecond d))
  else if year d <? 9999
  then Returned (Datetime (year d + 1) 1 1
                          (hour d) (minute d) (second d) (microsecond d))
  else Raised (OverflowError "date value out of range").

(** The fields, most significant first: datetimes compare as these do. *)
Definition fields (d : datetime) : list Z :=
  [year d; month d; day d; hour d; minute d; second d; microsecond d].

Fixpoint lex_cmp (a b : list Z) : comparison :=
  match a, b with
  | [], [] => Eq
  | [], _ => Lt
  | _, [] => Gt
  | x :: a', y :: b' =>
      match x ?= y with
      | Eq => lex_cmp a' b'
      | c => c
      end
  end.

Definition cmp (a b : datetime) : comparison := lex_cmp (fields a) (fields b).

(** [a <= b] *)
Definition leb (a b : datetime) : bool :=
  match cmp a b with
  | Gt => false
  | _ => true
  end.

(** [a < b] *)
Definition ltb (a b : datetime) : bool :=
  match cmp a b with
  | Lt => true
  | _ => false
  end.

Definition digit (n : Z) : ascii := ascii_of_nat (Z.to_nat (48 + n mod 10)).

(** ["%02d" % n] for [0 <= n < 100] *)
Definition pad2 (n : Z) : string :=
  String (digit (n / 10)) (String (digit n) EmptyString).

(** ["%04d" % n] for [0 <= n < 10000] *)
Definition pad4 (n : Z) : string :=
  String (digit (n / 1000)) (String (digit (n / 100))
    (String (digit (n / 10)) (String (digit n) EmptyString))).

(** [dt.isoformat(timespec="seconds")] *)
Definition isoformat_seconds (d : datetime) : string :=
  (pad4 (year d) ++ "-" ++ pad2 (month d) ++ "-" ++ pad2 (day d) ++ "T" ++
   pad2 (hour d) ++ ":" ++ pad2 (minute d) ++ ":" ++ pad2 (second d))%string.

(** The instant with its sub-second part dropped. *)
Definition trunc_seconds (d : datetime) : datetime :=
  Datetime (year d) (month d) (day d) (hour d) (minute d) (second d) 0.

End DT.

(* ================================================================== *)
(** * memory/storage.py: [MemoryStore]                                *)
(* ================================================================== *)

Module Storage.
Import Chars.

Record memory_row : Type := MemoryRow {
  mem_id : Z;
  content : string;
  saved_at : string
}.

Record reminder_row : Type := ReminderRow {
  id : Z;
  task : string;
  remind_at : string;      (* ISO-8601 datetime *)
  notified : Z             (* 0=pending, 1=done *)
}.

(** The two tables, rows in rowid order, and for each the largest rowid
    ever handed out (AUTOINCREMENT's [sqlite_sequence]). *)
Record db : Type := Db {
  memories : list memory_row;
  memories_seq : Z;
  reminders : list reminder_row;
  reminders_seq : Z
}.

(** [_init_db] on a fresh file. *)
Definition empty_db : db := Db [] 0 [] 0.

(** What [SELECT id, task, remind_at] yields. *)
Record reminder_view : Type := View {
  v_id : Z;
  v_task : string;
  v_remind_at : string
}.

Definition view (r : reminder_row) : reminder_view :=
  View (id r) (task r) (remind_at r).

Definition save_memory (now : DT.datetime) (d : db) (text : string) : db :=
  let n := (memories_seq d + 1)%Z in
  Db (memories d ++ [MemoryRow n (strip text) (DT.isoformat_seconds now)]) n
     (reminders d) (reminders_seq d).

(** [ORDER BY id DESC]: the rows are kept in ascending id order. *)
Definition get_all_memories (d : db) : list (string * string) :=
  map (fun m => (content m, saved_at m)) (rev (memories d)).

Definition clear_memories (d : db) : db :=
  Db [] (memories_seq d) (reminders d) (reminders_seq d).

Definition add_reminder (d : db) (task_ : string) (at_ : DT.datetime) : db :=
  let n := (reminders_seq d + 1)%Z in
  Db (memories d) (memories_seq d)
     (reminders d ++ [ReminderRow n (strip task_) (DT.isoformat_seconds at_) 0]) n.

(** Stable insertion sort, ascending in [remind_at] as SQLite's BINARY
    collation orders TEXT (byte-wise). *)
Fixpoint insert_by_remind_at (r : reminder_row) (l : list reminder_row)
  : list reminder_row :=
  match l with
  | [] => [r]
  | x :: l' =>
      if String.leb (remind_at r) (remind_at x) then r :: l
      else x :: insert_by_remind_at r l'
  end.

Definition order_by_remind_at (l : list reminder_row) : list reminder_row :=
  fold_right insert_by_remind_at [] l.

Definition pending (r : reminder_row) : bool := Z.eqb (notified r) 0.

(** [... WHERE notified=0 ORDER BY remind_at] *)
Definition get_pending_reminders (d : db) : list reminder_view :=
  map view (order_by_remind_at (filter pending (reminders d))).

Definition due (now_str : string) (r : reminder_row) : bool :=
  pending r && String.leb (remind_at r) now_str.

(** [... WHERE notified=0 AND remind_at <= ?] with the clock's reading
    formatted to seconds; no [ORDER BY]. *)
Definition get_due_reminders (now : DT.datetime) (d : db) : list reminder_view :=
  map view (filter (due (DT.isoformat_seconds now)) (reminders d)).

(** [UPDATE reminders SET notified=1 WHERE id=?] *)
Definition mark_notified (d : db) (reminder_id : Z) : db :=
  Db (memories d) (memories_seq d)
     (map (fun r => if Z.eqb (id r) reminder_id
                    then ReminderRow (id r) (task r) (remind_at r) 1
                    else r)
          (reminders d))
     (reminders_seq d).

End Storage.

(* ================================================================== *)
(** * config.py                                                       *)
(* ================================================================== *)

Module Config.

Definition USER_NAME : string := "Rihan".

(** The dicts keep insertion order, which [sorted] sees: association lists. *)
Definition APP_COMMANDS : list (string * string) :=
  [ ("chrome", "C:\Program Files\Google\Chrome\Application\chrome.exe");
    ("google chrome", "C:\Program Files\Google\Chrome\Application\chrome.exe");
    ("firefox", "C:\Program Files\Mozilla Firefox\firefox.exe");
    ("notepad", "notepad.exe");
    ("calculator", "calc.exe");
    ("vs code", "C:\Users\%USERNAME%\AppData\Local\Programs\Microsoft VS Code\Code.exe");
    ("vscode", "C:\Users\%USERNAME%\AppData\Local\Programs\Microsoft VS Code\Code.exe");
    ("visual studio code", "C:\Users\%USERNAME%\AppData\Local\Programs\Microsoft VS Code\Code.exe");
    ("file explorer", "explorer.exe");
    ("task manager", "taskmgr.exe");
    ("settings", "ms-settings:");
    ("paint", "mspaint.exe");
    ("cmd", "cmd.exe");
    ("command prompt", "cmd.exe");
    ("powershell", "powershell.exe");
    ("spotify", "C:\Users\%USERNAME%\AppData\Roaming\Spotify\Spotify.exe");
    ("word", "C:\Program Files\Microsoft Office\root\Office16\WINWORD.EXE");
    ("excel", "C:\Program Files\Microsoft Office\root\Office16\EXCEL.EXE");
    ("vlc", "C:\Program Files\VideoLAN\VLC\vlc.exe") ].

Definition FOLDER_COMMANDS : list (string * string) :=
  [ ("downloads", "%USERPROFILE%\Downloads");
    ("documents", "%USERPROFILE%\Documents");
    ("desktop", "%USERPROFILE%\Desktop");
    ("pictures", "%USERPROFILE%\Pictures");
    ("music", "%USERPROFILE%\Music");
    ("videos", "%USERPROFILE%\Videos") ].

Definition PROCESS_NAMES : list (string * string) :=
  [ ("chrome", "chrome.exe");
    ("google chrome", "chrome.exe");
    ("firefox", "firefox.exe");
    ("notepad", "notepad.exe");
    ("calculator", "Calculator.exe");
    ("vs code", "Code.exe");
    ("vscode", "Code.exe");
    ("spotify", "Spotify.exe");
    ("vlc", "vlc.exe");
    ("word", "WINWORD.EXE");
    ("excel", "EXCEL.EXE") ].

(** [d.get(k)] *)
Fixpoint get (d : list (string * string)) (k : string) : option string :=
  match d with
  | [] => None
  | (k', v) :: d' => if String.eqb k' k then Some v else get d' k
  end.

(** Iterating a dict yields its keys. *)
Definition keys (d : list (string * string)) : list string := map fst d.

End Config.

(* ================================================================== *)
(** * The collaborators                                               *)
(* ================================================================== *)

(** What an operating-system call raised, with [str(e)]. *)
Inductive os_fault : Type :=
| FileNotFoundError (msg : string)
| OtherException (msg : string).

Definition fault_msg (f : os_fault) : string :=
  match f with
  | FileNotFoundError m => m
  | OtherException m => m
  end.

Record Env : Type := {
  (** [datetime.datetime.now()]; no path through a call reads it twice *)
  now : DT.datetime;
  (** [dt.strftime(fmt)]: the C library's, locale and all *)
  strftime : string -> DT.datetime -> string;
  (** the index [random.choice] draws *)
  random_index : nat;
  (** [os.path.expandvars] *)
  expandvars : string -> string;
  (** [os.startfile(path)]: [None] when it returns *)
  startfile : string -> option os_fault;
  (** [subprocess.Popen(path, shell=True, ...)] *)
  popen : string -> option os_fault;
  (** [subprocess.run(argv, ...)]: the return code when it returns *)
  subprocess_run : list string -> os_fault + Z;
  (** brain/knowledge.py's two searches; each catches its own faults *)
  search_wikipedia : string -> option string;
  search_duckduckgo : string -> option string;
  (** [eval(expr, {"__builtins__": {}, "math": math})] followed by the
      formatting of its value: [None] when either raises an [Exception] *)
  py_eval : string -> option string
}.

(** Python truthiness of an [Optional[str]]. *)
Definition truthy (o : option string) : bool :=
  match o with
  | Some s => negb (String.eqb s "")
  | None => false
  end.

(** [a or b] on [Optional[str]] *)
Definition py_or (a b : option string) : option string :=
  if truthy a then a else b.

Definition nl : string := String (ascii_of_nat 10) EmptyString.

(* ================================================================== *)
(** * windows_control/apps.py: [AppController]                        *)
(* ================================================================== *)

Module Apps.
Import Chars.

Section WithEnv.
Variable env : Env.

Definition open_app (app_name : string) : string :=
  let app_name_lower := lower app_name in
  let path := Config.get Config.APP_COMMANDS app_name_lower in
  if negb (truthy path) then
    "I don't have a shortcut for '" ++ app_name ++ "'. You can add it to config.py."
  else
    let path := expandvars env (match path with Some p => p | None => "" end) in
    match (if prefix "ms-" path then startfile env path else popen env path) with
    | None => "Opening " ++ app_name ++ "."
    | Some (FileNotFoundError _) =>
        "Couldn't find '" ++ app_name ++ "'. " ++
        "Check the path in config.py: " ++ path
    | Some (OtherException e) => "Failed to open " ++ app_name ++ ": " ++ e
    end.

Definition close_app (app_name : string) : string :=
  let app_name_lower := lower app_name in
  let process := Config.get Config.PROCESS_NAMES app_name_lower in
  if negb (truthy process) then
    "I don't know the process name for '" ++ app_name ++ "'. Add it to config.py."
  else
    let process := match process with Some p => p | None => "" end in
    match subprocess_run env ["taskkill"; "/F"; "/IM"; process; "/T"] with
    | inr rc =>
        if Z.eqb rc 0 then "Closed " ++ app_name ++ "."
        else app_name ++ " doesn't seem to be running."
    | inl e => "Couldn't close " ++ app_name ++ ": " ++ fault_msg e
    end.

Definition open_folder (folder_name : string) : string :=
  let folder_name_lower := lower folder_name in
  let path := Config.get Config.FOLDER_COMMANDS folder_name_lower in
  if negb (truthy path) then
    "I don't have a shortcut for the '" ++ folder_name ++ "' folder."
  else
    let path := expandvars env (match path with Some p => p | None => "" end) in
    match startfile env path with
    | None => "Opening your " ++ folder_name ++ " folder."
    | Some e => "Couldn't open " ++ folder_name ++ ": " ++ fault_msg e
    end.

(** The shape of the system controls: run a command, report. *)
Definition run_then (argv : list string) (ok : string) (ko : string) : string :=
  match subprocess_run env argv with
  | inr _ => ok
  | inl e => ko ++ fault_msg e
  end.

Definition lock_screen : string :=
  run_then ["rundll32.exe"; "user32.dll,LockWorkStation"]
    "Screen locked." "Couldn't lock screen: ".

Definition shutdown_pc : string :=
  run_then ["shutdown"; "/s"; "/t"; "10"]
    "PC will shut down in 10 seconds. Say 'cancel shutdown' to abort."
    "Couldn't initiate shutdown: ".

Definition restart_pc : string :=
  run_then ["shutdown"; "/r"; "/t"; "10"]
    "PC will restart in 10 seconds." "Couldn't initiate restart: ".

Definition sleep_pc : string :=
  run_then ["rundll32.exe"; "powrprof.dll,SetSuspendState"; "0,1,0"]
    "Putting the PC to sleep." "Couldn't sleep: ".

Definition take_screenshot : string :=
  let desktop := expandvars env "%USERPROFILE%\Desktop" in
  let filename :=
    "screenshot_" ++ strftime env "%Y%m%d_%H%M%S" (now env) ++ ".png" in
  let filepath := desktop ++ "\" ++ filename in
  let ps_cmd :=
    "Add-Type -AssemblyName System.Windows.Forms; " ++
    "$s=[System.Windows.Forms.Screen]::PrimaryScreen.Bounds; " ++
    "$b=New-Object System.Drawing.Bitmap($s.Width,$s.Height); " ++
    "$g=[System.Drawing.Graphics]::FromImage($b); " ++
    "$g.CopyFromScreen($s.Location,[System.Drawing.Point]::Empty,$s.Size); " ++
    "$b.Save('" ++ filepath ++ "'); $g.Dispose(); $b.Dispose()" in
  run_then ["powershell"; "-Command"; ps_cmd]
    ("Screenshot saved to Desktop as " ++ filename ++ ".")
    "Screenshot failed: ".

Definition volume_change (direction : string) : string :=
  let script :=
    if String.eqb direction "up" then
      "(1..5) | % { (New-Object -com WScript.Shell).SendKeys([char]175) }"
    else if String.eqb direction "down" then
      "(1..5) | % { (New-Object -com WScript.Shell).SendKeys([char]174) }"
    else "(New-Object -com WScript.Shell).SendKeys([char]173)" in
  run_then ["powershell"; "-Command"; script]
    (if String.eqb direction "up" then "Volume increased."
     else if String.eqb direction "down" then "Volume decreased."
     else "Audio muted / unmuted.")
    "Volume control failed: ".

End WithEnv.
End Apps.

(* ================================================================== *)
(** * brain/knowledge.py: [find_answer]                               *)
(* ================================================================== *)

Module Knowledge.

Definition find_answer (env : Env) (query : string) (prefer_wikipedia : bool)
  : string :=
  let answer :=
    if prefer_wikipedia
    then py_or (search_wikipedia env query) (search_duckduckgo env query)
    else py_or (search_duckduckgo env query) (search_wikipedia env query) in
  if truthy answer
  then match answer with Some a => a | None => "" end
  else "I couldn't find a reliable answer for that. Try asking me something else!".

End Knowledge.

(* ================================================================== *)
(** * brain/processor.py: [Brain]                                     *)
(* ================================================================== *)

Module Processor.
Import Chars Re.

Definition JOKES : list string :=
  [ "Why do programmers prefer dark mode? Because light attracts bugs!";
    "I would tell you a UDP joke, but you might not get it.";
    "A SQL query walks into a bar, walks up to two tables and asks: Can I join you?";
    "Why did the computer go to the doctor? It had a virus!";
    "To understand recursion, you must first understand recursion.";
    "There are only 10 kinds of people: those who understand binary, and those who don't." ].

(** [\b(w1|w2|...)\b] *)
Definition words (l : list string) : re :=
  seqs [WordB; Grp 1 (lits l); WordB].

(** The class [[\d\s\+\-\*\/\^\(\)\.]] *)
Definition calc_char (c : ascii) : bool :=
  is_digit c || is_space c ||
  existsb (Ascii.eqb c) (list_ascii_of_string "+-*/^().").

(** [[\d:]] *)
Definition digit_or_colon (c : ascii) : bool :=
  is_digit c || Ascii.eqb c ":".

(** ** The table [_RE], every pattern compiled with [re.IGNORECASE] *)

Definition RE_greeting : re :=
  Alt (seqs [WordB;
             Grp 1 (lits ["hi"; "hello"; "hey"; "yo"; "what's up"; "sup"; "howdy"; "hiya"]);
             WordB])
      (seqs [WordB;
             Grp 2 (lits ["good morning"; "good afternoon"; "good evening"; "good night"]);
             WordB]).

Definition RE_farewell : re :=
  words ["bye"; "goodbye"; "exit"; "quit"; "see you"; "later"; "cya";
         "peace out"; "shut down"].

Definition RE_how_are_you : re :=
  words ["how are you"; "how're you"; "how do you feel"; "are you okay"; "you good"].

Definition RE_time : re :=
  words ["what time"; "current time"; "what's the time"; "tell me the time"].

Definition RE_date : re :=
  seqs [WordB;
        Grp 1 (alts [seqs [lit "what"; Grp 2 (lits ["'s"; " is"]); lit " ";
                           Grp 3 (lits ["today"; "the date"])];
                     lit "today's date";
                     lit "current date"]);
        WordB].

Definition RE_day : re := words ["what day"; "which day"].

Definition RE_open_app : re := words ["open"; "launch"; "start"; "run"].

Definition RE_close_app : re := words ["close"; "kill"; "stop"; "quit"; "exit"].

Definition RE_open_folder : re :=
  seqs [WordB; Grp 1 (lits ["open"; "show"; "go to"]); WordB; star is_dot;
        Grp 2 (lits ["folder"; "directory"; "downloads"; "documents"; "desktop";
                     "pictures"; "music"; "videos"]);
        WordB].

Definition RE_remind : re :=
  seqs [WordB; lit "remind"; plus is_space; lit "me"; WordB].

Definition RE_remember : re :=
  seqs [WordB; lit "remember"; plus is_space;
        Opt (Grp 1 (seqs [lit "that"; plus is_space]));
        Grp 2 (star is_dot)].

Definition RE_recall : re :=
  words ["what do you remember"; "recall"; "show memories"; "my notes"].

Definition RE_calc : re :=
  seqs [WordB; Grp 1 (lits ["calculate"; "what is"; "compute"; "how much is"]);
        plus is_space; plus calc_char].

Definition RE_joke : re :=
  words ["joke"; "make me laugh"; "something funny"; "tell me a joke"].

Definition what_is_words : list string :=
  ["what is"; "what are"; "who is"; "who was"; "tell me about"; "explain";
   "define"; "describe"].

Definition RE_what_is : re := words what_is_words.

Definition search_words : list string :=
  ["search for"; "look up"; "find"; "google"; "search"].

Definition RE_search : re := words search_words.

Definition RE_weather : re :=
  words ["weather"; "temperature"; "forecast"; "rain"; "sunny"].

Definition RE_news : re := words ["news"; "latest"; "today's news"; "headlines"].

Definition RE_volume_up : re := words ["volume up"; "louder"; "increase volume"].

Definition RE_volume_down : re :=
  words ["volume down"; "quieter"; "lower volume"; "decrease volume"].

Definition RE_mute : re := words ["mute"; "silence"].

Definition RE_screenshot : re :=
  words ["screenshot"; "screen capture"; "capture screen"].

Definition RE_lock : re :=
  seqs [WordB;
        Grp 1 (alts [seqs [lit "lock "; Opt (Grp 2 (lit "the ")); lit "screen"];
                     lit "lock pc";
                     lit "lock computer"]);
        WordB].

Definition RE_shutdown : re :=
  seqs [WordB;
        Grp 1 (alts [lit "shutdown"; lit "shut down"; lit "power off";
                     seqs [lit "turn off "; Opt (Grp 2 (lit "the ")); lit "pc"]]);
        WordB].

Definition RE_restart : re := words ["restart"; "reboot"].

Definition RE_sleep_pc : re :=
  seqs [WordB; Grp 1 (lits ["sleep"; "hibernate"; "put to sleep"]); WordB;
        star is_dot; Opt (Grp 2 (lits ["pc"; "computer"; "system"])); WordB].

Definition RE_list_reminders : re :=
  words ["list reminders"; "show reminders"; "my reminders"; "pending reminders"].

Definition RE_clear_memory : re :=
  words ["clear memory"; "forget everything"; "delete memories"].

(** [_RE[k].search(t)] as a condition *)
Definition hit (r : re) (t : string) : bool := found true r t.

(** ** The patterns local to the handlers *)

(** [at\s+(\d{1,2})(?::(\d{2}))?\s*(am|pm)?] *)
Definition RE_time_pattern : re :=
  seqs [lit "at"; plus is_space;
        Grp 1 (Rep is_digit 1 (Some 2) true);
        Opt (seqs [Chr ":"; Grp 2 (Rep is_digit 2 (Some 2) true)]);
        star is_space;
        Opt (Grp 3 (lits ["am"; "pm"]))].

(** [remind\s+me\s+to\s+(.+?)(?:\s+at\s+[\d:]+|\s*$)] *)
Definition RE_task : re :=
  seqs [lit "remind"; plus is_space; lit "me"; plus is_space; lit "to";
        plus is_space;
        Grp 1 (Rep is_dot 1 None false);
        Alt (seqs [plus is_space; lit "at"; plus is_space; plus digit_or_colon])
            (seqs [star is_space; Eos])].

(** [remember\s+(?:that\s+)?(.+)] *)
Definition RE_fact : re :=
  seqs [lit "remember"; plus is_space;
        Opt (seqs [lit "that"; plus is_space]);
        Grp 1 (plus is_dot)].

(** [\b(calculate|what is|compute|how much is)\b] *)
Definition RE_calc_prefix : re :=
  words ["calculate"; "what is"; "compute"; "how much is"].

(** [^[\d\s\+\-\*\/\^\(\)\.]+$], used with [re.match], which anchors the
    match at index 0 as the leading [^] does. *)
Definition RE_math : re := seqs [plus calc_char; Eos].

(** [m.group(n)] where group [n] takes part in every match. *)
Definition group_str (s : string) (m : mobj) (n : nat) : string :=
  match group s m n with
  | Some g => g
  | None => ""
  end.

(** [datetime.fromisoformat] on what [isoformat(timespec="seconds")]
    writes, [YYYY-MM-DDTHH:MM:SS]; any other string is a [ValueError]. *)
Definition fromisoformat (s : string) : result DT.datetime :=
  let num a n := int_of (substring a n s) in
  let digits a n := forallb_str is_digit (substring a n s) in
  let sep a c := String.eqb (substring a 1 s) c in
  let d := DT.Datetime (num 0 4) (num 5 2) (num 8 2) (num 11 2) (num 14 2)
                       (num 17 2) 0 in
  if Nat.eqb (String.length s) 19 &&
     digits 0 4 && sep 4 "-" && digits 5 2 && sep 7 "-" && digits 8 2 &&
     sep 10 "T" && digits 11 2 && sep 13 ":" && digits 14 2 && sep 16 ":" &&
     digits 17 2 && DT.valid d
  then Returned d
  else Raised (ValueError ("Invalid isoformat string: " ++ s)).

(** [sorted(names, key=len, reverse=True)]: the sort is stable, also when
    reversed, so equally long names keep the order of the dict. *)
Fixpoint insert_by_len (x : string) (l : list string) : list string :=
  match l with
  | [] => [x]
  | y :: l' =>
      if Nat.leb (String.length y) (String.length x) then x :: l
      else y :: insert_by_len x l'
  end.

Definition sorted_by_len_desc (l : list string) : list string :=
  fold_right insert_by_len [] l.

(** The loop the three name handlers share: the first name of the sorted
    table that occurs in the text. *)
Definition first_name_in (table : list (string * string)) (text : string)
  : option string :=
  find (fun name => contains name text) (sorted_by_len_desc (Config.keys table)).

Section WithEnv.
Variable env : Env.

Definition _greet : string :=
  let h := DT.hour (now env) in
  let tod :=
    if (5 <=? h)%Z && (h <? 12)%Z then "Good morning"
    else if (12 <=? h)%Z && (h <? 17)%Z then "Good afternoon"
    else if (17 <=? h)%Z && (h <? 21)%Z then "Good evening"
    else "Hey" in
  tod ++ ", " ++ Config.USER_NAME ++ "! How can I help you today?".

Definition _handle_open (text : string) : option string :=
  option_map (Apps.open_app env) (first_name_in Config.APP_COMMANDS text).

Definition _handle_close (text : string) : option string :=
  option_map (Apps.close_app env) (first_name_in Config.PROCESS_NAMES text).

Definition _handle_folder (text : string) : option string :=
  option_map (Apps.open_folder env) (first_name_in Config.FOLDER_COMMANDS text).

Definition ask_task : string :=
  "What should I remind you about, and at what time?".

Definition ask_time (task : string) : string :=
  "When should I remind you to '" ++ task ++ "'? Please say a time like 'at 8 pm'.".

(** The hour in 24-hour form. *)
Definition to_24h (h : Z) (meridiem : option string) : Z :=
  if truthy meridiem &&
     String.eqb (lower (match meridiem with Some m => m | None => "" end)) "pm" &&
     (h <? 12)%Z
  then (h + 12)%Z
  else if truthy meridiem &&
     String.eqb (lower (match meridiem with Some m => m | None => "" end)) "am" &&
     (h =? 12)%Z
  then 0%Z
  else h.

(** The instant the reminder is set for. *)
Definition remind_instant (h m : Z) : result DT.datetime :=
  try! remind_dt <- DT.replace_time (now env) h m ;;
  if DT.leb remind_dt (now env)
  then DT.add_one_day remind_dt   (* schedule for tomorrow *)
  else Returned remind_dt.

(** [task_match.group(1).strip()] *)
Definition parsed_task (text : string) (tm : Re.mobj) : string :=
  strip (group_str text tm 1).

(** The hour, in 24-hour form, and the minute that [time_pattern] holds. *)
Definition parsed_time (text : string) (tp : Re.mobj) : Z * Z :=
  let h := int_of (group_str text tp 1) in
  let m := if truthy (group text tp 2)
           then int_of (group_str text tp 2) else 0%Z in
  let meridiem := group text tp 3 in
  (to_24h h meridiem, m).

Definition confirm (task time_str : string) : string :=
  "Got it! I'll remind you to '" ++ task ++ "' at " ++ time_str ++ ".".

Definition _handle_remind (d : Storage.db) (text : string)
  : result string * Storage.db :=
  let time_pattern := search true RE_time_pattern text in
  let task_match := search true RE_task text in
  match task_match with
  | None => (Returned ask_task, d)
  | Some tm =>
      let task := parsed_task text tm in
      match time_pattern with
      | Some tp =>
          let (h, m) := parsed_time text tp in
          match remind_instant h m with
          | Raised e => (Raised e, d)
          | Returned remind_dt =>
              let time_str := strftime env "%I:%M %p" remind_dt in
              (Returned (confirm task time_str),
               Storage.add_reminder d task remind_dt)
          end
      | None => (Returned (ask_time task), d)
      end
  end.

Fixpoint reminder_lines (l : list Storage.reminder_view) : result (list string) :=
  match l with
  | [] => Returned []
  | r :: l' =>
      try! dt <- fromisoformat (Storage.v_remind_at r) ;;
      try! rest <- reminder_lines l' ;;
      Returned (("• " ++ Storage.v_task r ++ " — " ++
                 strftime env "%A %I:%M %p" dt) :: rest)
  end.

Definition _list_reminders (d : Storage.db) : result string :=
  match Storage.get_pending_reminders d with
  | [] => Returned "You have no pending reminders."
  | reminders =>
      try! lines <- reminder_lines reminders ;;
      Returned ("Your reminders:" ++ nl ++ join nl lines)
  end.

Definition _handle_remember (d : Storage.db) (text : string)
  : string * Storage.db :=
  match search true RE_fact text with
  | Some fm =>
      let fact := strip (group_str text fm 1) in
      ("I'll remember that: '" ++ fact ++ "'", Storage.save_memory (now env) d fact)
  | None => ("What would you like me to remember?", d)
  end.

Definition _handle_recall (d : Storage.db) : string :=
  match Storage.get_all_memories d with
  | [] => "I don't have anything saved in memory yet."
  | memories =>
      "Here's what I remember:" ++ nl ++
      join nl (map (fun m => "• " ++ fst m ++ "  (saved " ++
                             substring 0 10 (snd m) ++ ")") memories)
  end.

Definition answer_fmt (value : string) : string :=
  "The answer is " ++ value ++ ".".

(** The text left once the prefixes are stripped. *)
Definition calc_cleaned (text : string) : string :=
  strip (sub_empty true RE_calc_prefix text).

Definition _try_calculate (text : string) : option string :=
  let cleaned := calc_cleaned text in
  match match_start false RE_math cleaned with
  | None => None
  | Some _ =>
      let expr := replace_char "^" "**" cleaned in
      option_map answer_fmt (py_eval env expr)
  end.

(** What [process] hands back: the pair it returns or the exception that
    leaves it, and the store as the call leaves it. *)
Definition outcome : Type := (result (string * bool) * Storage.db)%type.

Definition say (d : Storage.db) (response : string) : outcome :=
  (Returned (response, false), d).

(** The knowledge intents and the catch-all. *)
Definition knowledge_stage (d : Storage.db) (t : string) : outcome :=
  if hit RE_weather t then
    say d ("I don't have a weather API, but you can check weather.com or ask me to open Chrome " ++
           "and search for the weather.")
  else if hit RE_what_is t then
    let cleaned := strip (sub_empty true (words what_is_words) t) in
    say d (Knowledge.find_answer env cleaned true)
  else if hit RE_search t then
    let cleaned := strip (sub_empty true (words search_words) t) in
    say d (Knowledge.find_answer env cleaned false)
  else if hit RE_news t then
    say d (Knowledge.find_answer env "latest news today" false)
  else
    say d (Knowledge.find_answer env t true).

Definition calc_stage (d : Storage.db) (t : string) : outcome :=
  match _try_calculate t with
  | Some calc_result => say d calc_result
  | None => knowledge_stage d t
  end.

(** Reminders, then memory, then the calculator. *)
Definition remind_stage (d : Storage.db) (t : string) : outcome :=
  if hit RE_remind t then
    match _handle_remind d t with
    | (Returned r, d') => (Returned (r, false), d')
    | (Raised e, d') => (Raised e, d')
    end
  else if hit RE_list_reminders t then
    match _list_reminders d with
    | Returned r => say d r
    | Raised e => (Raised e, d)
    end
  else if hit RE_remember t then
    let (r, d') := _handle_remember d t in say d' r
  else if hit RE_recall t then
    say d (_handle_recall d)
  else if hit RE_clear_memory t then
    say (Storage.clear_memories d) "I've cleared all stored memories."
  else calc_stage d t.

Definition close_stage (d : Storage.db) (t : string) : outcome :=
  if hit RE_close_app t && truthy (_handle_close t) then
    say d (match _handle_close t with Some r => r | None => "" end)
  else remind_stage d t.

Definition open_stage (d : Storage.db) (t : string) : outcome :=
  if hit RE_open_app t && truthy (_handle_open t) then
    say d (match _handle_open t with Some r => r | None => "" end)
  else close_stage d t.

Definition folder_stage (d : Storage.db) (t : string) : outcome :=
  if hit RE_open_folder t && truthy (_handle_folder t) then
    say d (match _handle_folder t with Some r => r | None => "" end)
  else open_stage d t.

Definition farewell_response : string :=
  "Take care, " ++ Config.USER_NAME ++ "! Shutting down now.".

(** [Brain.process] *)
Definition process (d : Storage.db) (text : string) : outcome :=
  let t := lower (strip text) in
  if String.eqb t "" then say d "I didn't catch that. Could you repeat?"
  else if hit RE_farewell t then (Returned (farewell_response, true), d)
  else if hit RE_greeting t then say d _greet
  else if hit RE_how_are_you t then
    say d ("I'm running perfectly — ready to help you, " ++ Config.USER_NAME ++ "!")
  else if hit RE_time t then
    say d ("It's currently " ++ strftime env "%I:%M %p" (now env) ++ ".")
  else if hit RE_date t then
    say d ("Today is " ++ strftime env "%A, %B %d, %Y" (now env) ++ ".")
  else if hit RE_day t then
    say d ("Today is " ++ strftime env "%A" (now env) ++ ".")
  else if hit RE_joke t then
    say d (nth (random_index env mod List.length JOKES) JOKES "")
  else if hit RE_lock t then say d (Apps.lock_screen env)
  else if hit RE_shutdown t then say d (Apps.shutdown_pc env)
  else if hit RE_restart t then say d (Apps.restart_pc env)
  else if hit RE_sleep_pc t then say d (Apps.sleep_pc env)
  else if hit RE_screenshot t then say d (Apps.take_screenshot env)
  else if hit RE_volume_up t then say d (Apps.volume_change env "up")
  else if hit RE_volume_down t then say d (Apps.volume_change env "down")
  else if hit RE_mute t then say d (Apps.volume_change env "mute")
  else folder_stage d t.

End WithEnv.
End Processor.

(** A collaborator set to run the model on: nothing fails, nothing is found,
    and [eval] knows one sum. *)
Definition quiet_env (clock : DT.datetime) : Env :=
  {| now := clock;
     strftime := fun fmt _ => fmt;
     random_index := 0;
     expandvars := fun p => p;
     startfile := fun _ => None;
     popen := fun _ => None;
     subprocess_run := fun _ => inr 0%Z;
     search_wikipedia := fun _ => None;
     search_duckduckgo := fun _ => None;
     py_eval := fun e => if String.eqb e "2 + 2" then Some "4" else None |}.

Definition nine_am : DT.datetime := DT.Datetime 2024 5 17 9 0 0 0.

(** The same, with an [eval] that knows what Python makes of two more
    expressions: [2 ** 3] is the power, 8, and [2 ^ 3] the exclusive or, 1. *)
Definition power_env (clock : DT.datetime) : Env :=
  {| now := clock;
     strftime := fun fmt _ => fmt;
     random_index := 0;
     expandvars := fun p => p;
     startfile := fun _ => None;
     popen := fun _ => None;
     subprocess_run := fun _ => inr 0%Z;
     search_wikipedia := fun _ => None;
     search_duckduckgo := fun _ => None;
     py_eval := fun e => if String.eqb e "2 ** 3" then Some "8"
                         else if String.eqb e "2 ^ 3" then Some "1"
                         else None |}.

(* ================================================================== *)
(** * memory/storage.py: [ReminderThread]                             *)
(* ================================================================== *)

Module Scheduler.
Import Storage.

(** What the thread hands to its callback. *)
Definition message (r : reminder_view) : string := "⏰ Reminder: " ++ v_task r.

(** One pass of the body of [run]'s loop with nothing else running: the
    due reminders are fetched once; then, one after the other, each is
    delivered and marked.  The result lists the deliveries in the order
    they are made. *)
Fixpoint deliver_all (due_ : list reminder_view) (d : db)
  : list reminder_view * db :=
  match due_ with
  | [] => ([], d)
  | r :: rest =>
      let (log, d') := deliver_all rest (mark_notified d (v_id r)) in
      (r :: log, d')
  end.

Definition cycle (now : DT.datetime) (d : db) : list reminder_view * db :=
  deliver_all (get_due_reminders now d) d.

(** ** Threads

    Every store operation holds [_lock] for its whole transaction, so a run
    of the program is an interleaving of whole store operations and of
    callback invocations.  A polling thread stands at one of these points
    of [run]. *)
Inductive pc : Type :=
| AtLoopHead                                          (* the [while] test, or asleep *)
| InFor (todo : list reminder_view)                   (* about to take the next [r] *)
| Delivered (r : reminder_view) (todo : list reminder_view)  (* [callback] returned *)
| Exited.

Record state : Type := State {
  store : db;
  pollers : list pc;
  (** every callback invocation so far: which thread, which reminder *)
  deliveries : list (nat * reminder_view)
}.

Inductive action : Type :=
| Poll (i : nat) (now : DT.datetime)   (* [due = self.memory.get_due_reminders()] *)
| Deliver (i : nat)                    (* [self.callback(msg)] *)
| Mark (i : nat)                       (* [self.memory.mark_notified(r["id"])] *)
| Sleep (i : nat)                      (* the [for] is done: wait for the next tick *)
| Stop (i : nat)                       (* [_stop_event] is seen set *)
| Ask (env : Env) (text : string).     (* the session loop calls [brain.process] *)

Fixpoint set_nth {A} (i : nat) (x : A) (l : list A) : list A :=
  match l, i with
  | [], _ => []
  | _ :: l', O => x :: l'
  | y :: l', S j => y :: set_nth j x l'
  end.

Definition at_pc (s : state) (i : nat) : option pc := nth_error (pollers s) i.

Definition goto (s : state) (i : nat) (p : pc) : state :=
  State (store s) (set_nth i p (pollers s)) (deliveries s).

(** One atomic step; [None] when the thread is not at that point. *)
Definition step (s : state) (a : action) : option state :=
  match a with
  | Poll i now =>
      match at_pc s i with
      | Some AtLoopHead => Some (goto s i (InFor (get_due_reminders now (store s))))
      | _ => None
      end
  | Deliver i =>
      match at_pc s i with
      | Some (InFor (r :: todo)) =>
          Some (State (store s) (set_nth i (Delivered r todo) (pollers s))
                      (deliveries s ++ [(i, r)]))
      | _ => None
      end
  | Mark i =>
      match at_pc s i with
      | Some (Delivered r todo) =>
          Some (State (mark_notified (store s) (v_id r))
                      (set_nth i (InFor todo) (pollers s)) (deliveries s))
      | _ => None
      end
  | Sleep i =>
      match at_pc s i with
      | Some (InFor []) => Some (goto s i AtLoopHead)
      | _ => None
      end
  | Stop i =>
      match at_pc s i with
      | Some AtLoopHead => Some (goto s i Exited)
      | _ => None
      end
  | Ask env text =>
      Some (State (snd (Processor.process env (store s) text))
                  (pollers s) (deliveries s))
  end.

Fixpoint run (s : state) (trace : list action) : option state :=
  match trace with
  | [] => Some s
  | a :: trace' =>
      match step s a with
      | Some s' => run s' trace'
      | None => None
      end
  end.

(** [n] polling threads started on store [d]. *)
Definition start (n : nat) (d : db) : state :=
  State d (repeat AtLoopHead n) [].


End Scheduler.

(* ================================================================== *)
(** * utils/helpers.py: [sanitize_for_speech]                         *)
(* ================================================================== *)

Module Helpers.
Import Chars Re.

(** Where [^] matches under [re.MULTILINE]: at index 0 and after a line
    feed. *)
Definition line_start (pv : option ascii) : bool :=
  match pv with
  | None => true
  | Some c => Nat.eqb (code c) 10
  end.

(** [re.sub(pattern, repl, s)], the leftmost non-overlapping matches
    replaced, for the patterns of this file, none of which matches the
    empty string.  [bol] says that the pattern starts with [^] and is
    compiled with [re.MULTILINE]; [repl] builds the replacement from the
    match; [skip] counts the characters of the current match still to
    drop. *)
Fixpoint sub_go (ic bol : bool) (r : re) (repl : mobj -> string)
         (skip : nat) (i : nat) (pv : option ascii) (s : string) : string :=
  match s with
  | EmptyString => EmptyString
  | String c s' =>
      match skip with
      | S n => sub_go ic bol r repl n (S i) (Some c) s'
      | O =>
          match (if negb bol || line_start pv
                 then match_here ic r (Cursor i pv s) else None) with
          | Some m =>
              match m_end m - i with
              | O => String c (sub_go ic bol r repl 0 (S i) (Some c) s')
              | S n => repl m ++ sub_go ic bol r repl n (S i) (Some c) s'
              end
          | None => String c (sub_go ic bol r repl 0 (S i) (Some c) s')
          end
      end
  end.

Definition sub (bol : bool) (r : re) (repl : mobj -> string) (s : string)
  : string :=
  sub_go false bol r repl 0 0 None s.

Definition is_star (c : ascii) : bool := Ascii.eqb c "*".
Definition is_hash (c : ascii) : bool := Ascii.eqb c "#".
Definition not_space (c : ascii) : bool := negb (is_space c).

(** [https?://\S+] *)
Definition RE_url : re :=
  seqs [lit "http"; Opt (Chr "s"); lit "://"; plus not_space].

(** [\*{1,3}(.*?)\*{1,3}] *)
Definition RE_emphasis : re :=
  seqs [Rep is_star 1 (Some 3) true; Grp 1 (Rep is_dot 0 None false);
        Rep is_star 1 (Some 3) true].

(** [^#{1,6}\s+] without its [^] *)
Definition RE_header : re :=
  seqs [Rep is_hash 1 (Some 6) true; plus is_space].

(** [\s+] *)
Definition RE_spaces : re := plus is_space.

(** [^[•\-\*]\s+] without its [^]; the bullet is the three bytes of its
    UTF-8 form. *)
Definition RE_bullet : re :=
  seqs [Alt (lit "•") (Cls (fun c => Ascii.eqb c "-" || Ascii.eqb c "*"));
        plus is_space].

Definition sanitize_for_speech (text : string) : string :=
  (* Strip URLs *)
  let text := sub false RE_url (fun _ => "") text in
  (* Strip markdown bold/italic *)
  let text := sub false RE_emphasis
                  (fun m => match group text m 1 with
                            | Some g => g
                            | None => ""
                            end) text in
  (* Strip markdown headers *)
  let text := sub true RE_header (fun _ => "") text in
  (* Collapse whitespace *)
  let text := strip (sub false RE_spaces (fun _ => " ") text) in
  (* Remove bullet characters *)
  let text := sub true RE_bullet (fun _ => "") text in
  text.

End Helpers.

(* ================================================================== *)
(** * main.py: the session loop                                       *)
(* ================================================================== *)

Module Main.
Import Chars.

(** [config.WAKE_WORD] *)
Definition WAKE_WORD : option string := None.

(** [s.replace(old, "")] for a non-empty [old]; [skip] counts the
    characters of the current occurrence still to drop. *)
Fixpoint remove_go (old : string) (skip : nat) (s : string) : string :=
  match s with
  | EmptyString => EmptyString
  | String c s' =>
      match skip with
      | S n => remove_go old n s'
      | O =>
          if prefix old s then remove_go old (String.length old - 1) s'
          else String c (remove_go old 0 s')
      end
  end.

Definition remove_all (old s : string) : string := remove_go old 0 s.

(** [Speaker.say]: a blank text is not spoken.  [spoken] lists what has
    been handed to the speech engine, oldest first. *)
Definition say (spoken : list string) (text : string) : list string :=
  if String.eqb text "" || String.eqb (strip text) "" then spoken
  else (spoken ++ [text])%list.

Definition help_phrases : list string :=
  ["help"; "help me"; "what can you do"; "commands"].

Definition help_reply : string :=
  "I can search Wikipedia and the web, open apps, set reminders, " ++
  "remember things, do maths, and control your Windows PC. " ++
  "Check the terminal for the full list.".

Definition failure_reply : string := "Something went wrong. Please try again.".

(** [greet]: the greeting spoken at start-up. *)
Definition greet (clock : DT.datetime) : string :=
  let h := DT.hour clock in
  if (5 <=? h)%Z && (h <? 12)%Z then
    "What's up " ++ Config.USER_NAME ++ "? Good morning! How can I help you today?"
  else if (12 <=? h)%Z && (h <? 17)%Z then
    "What's up " ++ Config.USER_NAME ++ "? Good afternoon! What can I do for you?"
  else if (17 <=? h)%Z && (h <? 21)%Z then
    "What's up " ++ Config.USER_NAME ++ "? Good evening! Ready to assist."
  else
    "What's up " ++ Config.USER_NAME ++ "? Working late? I'm here to help!".

(** Where the loop stands when the utterances given to it are used up. *)
Inductive status : Type :=
| Listening     (* at [listener.listen()], waiting for the next one *)
| Stopped.      (* after [break]: the reminder thread is told to stop *)

Record session : Type := Session {
  st : status;
  db_ : Storage.db;
  spoken_ : list string
}.

(** One pass of the body of [run]'s [while True] on the utterance the
    listener returned, with the collaborators as they are during this
    pass: [Listening] when the pass ends in [continue] or at the end of
    the body, [Stopped] when it ends in [break]. *)
Definition turn (env : Env) (user_input : string) (d : Storage.db)
           (spoken : list string) : session :=
  (* 1. Get input *)
  if String.eqb user_input "" then Session Listening d spoken
  (* 2. Handle "help" locally *)
  else if existsb (String.eqb (strip user_input)) help_phrases then
    Session Listening d (say spoken help_reply)
  else
    (* 3. Respect wake word (if configured) *)
    let heard :=
      if truthy WAKE_WORD then
        let w := lower (match WAKE_WORD with Some w => w | None => "" end) in
        if contains w user_input then Some (strip (remove_all w user_input))
        else None
      else Some user_input in
    match heard with
    | None => Session Listening d spoken
    | Some user_input =>
        (* 4. Let the brain process the command *)
        match Processor.process env d user_input with
        | (Returned (response, should_exit), d') =>
            (* 5. Speak the response *)
            let clean_response := Helpers.sanitize_for_speech response in
            let spoken' := say spoken clean_response in
            (* 6. Exit if the brain says so *)
            Session (if should_exit then Stopped else Listening) d' spoken'
        | (Raised e, d') =>
            (* except Exception *)
            Session Listening d' (say spoken failure_reply)
        end
    end.

(** The loop on the utterances the listener returns one after the other,
    each with the collaborators of its pass. *)
Fixpoint loop (inputs : list (Env * string)) (d : Storage.db)
         (spoken : list string) : session :=
  match inputs with
  | [] => Session Listening d spoken
  | (env, user_input) :: rest =>
      let s := turn env user_input d spoken in
      match st s with
      | Stopped => s
      | Listening => loop rest (db_ s) (spoken_ s)
      end
  end.

(** [run] from the greeting on, on the store the file holds. *)
Definition run (clock : DT.datetime) (inputs : list (Env * string))
           (d : Storage.db) : session :=
  loop inputs d (say [] (greet clock)).

End Main.

(* ================================================================== *)
(** * Sequences of store operations                                   *)
(* ================================================================== *)

Module StoreOps.
Import Storage.

(** The calls that write to the store. *)
Inductive op : Type :=
| SaveMemory (now_ : DT.datetime) (text : string)
| ClearMemories
| AddReminder (task_ : string) (at_ : DT.datetime)
| MarkNotified (reminder_id : Z).

Definition apply (d : db) (o : op) : db :=
  match o with
  | SaveMemory now_ text => save_memory now_ d text
  | ClearMemories => clear_memories d
  | AddReminder task_ at_ => add_reminder d task_ at_
  | MarkNotified i => mark_notified d i
  end.

Definition apply_all (d : db) (ops : list op) : db := fold_left apply ops d.

Definition is_save (o : op) : bool :=
  match o with SaveMemory _ _ => true | _ => false end.

Definition is_add (o : op) : bool :=
  match o with AddReminder _ _ => true | _ => false end.

End StoreOps.

(* ================================================================== *)
(** * The vocabulary of the statements                                *)
(* ================================================================== *)

Import Chars Processor Storage Scheduler.

(** [o is not None] *)
Definition is_some {A} (o : option A) : bool :=
  match o with
  | Some _ => true
  | None => false
  end.

(** The order of a table sorted longest first. *)
Definition longer_first (a b : string) : Prop :=
  String.length b <= String.length a.

(** What a name handler's choice must be: a configured name occurring in
    the text and no shorter than any other that occurs; or none occurs. *)
Definition choice_ok (table : list (string * string)) (text : string)
           (choice : option string) : Prop :=
  match choice with
  | Some n =>
      In n (Config.keys table) /\ contains n text = true /\
      forall m, In m (Config.keys table) -> contains m text = true ->
                String.length m <= String.length n
  | None => forall m, In m (Config.keys table) -> contains m text = false
  end.

(** A store to run on: one reminder overdue at nine, one delivered, one
    for noon. *)
Definition two_reminders : db :=
  Db [] 0
     [ ReminderRow 1 "call mom" "2024-05-17T08:00:00" 0;
       ReminderRow 2 "stand up" "2024-05-17T08:30:00" 1;
       ReminderRow 3 "lunch" "2024-05-17T12:00:00" 0 ] 3.

(** The conditions of [process] above the reminder intent all fail, and
    the reminder pattern is found. *)
Definition routed_to_remind (env : Env) (t : string) : bool :=
  negb (String.eqb t "") &&
  negb (hit RE_farewell t) && negb (hit RE_greeting t) &&
  negb (hit RE_how_are_you t) && negb (hit RE_time t) && negb (hit RE_date t) &&
  negb (hit RE_day t) && negb (hit RE_joke t) && negb (hit RE_lock t) &&
  negb (hit RE_shutdown t) && negb (hit RE_restart t) && negb (hit RE_sleep_pc t) &&
  negb (hit RE_screenshot t) && negb (hit RE_volume_up t) &&
  negb (hit RE_volume_down t) && negb (hit RE_mute t) &&
  negb (hit RE_open_folder t && truthy (_handle_folder env t)) &&
  negb (hit RE_open_app t && truthy (_handle_open env t)) &&
  negb (hit RE_close_app t && truthy (_handle_close env t)) &&
  hit RE_remind t.

(** [return self._handle_remind(t), False] *)
Definition lift_remind (o : result string * db) : outcome :=
  match o with
  | (Returned r, d') => (Returned (r, false), d')
  | (Raised e, d') => (Raised e, d')
  end.

(** Two stores with the same reminder table. *)
Definition same_reminders (d' d : db) : Prop :=
  reminders d' = reminders d /\ reminders_seq d' = reminders_seq d.

(** [YYYY-MM-DDTHH:MM:SS]: nineteen characters, digits and separators in
    their places, nothing after the seconds. *)
Definition iso_shape (s : string) : bool :=
  let digits a n := forallb_str is_digit (substring a n s) in
  let sep a c := String.eqb (substring a 1 s) c in
  Nat.eqb (String.length s) 19 &&
  digits 0 4 && sep 4 "-" && digits 5 2 && sep 7 "-" && digits 8 2 &&
  sep 10 "T" && digits 11 2 && sep 13 ":" && digits 14 2 && sep 16 ":" &&
  digits 17 2.

(** Every row's [remind_at] is the text of some instant. *)
Definition rows_iso (d : db) : Prop :=
  Forall (fun r => exists dt, DT.valid dt = true /\
                              remind_at r = DT.isoformat_seconds dt)
         (reminders d).

(** The steps one thread takes through its [for] loop over [n] rows. *)
Fixpoint for_trace (n : nat) : list action :=
  match n with
  | O => [Sleep 0]
  | S k => Deliver 0 :: Mark 0 :: for_trace k
  end.

(** In the ISO text's order, each row at most the next. *)
Definition ascending_remind_at (l : list reminder_view) : Prop :=
  Sorted (fun x y => String.leb (v_remind_at x) (v_remind_at y) = true) l.

(** Two clock readings of one evening. *)
Definition eight_pm : DT.datetime := DT.Datetime 2024 5 17 20 0 0 0.

Definition eleven_pm : DT.datetime := DT.Datetime 2024 5 17 23 0 0 0.

(** The store after two requests made at 8 pm: the later time first. *)
Definition late_then_early : db :=
  snd (process (quiet_env eight_pm)
         (snd (process (quiet_env eight_pm) empty_db "Remind me to call mom at 10 pm"))
         "Remind me to feed the cat at 9 pm").

(** The call returns a pair. *)
Definition returns (o : outcome) : Prop :=
  exists r b, fst o = Returned (r, b).

(** The call does not ask the session to end. *)
Definition stays (o : outcome) : Prop :=
  forall r, fst o <> Returned (r, true).

(** The order [ORDER BY remind_at] sorts by. *)
Definition by_remind_at (x y : reminder_row) : Prop :=
  String.leb (remind_at x) (remind_at y) = true.

Section OverZ.
Local Open Scope Z_scope.

(** An hour and a minute that [datetime.replace] accepts. *)
Definition is_time_of_day (hm : Z * Z) : bool :=
  (0 <=? fst hm) && (fst hm <? 24) && (0 <=? snd hm) && (snd hm <? 60).

(** The last day [datetime] can hold. *)
Definition last_day (d : DT.datetime) : bool :=
  (DT.year d =? 9999) && (DT.month d =? 12) && (DT.day d =? 31).

(** The clock's day at [h]:[m]:00. *)
Definition same_day_at (n : DT.datetime) (h m : Z) : DT.datetime :=
  DT.Datetime (DT.year n) (DT.month n) (DT.day n) h m 0 0.

(** The ids ascend strictly along the table and none exceeds the
    AUTOINCREMENT counter. *)
Definition db_ok (d : db) : Prop :=
  StronglySorted Z.lt (map id (reminders d)) /\
  Forall (fun r => id r <= reminders_seq d) (reminders d).





End OverZ.

(** ** For the further properties *)

(** [text] holds nothing but white space. *)
Definition blank (text : string) : bool := forallb_str is_space text.

(** The characters an expression handed to [eval] is made of. *)
Definition safe_char (c : ascii) : bool :=
  is_digit c || is_space c ||
  existsb (Ascii.eqb c) (list_ascii_of_string "+-*/().").

(** [s] holds no [^]. *)
Definition caret_free (s : string) : bool :=
  forallb_str (fun c => negb (Ascii.eqb c "^")) s.

(** [parts] are the pieces of [s] between its carets: [s] is the pieces
    with a [^] between each two, and no piece holds one. *)
Definition pieces_of (s : string) (parts : list string) : Prop :=
  Forall (fun p => caret_free p = true) parts /\ s = join "^" parts.

(** The one write a call may make to the store. *)
Inductive store_effect (env : Env) (d : db) : db -> Prop :=
| NoWrite : store_effect env d d
| NoteSaved (fact : string) :
    store_effect env d (save_memory (now env) d fact)
| NotesCleared : store_effect env d (clear_memories d)
| ReminderAdded (task_ : string) (dt : DT.datetime) :
    store_effect env d (add_reminder d task_ dt).

(** What [open_app] reports once the path is known. *)
Definition open_report (env : Env) (n path : string) : string :=
  match (if prefix "ms-" (expandvars env path)
         then startfile env (expandvars env path)
         else popen env (expandvars env path)) with
  | None => "Opening " ++ n ++ "."
  | Some (FileNotFoundError _) =>
      "Couldn't find '" ++ n ++ "'. " ++
      "Check the path in config.py: " ++ expandvars env path
  | Some (OtherException e) => "Failed to open " ++ n ++ ": " ++ e
  end.

(** What [close_app] reports once the process name is known. *)
Definition close_report (env : Env) (n proc : string) : string :=
  match subprocess_run env ["taskkill"; "/F"; "/IM"; proc; "/T"] with
  | inr rc =>
      if Z.eqb rc 0 then "Closed " ++ n ++ "."
      else n ++ " doesn't seem to be running."
  | inl e => "Couldn't close " ++ n ++ ": " ++ fault_msg e
  end.

(** What [open_folder] reports once the path is known. *)
Definition folder_report (env : Env) (n path : string) : string :=
  match startfile env (expandvars env path) with
  | None => "Opening your " ++ n ++ " folder."
  | Some e => "Couldn't open " ++ n ++ ": " ++ fault_msg e
  end.

(** The line [_handle_recall] writes for a note. *)
Definition recall_line (m : string * string) : string :=
  "• " ++ fst m ++ "  (saved " ++ substring 0 10 (snd m) ++ ")".

(** A string that does not begin with white space. *)
Definition no_lead (s : string) : bool :=
  match s with
  | EmptyString => true
  | String c _ => negb (is_space c)
  end.

(** Every key of the table is in lower case and has a non-empty entry. *)
Definition well_keyed (table : list (string * string)) : bool :=
  forallb (fun k => String.eqb (lower k) k && truthy (Config.get table k))
          (Config.keys table).

(** [YYYY-MM-DD] *)
Definition iso_date (d : DT.datetime) : string :=
  DT.pad4 (DT.year d) ++ "-" ++ DT.pad2 (DT.month d) ++ "-" ++ DT.pad2 (DT.day d).

(** The ids [k+1, ..., k+n]. *)
Definition ids_from (k n : nat) : list Z := map Z.of_nat (seq (S k) n).

(** How many operations of a kind a sequence holds. *)
Definition count (f : StoreOps.op -> bool) (ops : list StoreOps.op) : nat :=
  List.length (filter f ops).

(** The row with its flag set, as [mark_notified] leaves it. *)
Definition marked (r : reminder_row) : reminder_row :=
  ReminderRow (id r) (task r) (remind_at r) 1.

(** A reminder table [l] as it may be found later, [l']: every row still
    in its place with its id, task and time, its flag as it was or set;
    rows may have been added behind. *)
Definition persists (l l' : list reminder_row) : Prop :=
  forall k r, nth_error l k = Some r ->
    exists r', nth_error l' k = Some r' /\
      id r' = id r /\ task r' = task r /\ remind_at r' = remind_at r /\
      (notified r' = notified r \/ notified r' = 1%Z).

(** Thread [i] has fetched [v] at a poll in [seen] at which it was due. *)
Definition fetched_due (seen : list action) (i : nat) (v : reminder_view) : Prop :=
  exists now_, In (Poll i now_) seen /\
    String.leb (v_remind_at v) (DT.isoformat_seconds now_) = true.

(** The rows a thread holds at its point of [run]. *)
Definition held (p : pc) : list reminder_view :=
  match p with
  | InFor todo => todo
  | Delivered r todo => r :: todo
  | _ => []
  end.

(** The order in time of two stored texts. *)
Definition chronological (x y : reminder_view) : Prop :=
  exists a b, DT.valid a = true /\ DT.valid b = true /\
    v_remind_at x = DT.isoformat_seconds a /\
    v_remind_at y = DT.isoformat_seconds b /\
    DT.leb (DT.trunc_seconds a) (DT.trunc_seconds b) = true.

(** Every delivery made and every row a thread holds was due at a poll
    of that thread. *)
Definition well_fetched (seen : list action) (s : state) : Prop :=
  (forall i v, In (i, v) (deliveries s) -> fetched_due seen i v) /\
  (forall i p v, nth_error (pollers s) i = Some p -> In v (held p) ->
                 fetched_due seen i v).

(** The state of the two counters and the ids in the tables. *)
Definition counted (d : db) (adds saves : nat) : Prop :=
  map id (reminders d) = ids_from 0 adds /\
  reminders_seq d = Z.of_nat adds /\
  memories_seq d = Z.of_nat saves /\
  (List.length (memories d) <= saves)%nat /\
  map mem_id (memories d)
  = ids_from (saves - List.length (memories d)) (List.length (memories d)).

(** The answer [find_answer] gives when both searches fail. *)
Definition no_answer : string :=
  "I couldn't find a reliable answer for that. Try asking me something else!".

(** The utterance is one of the help phrases. *)
Definition is_help (u : string) : bool :=
  existsb (String.eqb (strip u)) Main.help_phrases.

(** The utterance reaches the router and holds a farewell phrase. *)
Definition ends_session (u : string) : bool :=
  negb (String.eqb u "") && negb (is_help u) &&
  hit RE_farewell (lower (strip u)).

(** The clock of every pass reads a valid instant. *)
Definition clocks_valid (inputs : list (Env * string)) : Prop :=
  Forall (fun p => DT.valid (now (fst p)) = true) inputs.

(** White space collapsed to single blanks; [in_run] says that the
    character before was white space. *)
Fixpoint squeeze (in_run : bool) (s : string) : string :=
  match s with
  | EmptyString => EmptyString
  | String c s' =>
      if is_space c
      then if in_run then squeeze true s' else String " " (squeeze true s')
      else String c (squeeze false s')
  end.

(** Every white-space character is a blank and no two are adjacent;
    [after_space] says that the character before was white space. *)
Fixpoint loose (after_space : bool) (s : string) : bool :=
  match s with
  | EmptyString => true
  | String c s' =>
      if is_space c
      then Ascii.eqb c " " && negb after_space && loose true s'
      else loose false s'
  end.

(** As [loose], and the string does not end on white space. *)
Fixpoint spaced (after_space : bool) (s : string) : bool :=
  match s with
  | EmptyString => negb after_space
  | String c s' =>
      if is_space c
      then Ascii.eqb c " " && negb after_space && spaced true s'
      else spaced false s'
  end.

(** Words separated by single blanks: no other white space, none at
    either end. *)
Definition tidy (s : string) : bool :=
  match s with
  | EmptyString => true
  | _ => spaced true s
  end.

(** The length of the longest prefix in the class. *)
Fixpoint span (p : ascii -> bool) (s : string) : nat :=
  match s with
  | String c s' => if p c then S (span p s') else O
  | EmptyString => O
  end.

(** The cursor after the longest prefix in the class. *)
Fixpoint after_run (p : ascii -> bool) (i : nat) (pv : option ascii)
         (s : string) : Re.cursor :=
  match s with
  | String c s' => if p c then after_run p (S i) (Some c) s' else Re.Cursor i pv s
  | EmptyString => Re.Cursor i pv s
  end.

(** [s[n:]] *)
Fixpoint drop (n : nat) (s : string) : string :=
  match n, s with
  | S n', String _ s' => drop n' s'
  | _, _ => s
  end.

(** No line feed in the string. *)
Definition no_lf (s : string) : bool :=
  forallb_str (fun c => negb (Nat.eqb (code c) 10)) s.

(** A text fit to be spoken: not empty, one line of words separated by
    single blanks. *)
Definition speakable (t : string) : Prop := t <> "" /\ tidy t = true.

(** The line [_list_reminders] writes for a reminder set for [dt]. *)
Definition reminder_line (env : Env) (v : reminder_view) (dt : DT.datetime)
  : string :=
  "• " ++ v_task v ++ " — " ++ strftime env "%A %I:%M %p" dt.

(** [line] is the line of [v], whose text is that of a valid instant. *)
Definition line_of (env : Env) (v : reminder_view) (line : string) : Prop :=
  exists dt, DT.valid dt = true /\
    v_remind_at v = DT.isoformat_seconds dt /\
    line = reminder_line env v (DT.trunc_seconds dt).

(* ================================================================== *)
(** * Properties                                                      *)
(* ================================================================== *)

(** ** The matcher on small inputs *)

Example farewell_word_boundaries :
  hit RE_farewell "good morning, bye" = true /\
  hit RE_farewell "byebye" = false /\
  hit RE_farewell "see you" = true /\
  hit RE_farewell "later_" = false.
Proof. repeat split; reflexivity. Qed.

Example task_and_time_groups :
  let t := "remind me to call mom at 8 pm" in
  option_map (fun m => Re.group t m 1) (Re.search true RE_task t)
    = Some (Some "call mom") /\
  option_map (fun m => (Re.group t m 1, Re.group t m 2, Re.group t m 3))
             (Re.search true RE_time_pattern t)
    = Some (Some "8", None, Some "pm").
Proof. split; reflexivity. Qed.

(** ** Farewell first *)

Lemma hit_farewell_nonempty (t : string) :
  hit RE_farewell t = true -> String.eqb t "" = false.
Proof.
  destruct t as [|c t']; [discriminate | reflexivity].
Qed.

(** C1. Whenever the trimmed, lower-cased input contains a farewell phrase,
    [process] returns the farewell response with terminate=true and leaves
    the store alone; the check comes before every other intent, so nothing
    else in the input, the store or the collaborators can change this. *)
Theorem farewell_terminates (env : Env) (d : Storage.db) (text : string) :
  hit RE_farewell (lower (strip text)) = true ->
  process env d text = (Returned (farewell_response, true), d).
Proof.
  intros H. unfold process.
  rewrite (hit_farewell_nonempty _ H), H. reflexivity.
Qed.

Lemma farewell_terminates_witness :
  process (quiet_env nine_am) Storage.empty_db "  Good morning, BYE "
  = (Returned ("Take care, Rihan! Shutting down now.", true), Storage.empty_db).
Proof.
  apply (farewell_terminates (quiet_env nine_am) Storage.empty_db
           "  Good morning, BYE ").
  vm_compute. reflexivity.
Defined.

(** ** The calculator *)

(** A greedy run of a class that holds the line feed, followed by [$]:
    it matches exactly the strings made of the class, long enough. *)
Lemma rep_then_eos (p : ascii -> bool) (A : Type) (f : Re.cursor -> Re.caps -> A) :
  p (ascii_of_nat 10) = true ->
  forall s lo i pv cs,
    is_some (Re.rep p true lo None i pv s cs
               (fun cur cs' => if Re.at_end cur then Some (f cur cs') else None))
    = forallb_str p s && Nat.leb lo (String.length s).
Proof.
  intros Hnl. induction s as [|c s IH]; intros lo i pv cs.
  - destruct lo; reflexivity.
  - cbn [Re.rep forallb_str String.length].
    destruct (p c) eqn:Hc; cbn [andb Re.may_take Re.dec_hi option_map].
    + destruct lo as [|lo]; cbn [pred].
      * unfold Re.orelse.
        specialize (IH 0 (S i) (Some c) cs). cbn [Nat.leb] in *.
        rewrite andb_true_r in *.
        destruct (Re.rep p true 0 None (S i) (Some c) s cs _) eqn:E.
        -- exact IH.
        -- rewrite <- IH. unfold Re.at_end. cbn [Re.rest].
           destruct s; [discriminate IH | reflexivity].
      * apply IH.
    + destruct lo as [|lo]; [|reflexivity].
      unfold Re.orelse, Re.at_end. cbn [Re.rest].
      destruct s; [|reflexivity].
      destruct (Nat.eqb (code c) 10) eqn:E; [|reflexivity].
      apply Nat.eqb_eq in E. unfold code in E.
      rewrite <- (ascii_nat_embedding c), E, Hnl in Hc. discriminate.
Qed.

Lemma math_match_iff (s : string) :
  is_some (Re.match_start false RE_math s)
  = forallb_str calc_char s && negb (String.eqb s "").
Proof.
  unfold Re.match_start, Re.match_here, RE_math, Re.seqs, Re.plus.
  cbn [Re.run Re.pos Re.prev Re.rest].
  rewrite (rep_then_eos calc_char (fun cur cs => Re.Match 0 (Re.pos cur) cs))
    by reflexivity.
  destruct s; reflexivity.
Qed.

Lemma replace_caret_safe (s : string) :
  forallb_str calc_char s = true ->
  forallb_str safe_char (replace_char "^" "**" s) = true.
Proof.
  induction s as [|c s IH]; cbn [forallb_str replace_char]; [reflexivity|].
  intros H. apply andb_prop in H. destruct H as [Hc Hs].
  destruct (Ascii.eqb c "^") eqn:E.
  - cbn [String.append forallb_str]. rewrite (IH Hs). reflexivity.
  - cbn [forallb_str]. rewrite (IH Hs), andb_true_r.
    unfold calc_char in Hc. unfold safe_char.
    cbn [list_ascii_of_string existsb] in *.
    rewrite E in Hc. revert Hc.
    destruct (is_digit c); destruct (is_space c);
      repeat match goal with
             | |- context [Ascii.eqb c ?x] => destruct (Ascii.eqb c x)
             end; cbn; congruence.
Qed.

Lemma append_assoc (a b c : string) : (a ++ b) ++ c = a ++ b ++ c.
Proof.
  induction a as [|x a IH]; cbn [String.append]; [reflexivity|].
  rewrite IH. reflexivity.
Qed.

Lemma replace_char_app (c : ascii) (by_ a b : string) :
  replace_char c by_ (a ++ b) = replace_char c by_ a ++ replace_char c by_ b.
Proof.
  induction a as [|x a IH]; cbn [String.append replace_char]; [reflexivity|].
  rewrite IH. destruct (Ascii.eqb x c); cbn [String.append]; [|reflexivity].
  rewrite append_assoc. reflexivity.
Qed.

Lemma replace_caret_free (by_ s : string) :
  caret_free s = true -> replace_char "^" by_ s = s.
Proof.
  unfold caret_free.
  induction s as [|x s IH]; cbn [forallb_str replace_char]; [reflexivity|].
  intros H. apply andb_prop in H. destruct H as [Hx Hs].
  destruct (Ascii.eqb x "^"); [discriminate Hx|].
  rewrite (IH Hs). reflexivity.
Qed.

(** Replacing each [^] puts the replacement between the pieces. *)
Lemma replace_caret_pieces (by_ : string) (parts : list string) :
  Forall (fun p => caret_free p = true) parts ->
  replace_char "^" by_ (join "^" parts) = join by_ parts.
Proof.
  induction 1 as [|p l Hp Hl IH]; [reflexivity|].
  destruct l as [|q l].
  - cbn [join]. apply (@replace_caret_free by_ p Hp).
  - change (join "^" (p :: q :: l)) with (p ++ "^" ++ join "^" (q :: l)).
    change (join by_ (p :: q :: l)) with (p ++ by_ ++ join by_ (q :: l)).
    rewrite replace_char_app, (@replace_caret_free by_ p Hp).
    change ("^" ++ join "^" (q :: l)) with (String "^" (join "^" (q :: l))).
    cbn [replace_char]. rewrite IH. reflexivity.
Qed.

(** Every text has its pieces. *)
Lemma pieces_exist (s : string) : exists parts, pieces_of s parts.
Proof.
  assert (G : exists p ps, pieces_of s (p :: ps)).
  { induction s as [|x s (p & ps & F & E)].
    - exists EmptyString, []. split; [repeat constructor | reflexivity].
    - destruct (Ascii.eqb x "^") eqn:X.
      + apply Ascii.eqb_eq in X. subst x.
        exists EmptyString, (p :: ps). split; [constructor; [reflexivity | exact F]|].
        change (join "^" (EmptyString :: p :: ps))
          with (String "^" (join "^" (p :: ps))).
        rewrite <- E. reflexivity.
      + exists (String x p), ps.
        pose proof (Forall_inv F) as Hp. pose proof (Forall_inv_tail F) as Hps.
        cbv beta in Hp. split.
        * constructor; [|exact Hps].
          unfold caret_free in *. cbn [forallb_str]. rewrite X, Hp. reflexivity.
        * rewrite E. destruct ps; reflexivity. }
  destruct G as (p & ps & G). exists (p :: ps). exact G.
Qed.

(** C6. On the text left after the prefixes are stripped: a character
    outside digits, white space and [+ - * / ^ ( ) .] makes the calculator
    return no match.  Otherwise (the remainder not being empty) what goes to
    the evaluator is the remainder with [**] where each [^] was: the pieces
    between the carets, unchanged and in order, with [**] between each two;
    it holds no [^] any more, and nothing but digits, white space and
    [+ - * / ( ) .].  The value is reported as "The answer is <value>."
    while an evaluation fault is no match; an empty remainder is no match
    either.  No match sends the router on to the knowledge intents. *)
Theorem calculator_guard (env : Env) (d : Storage.db) (text : string) :
  (forallb_str calc_char (calc_cleaned text) = false ->
     _try_calculate env text = None) /\
  (exists parts, pieces_of (calc_cleaned text) parts) /\
  (forall parts,
     pieces_of (calc_cleaned text) parts ->
     forallb_str calc_char (calc_cleaned text) = true ->
     calc_cleaned text <> "" ->
     caret_free (join "**" parts) = true /\
     forallb_str safe_char (join "**" parts) = true /\
     _try_calculate env text
     = match py_eval env (join "**" parts) with
       | Some value => Some ("The answer is " ++ value ++ ".")
       | None => None
       end) /\
  (calc_cleaned text = "" -> _try_calculate env text = None) /\
  (_try_calculate env text = None ->
     calc_stage env d text = knowledge_stage env d text) /\
  (forall r, _try_calculate env text = Some r ->
     calc_stage env d text = (Returned (r, false), d)).
Proof.
  unfold calc_stage.
  pose proof (math_match_iff (calc_cleaned text)) as M.
  split; [|split; [|split; [|split; [|split]]]].
  - intros H. unfold _try_calculate. rewrite H in M.
    destruct (Re.match_start false RE_math (calc_cleaned text));
      [discriminate M | reflexivity].
  - apply pieces_exist.
  - intros parts [F E] H Hne.
    pose proof (replace_caret_safe _ H) as Safe.
    rewrite E, (@replace_caret_pieces "**" parts F) in Safe.
    split; [|split; [exact Safe|]].
    + clear - Safe. unfold caret_free.
      induction (join "**" parts) as [|c s IH]; [reflexivity|].
      cbn [forallb_str] in *. apply andb_prop in Safe. destruct Safe as [Sc Ss].
      rewrite (IH Ss), andb_true_r.
      destruct (Ascii.eqb c "^") eqn:X; [|reflexivity].
      apply Ascii.eqb_eq in X. subst c. discriminate Sc.
    + unfold _try_calculate. rewrite H in M.
      destruct (String.eqb_spec (calc_cleaned text) ""); [contradiction|].
      destruct (Re.match_start false RE_math (calc_cleaned text)); [|discriminate M].
      cbv zeta. rewrite E at 1. rewrite (@replace_caret_pieces "**" parts F).
      destruct (py_eval env _); reflexivity.
  - intros H. unfold _try_calculate. rewrite H. reflexivity.
  - intros H. rewrite H. reflexivity.
  - intros r H. rewrite H. reflexivity.
Qed.

Lemma calculator_guard_witness :
  _try_calculate (quiet_env nine_am) "calculate rm -rf" = None /\
  _try_calculate (quiet_env nine_am) "calculate 2 + 2" = Some "The answer is 4." /\
  _try_calculate (power_env nine_am) "calculate 2 ^ 3" = Some "The answer is 8." /\
  _try_calculate (quiet_env nine_am) "compute" = None /\
  calc_stage (quiet_env nine_am) Storage.empty_db "calculate rm -rf"
  = knowledge_stage (quiet_env nine_am) Storage.empty_db "calculate rm -rf" /\
  calc_stage (power_env nine_am) Storage.empty_db "what is 2 ^ 3"
  = (Returned ("The answer is 8.", false), Storage.empty_db).
Proof.
  pose proof (calculator_guard (quiet_env nine_am) Storage.empty_db "calculate rm -rf")
    as [A1 [_ [_ [_ [A5 _]]]]].
  pose proof (calculator_guard (quiet_env nine_am) Storage.empty_db "calculate 2 + 2")
    as [_ [_ [B3 _]]].
  pose proof (calculator_guard (power_env nine_am) Storage.empty_db "calculate 2 ^ 3")
    as [_ [_ [P3 _]]].
  pose proof (calculator_guard (power_env nine_am) Storage.empty_db "what is 2 ^ 3")
    as [_ [_ [Q3 [_ [_ Q6]]]]].
  pose proof (calculator_guard (quiet_env nine_am) Storage.empty_db "compute")
    as [_ [_ [_ [C4 _]]]].
  split; [apply A1; vm_compute; reflexivity|].
  split.
  { apply (B3 ["2 + 2"]).
    - split; [repeat constructor | vm_compute; reflexivity].
    - vm_compute; reflexivity.
    - vm_compute; discriminate. }
  split.
  { apply (P3 ["2 "; " 3"]).
    - split; [repeat constructor | vm_compute; reflexivity].
    - vm_compute; reflexivity.
    - vm_compute; discriminate. }
  split; [apply C4; vm_compute; reflexivity|].
  split; [apply A5; vm_compute; reflexivity|].
  apply Q6.
  apply (Q3 ["2 "; " 3"]).
  - split; [repeat constructor | vm_compute; reflexivity].
  - vm_compute; reflexivity.
  - vm_compute; discriminate.
Defined.

(** ** Longest name first *)

Lemma insert_by_len_In (x : string) (l : list string) (y : string) :
  In y (insert_by_len x l) <-> y = x \/ In y l.
Proof.
  induction l as [|z l IH]; cbn [insert_by_len].
  - cbn. intuition.
  - destruct (Nat.leb (String.length z) (String.length x)); cbn [In].
    + intuition.
    + rewrite IH. intuition.
Qed.

Lemma insert_by_len_sorted (x : string) (l : list string) :
  StronglySorted longer_first l -> StronglySorted longer_first (insert_by_len x l).
Proof.
  induction 1 as [|z l Hs IH Hz]; cbn [insert_by_len].
  - repeat constructor.
  - destruct (Nat.leb (String.length z) (String.length x)) eqn:E.
    + apply Nat.leb_le in E. constructor.
      * constructor; assumption.
      * constructor; [exact E|].
        rewrite Forall_forall in *. intros y Hy. specialize (Hz y Hy).
        unfold longer_first in *. lia.
    + apply Nat.leb_gt in E. constructor; [exact IH|].
      rewrite Forall_forall in *. intros y Hy.
      apply insert_by_len_In in Hy. destruct Hy as [->|Hy].
      * unfold longer_first. lia.
      * apply Hz, Hy.
Qed.

Lemma sorted_by_len_desc_In (l : list string) (y : string) :
  In y (sorted_by_len_desc l) <-> In y l.
Proof.
  induction l as [|x l IH]; cbn [sorted_by_len_desc fold_right]; [tauto|].
  rewrite insert_by_len_In. fold (sorted_by_len_desc l). rewrite IH.
  cbn. intuition.
Qed.

Lemma sorted_by_len_desc_sorted (l : list string) :
  StronglySorted longer_first (sorted_by_len_desc l).
Proof.
  induction l as [|x l IH]; cbn [sorted_by_len_desc fold_right].
  - constructor.
  - apply insert_by_len_sorted, IH.
Qed.

(** The first hit of a search through a list sorted longest first is at
    least as long as every other hit. *)
Lemma find_in_sorted (p : string -> bool) (l : list string) :
  StronglySorted longer_first l ->
  match find p l with
  | Some n => In n l /\ p n = true /\
              forall m, In m l -> p m = true -> String.length m <= String.length n
  | None => forall m, In m l -> p m = false
  end.
Proof.
  induction 1 as [|x l Hs IH Hx]; cbn [find].
  - intros m [].
  - destruct (p x) eqn:Px.
    + split; [left; reflexivity|]. split; [exact Px|].
      intros m [->|Hm] _; [lia|].
      rewrite Forall_forall in Hx. apply (Hx m Hm).
    + destruct (find p l) as [n|].
      * destruct IH as (Hin & Pn & Hmax). split; [right; exact Hin|].
        split; [exact Pn|].
        intros m [->|Hm] Pm; [congruence | apply Hmax; assumption].
      * intros m [->|Hm]; [exact Px | apply IH, Hm].
Qed.

Lemma first_name_in_ok (table : list (string * string)) (text : string) :
  choice_ok table text (first_name_in table text).
Proof.
  unfold choice_ok, first_name_in.
  pose proof (find_in_sorted (fun name => contains name text)
                (sorted_by_len_desc_sorted (Config.keys table))) as H.
  destruct (find _ _) as [n|].
  - destruct H as (Hin & Pn & Hmax). rewrite sorted_by_len_desc_In in Hin.
    repeat split; try assumption.
    intros m Hm Pm. apply Hmax; [rewrite sorted_by_len_desc_In|]; assumption.
  - intros m Hm. apply H. rewrite sorted_by_len_desc_In. exact Hm.
Qed.

Lemma append_nonempty_l (a b : string) : a <> "" -> a ++ b <> "".
Proof. destruct a; [congruence | discriminate]. Qed.

Lemma append_nonempty_r (a b : string) : b <> "" -> a ++ b <> "".
Proof. destruct a; [trivial | discriminate]. Qed.

Lemma truthy_Some (s : string) : s <> "" -> truthy (Some s) = true.
Proof.
  intros H. unfold truthy. destruct (String.eqb_spec s ""); [contradiction | reflexivity].
Qed.

Ltac nonempty :=
  repeat first
    [ apply append_nonempty_l; discriminate
    | apply append_nonempty_r ];
  try discriminate.

Lemma open_app_truthy (env : Env) (n : string) :
  truthy (Some (Apps.open_app env n)) = true.
Proof.
  apply truthy_Some. unfold Apps.open_app.
  destruct (negb (truthy _)); [nonempty|].
  destruct (if prefix "ms-" _ then _ else _) as [[?|?]|]; nonempty.
Qed.

Lemma close_app_truthy (env : Env) (n : string) :
  truthy (Some (Apps.close_app env n)) = true.
Proof.
  apply truthy_Some. unfold Apps.close_app.
  destruct (negb (truthy _)); [nonempty|].
  destruct (subprocess_run env _) as [?|rc]; [nonempty|].
  destruct (Z.eqb rc 0); nonempty.
Qed.

Lemma open_folder_truthy (env : Env) (n : string) :
  truthy (Some (Apps.open_folder env n)) = true.
Proof.
  apply truthy_Some. unfold Apps.open_folder.
  destruct (negb (truthy _)); [nonempty|].
  destruct (startfile env _); nonempty.
Qed.

(** C7. Each of the three name handlers picks, among the configured names
    that occur in the text, one of the greatest length (the first such in
    the table sorted longest first), and hands it to the launcher, whose
    report is the response; when no configured name occurs the handler has
    no match and the router goes on to the next intent. *)
Theorem longest_name_first (env : Env) (d : Storage.db) (t : string) :
  (forall table,
     StronglySorted longer_first (sorted_by_len_desc (Config.keys table)) /\
     (forall n, In n (sorted_by_len_desc (Config.keys table)) <->
                In n (Config.keys table)) /\
     first_name_in table t
     = find (fun name => contains name t) (sorted_by_len_desc (Config.keys table))) /\
  (choice_ok Config.FOLDER_COMMANDS t (first_name_in Config.FOLDER_COMMANDS t) /\
   choice_ok Config.APP_COMMANDS t (first_name_in Config.APP_COMMANDS t) /\
   choice_ok Config.PROCESS_NAMES t (first_name_in Config.PROCESS_NAMES t)) /\
  (folder_stage env d t =
     match first_name_in Config.FOLDER_COMMANDS t with
     | Some n => if hit RE_open_folder t
                 then (Returned (Apps.open_folder env n, false), d)
                 else open_stage env d t
     | None => open_stage env d t
     end) /\
  (open_stage env d t =
     match first_name_in Config.APP_COMMANDS t with
     | Some n => if hit RE_open_app t
                 then (Returned (Apps.open_app env n, false), d)
                 else close_stage env d t
     | None => close_stage env d t
     end) /\
  (close_stage env d t =
     match first_name_in Config.PROCESS_NAMES t with
     | Some n => if hit RE_close_app t
                 then (Returned (Apps.close_app env n, false), d)
                 else remind_stage env d t
     | None => remind_stage env d t
     end).
Proof.
  split.
  { intros table. split; [apply sorted_by_len_desc_sorted|].
    split; [intros n; apply sorted_by_len_desc_In | reflexivity]. }
  split; [repeat split; apply first_name_in_ok|].
  unfold folder_stage, open_stage, close_stage,
    _handle_folder, _handle_open, _handle_close.
  split; [|split].
  - destruct (first_name_in Config.FOLDER_COMMANDS t) as [n|]; cbn [option_map].
    + rewrite open_folder_truthy, andb_true_r. reflexivity.
    + cbn [truthy]. rewrite andb_false_r. reflexivity.
  - destruct (first_name_in Config.APP_COMMANDS t) as [n|]; cbn [option_map].
    + rewrite open_app_truthy, andb_true_r. reflexivity.
    + cbn [truthy]. rewrite andb_false_r. reflexivity.
  - destruct (first_name_in Config.PROCESS_NAMES t) as [n|]; cbn [option_map].
    + rewrite close_app_truthy, andb_true_r. reflexivity.
    + cbn [truthy]. rewrite andb_false_r. reflexivity.
Qed.

Lemma longest_name_first_witness :
  choice_ok Config.APP_COMMANDS "open google chrome"
    (first_name_in Config.APP_COMMANDS "open google chrome") /\
  first_name_in Config.APP_COMMANDS "open google chrome" = Some "google chrome" /\
  contains "vs code" "open vs code in visual studio code" = true /\
  first_name_in Config.APP_COMMANDS "open vs code in visual studio code"
  = Some "visual studio code" /\
  open_stage (quiet_env nine_am) empty_db "open visual studio code"
  = (Returned ("Opening visual studio code.", false), empty_db).
Proof.
  pose proof (longest_name_first (quiet_env nine_am) empty_db
                "open google chrome") as (_ & (_ & H & _) & _).
  pose proof (longest_name_first (quiet_env nine_am) empty_db
                "open visual studio code") as (_ & _ & _ & O & _).
  split; [exact H|]. split; [vm_compute; reflexivity|].
  split; [vm_compute; reflexivity|]. split; [vm_compute; reflexivity|].
  rewrite O. vm_compute. reflexivity.
Defined.

(** ** The due query *)

(** C8. For every store and every clock reading, [get_due_reminders]
    returns exactly the rows with notified=0 whose [remind_at] is at most
    the reading (both as the store holds them, ISO text), each once and as
    [id, task, remind_at]; so never a notified row and never one whose
    [remind_at] is after the reading. *)
Theorem due_exactly (d : db) (now_ : DT.datetime) :
  (forall v, In v (get_due_reminders now_ d) <->
     exists r, In r (reminders d) /\ view r = v /\ notified r = 0%Z /\
               String.leb (remind_at r) (DT.isoformat_seconds now_) = true) /\
  (forall r, In r (reminders d) -> notified r <> 0%Z ->
     ~ In r (filter (due (DT.isoformat_seconds now_)) (reminders d))) /\
  (forall r, In r (reminders d) ->
     String.ltb (DT.isoformat_seconds now_) (remind_at r) = true ->
     ~ In r (filter (due (DT.isoformat_seconds now_)) (reminders d))) /\
  List.length (get_due_reminders now_ d)
  = List.length (filter (fun r => Z.eqb (notified r) 0 &&
                                  String.leb (remind_at r) (DT.isoformat_seconds now_))
                        (reminders d)).
Proof.
  unfold get_due_reminders. repeat split.
  - intros H. apply in_map_iff in H. destruct H as (r & Hv & Hr).
    apply filter_In in Hr. destruct Hr as (Hin & Hd).
    unfold due, pending in Hd. apply andb_prop in Hd. destruct Hd as (Hp & Hl).
    exists r. repeat split; try assumption. apply Z.eqb_eq, Hp.
  - intros (r & Hin & Hv & Hn & Hl). apply in_map_iff. exists r.
    split; [exact Hv|]. apply filter_In. split; [exact Hin|].
    unfold due, pending. rewrite Hn, Hl. reflexivity.
  - intros r _ Hn Hf. apply filter_In in Hf. destruct Hf as (_ & Hd).
    unfold due, pending in Hd. apply andb_prop in Hd. destruct Hd as (Hp & _).
    apply Z.eqb_eq in Hp. contradiction.
  - intros r _ Hlt Hf. apply filter_In in Hf. destruct Hf as (_ & Hd).
    unfold due in Hd. apply andb_prop in Hd. destruct Hd as (_ & Hl).
    unfold String.ltb in Hlt. unfold String.leb in Hl.
    rewrite String.compare_antisym in Hl.
    destruct (String.compare (DT.isoformat_seconds now_) (remind_at r));
      cbn in *; discriminate.
  - rewrite length_map. reflexivity.
Qed.

(** A row that [mark_notified] has marked is never due again. *)
Lemma marked_never_due (d : db) (i : Z) (now_ : DT.datetime) :
  ~ In i (map v_id (get_due_reminders now_ (mark_notified d i))).
Proof.
  unfold get_due_reminders, mark_notified. cbn [reminders].
  rewrite map_map. intros H. apply in_map_iff in H.
  destruct H as (r & Hi & Hr). apply filter_In in Hr. destruct Hr as (Hin & Hd).
  apply in_map_iff in Hin. destruct Hin as (r0 & Hr0 & _).
  cbn [view v_id] in Hi. subst i.
  destruct (Z.eqb (id r0) (id r)) eqn:E; subst r.
  - discriminate Hd.
  - cbn in E. rewrite Z.eqb_refl in E. discriminate.
Qed.

Lemma due_exactly_witness :
  ~ In (ReminderRow 2 "stand up" "2024-05-17T08:30:00" 1)
       (filter (due (DT.isoformat_seconds nine_am)) (reminders two_reminders)) /\
  ~ In (ReminderRow 3 "lunch" "2024-05-17T12:00:00" 0)
       (filter (due (DT.isoformat_seconds nine_am)) (reminders two_reminders)) /\
  get_due_reminders nine_am two_reminders = [View 1 "call mom" "2024-05-17T08:00:00"].
Proof.
  pose proof (due_exactly two_reminders nine_am) as (_ & H2 & H3 & _).
  split; [|split].
  - apply H2; [cbn; tauto | discriminate].
  - apply H3; [cbn; tauto | reflexivity].
  - reflexivity.
Defined.

(** ** ISO-8601 text and chronological order *)

Section IsoOrder.
Local Open Scope Z_scope.

Lemma mod10_cases (n : Z) :
  let k := n mod 10 in
  k = 0 \/ k = 1 \/ k = 2 \/ k = 3 \/ k = 4 \/ k = 5 \/ k = 6 \/ k = 7 \/ k = 8 \/ k = 9.
Proof.
  intros k. pose proof (Z.mod_pos_bound n 10 ltac:(lia)). subst k. lia.
Qed.

Lemma digit_code (n : Z) : N_of_ascii (DT.digit n) = Z.to_N (48 + n mod 10).
Proof.
  unfold DT.digit.
  destruct (mod10_cases n) as [H|[H|[H|[H|[H|[H|[H|[H|[H|H]]]]]]]]];
    cbv zeta in H; rewrite H; reflexivity.
Qed.

Lemma digit_is_digit (n : Z) : is_digit (DT.digit n) = true.
Proof.
  unfold DT.digit.
  destruct (mod10_cases n) as [H|[H|[H|[H|[H|[H|[H|[H|[H|H]]]]]]]]];
    cbv zeta in H; rewrite H; reflexivity.
Qed.

Lemma digit_compare (x y : Z) :
  Ascii.compare (DT.digit x) (DT.digit y) = (x mod 10 ?= y mod 10).
Proof.
  unfold Ascii.compare. rewrite !digit_code.
  pose proof (Z.mod_pos_bound x 10 ltac:(lia)).
  pose proof (Z.mod_pos_bound y 10 ltac:(lia)).
  rewrite Z2N.inj_compare by lia.
  apply Z.add_compare_mono_l.
Qed.

Lemma compare_digit_cons (x y : Z) (s s' : string) :
  String.compare (String (DT.digit x) s) (String (DT.digit y) s')
  = match x mod 10 ?= y mod 10 with
    | Eq => String.compare s s'
    | c => c
    end.
Proof. cbn [String.compare]. rewrite digit_compare. reflexivity. Qed.

Lemma compare_same_cons (c : ascii) (s s' : string) :
  String.compare (String c s) (String c s') = String.compare s s'.
Proof.
  cbn [String.compare].
  assert (Ascii.compare c c = Eq) as ->; [|reflexivity].
  unfold Ascii.compare. apply N.compare_refl.
Qed.

(** Two digits in front: the strings compare as the numbers, then as the
    rests. *)
Lemma compare_pad2 (a b : Z) (s s' : string) :
  0 <= a < 100 -> 0 <= b < 100 ->
  String.compare (String (DT.digit (a / 10)) (String (DT.digit a) s))
                 (String (DT.digit (b / 10)) (String (DT.digit b) s'))
  = match a ?= b with
    | Eq => String.compare s s'
    | c => c
    end.
Proof.
  intros Ha Hb. rewrite !compare_digit_cons.
  destruct (Z.compare_spec ((a / 10) mod 10) ((b / 10) mod 10));
  destruct (Z.compare_spec (a mod 10) (b mod 10));
  destruct (Z.compare_spec a b);
    try reflexivity; exfalso; Z.div_mod_to_equations; lia.
Qed.

Lemma digit_ext (x y : Z) : x mod 10 = y mod 10 -> DT.digit x = DT.digit y.
Proof. unfold DT.digit. intros ->. reflexivity. Qed.

(** Four digits in front: two pairs of digits. *)
Lemma compare_pad4 (a b : Z) (s s' : string) :
  0 <= a < 10000 -> 0 <= b < 10000 ->
  String.compare
    (String (DT.digit (a / 1000)) (String (DT.digit (a / 100))
       (String (DT.digit (a / 10)) (String (DT.digit a) s))))
    (String (DT.digit (b / 1000)) (String (DT.digit (b / 100))
       (String (DT.digit (b / 10)) (String (DT.digit b) s'))))
  = match a ?= b with
    | Eq => String.compare s s'
    | c => c
    end.
Proof.
  intros Ha Hb.
  assert (pairs : forall n, DT.digit (n / 1000) = DT.digit (n / 100 / 10) /\
                            DT.digit (n / 10) = DT.digit (n mod 100 / 10) /\
                            DT.digit n = DT.digit (n mod 100)).
  { intros n. repeat split; apply digit_ext; Z.div_mod_to_equations; lia. }
  destruct (pairs a) as (-> & -> & ->). destruct (pairs b) as (-> & -> & ->).
  rewrite compare_pad2 by (Z.div_mod_to_equations; lia).
  rewrite compare_pad2 by (Z.div_mod_to_equations; lia).
  destruct (Z.compare_spec (a / 100) (b / 100));
  destruct (Z.compare_spec (a mod 100) (b mod 100));
  destruct (Z.compare_spec a b);
    try reflexivity; exfalso; Z.div_mod_to_equations; lia.
Qed.

Lemma valid_bounds (d : DT.datetime) :
  DT.valid d = true ->
  1 <= DT.year d <= 9999 /\ 1 <= DT.month d <= 12 /\
  1 <= DT.day d <= DT.days_in_month (DT.year d) (DT.month d) /\
  0 <= DT.hour d < 24 /\ 0 <= DT.minute d < 60 /\ 0 <= DT.second d < 60 /\
  0 <= DT.microsecond d < 1000000.
Proof.
  unfold DT.valid. intros H.
  repeat (apply andb_prop in H; destruct H as [H ?]).
  repeat match goal with
         | X : (_ <=? _) = true |- _ => apply Z.leb_le in X
         | X : (_ <? _) = true |- _ => apply Z.ltb_lt in X
         end.
  lia.
Qed.

Lemma days_in_month_bounds (y m : Z) : 28 <= DT.days_in_month y m <= 31.
Proof.
  unfold DT.days_in_month.
  repeat match goal with
         | |- context [match ?x with _ => _ end] => destruct x
         end; lia.
Qed.

(** The stored text orders as the instants do, to the second. *)
Lemma iso_compare (a b : DT.datetime) :
  DT.valid a = true -> DT.valid b = true ->
  String.compare (DT.isoformat_seconds a) (DT.isoformat_seconds b)
  = DT.cmp (DT.trunc_seconds a) (DT.trunc_seconds b).
Proof.
  intros Va Vb.
  apply valid_bounds in Va, Vb.
  pose proof (days_in_month_bounds (DT.year a) (DT.month a)).
  pose proof (days_in_month_bounds (DT.year b) (DT.month b)).
  unfold DT.isoformat_seconds, DT.pad4, DT.pad2, DT.cmp, DT.trunc_seconds, DT.fields.
  cbn [String.append DT.year DT.month DT.day DT.hour DT.minute DT.second
       DT.microsecond DT.lex_cmp].
  rewrite compare_pad4 by lia.
  destruct (DT.year a ?= DT.year b); try reflexivity.
  rewrite compare_same_cons, compare_pad2 by lia.
  destruct (DT.month a ?= DT.month b); try reflexivity.
  rewrite compare_same_cons, compare_pad2 by lia.
  destruct (DT.day a ?= DT.day b); try reflexivity.
  rewrite compare_same_cons, compare_pad2 by lia.
  destruct (DT.hour a ?= DT.hour b); try reflexivity.
  rewrite compare_same_cons, compare_pad2 by lia.
  destruct (DT.minute a ?= DT.minute b); try reflexivity.
  rewrite compare_same_cons, compare_pad2 by lia.
  destruct (DT.second a ?= DT.second b); reflexivity.
Qed.

End IsoOrder.

(** ** The instant a reminder is set for *)

Section RemindInstant.
Local Open Scope Z_scope.

Lemma valid_intro (d : DT.datetime) :
  1 <= DT.year d <= 9999 -> 1 <= DT.month d <= 12 ->
  1 <= DT.day d <= DT.days_in_month (DT.year d) (DT.month d) ->
  0 <= DT.hour d < 24 -> 0 <= DT.minute d < 60 -> 0 <= DT.second d < 60 ->
  0 <= DT.microsecond d < 1000000 ->
  DT.valid d = true.
Proof.
  intros. unfold DT.valid.
  repeat (apply andb_true_intro; split);
    first [apply Z.leb_le | apply Z.ltb_lt]; lia.
Qed.

Lemma lex_cmp_antisym (a : list Z) :
  forall b, DT.lex_cmp a b = CompOpp (DT.lex_cmp b a).
Proof.
  induction a as [|x a IH]; intros [|y b]; cbn [DT.lex_cmp]; try reflexivity.
  rewrite (Z.compare_antisym y x), IH.
  destruct (y ?= x); reflexivity.
Qed.

Lemma cmp_antisym (a b : DT.datetime) : DT.cmp a b = CompOpp (DT.cmp b a).
Proof. apply lex_cmp_antisym. Qed.

Lemma not_leb_ltb (a b : DT.datetime) : DT.leb a b = false -> DT.ltb b a = true.
Proof.
  unfold DT.leb, DT.ltb. rewrite (cmp_antisym b a).
  destruct (DT.cmp a b); cbn; congruence.
Qed.

(** The day after is valid, and later than any instant of the day before. *)
Lemma add_one_day_spec (base n dt : DT.datetime) :
  DT.valid base = true ->
  DT.year n = DT.year base -> DT.month n = DT.month base ->
  DT.day n = DT.day base ->
  DT.add_one_day base = Returned dt ->
  DT.valid dt = true /\ DT.ltb n dt = true /\
  DT.hour dt = DT.hour base /\ DT.minute dt = DT.minute base /\
  DT.second dt = DT.second base /\ DT.microsecond dt = DT.microsecond base.
Proof.
  intros V Hy Hm Hd. apply valid_bounds in V.
  unfold DT.add_one_day.
  destruct (Z.ltb_spec (DT.day base) (DT.days_in_month (DT.year base) (DT.month base)));
    [|destruct (Z.ltb_spec (DT.month base) 12);
      [|destruct (Z.ltb_spec (DT.year base) 9999)]];
    intros E; inversion E; subst dt; clear E;
    (split; [|split; [|repeat split]]).
  - apply valid_intro; cbn; lia.
  - unfold DT.ltb, DT.cmp, DT.fields. cbn [DT.lex_cmp DT.year DT.month DT.day].
    rewrite Hy, Hm, Hd, !Z.compare_refl.
    assert ((DT.day base ?= DT.day base + 1) = Lt) as -> by (apply Z.compare_lt_iff; lia).
    reflexivity.
  - pose proof (days_in_month_bounds (DT.year base) (DT.month base + 1)).
    apply valid_intro; cbn; lia.
  - unfold DT.ltb, DT.cmp, DT.fields. cbn [DT.lex_cmp DT.year DT.month DT.day].
    rewrite Hy, Hm, !Z.compare_refl.
    assert ((DT.month base ?= DT.month base + 1) = Lt) as -> by (apply Z.compare_lt_iff; lia).
    reflexivity.
  - apply valid_intro; cbn; lia.
  - unfold DT.ltb, DT.cmp, DT.fields. cbn [DT.lex_cmp DT.year DT.month DT.day].
    rewrite Hy.
    assert ((DT.year base ?= DT.year base + 1) = Lt) as -> by (apply Z.compare_lt_iff; lia).
    reflexivity.
Qed.

(** When [remind_instant] returns, it returns the chosen time of day on
    the clock's day if that is still ahead, and on the next day otherwise:
    an instant strictly after the clock's reading. *)
Lemma remind_instant_spec (env : Env) (h m : Z) (dt : DT.datetime) :
  DT.valid (now env) = true ->
  remind_instant env h m = Returned dt ->
  (0 <= h < 24 /\ 0 <= m < 60) /\
  DT.valid dt = true /\ DT.ltb (now env) dt = true /\
  (DT.hour dt = h /\ DT.minute dt = m /\ DT.second dt = 0 /\ DT.microsecond dt = 0) /\
  (if DT.leb (same_day_at (now env) h m) (now env)
   then DT.add_one_day (same_day_at (now env) h m) = Returned dt
   else dt = same_day_at (now env) h m).
Proof.
  intros V. unfold remind_instant, DT.replace_time.
  destruct (Z.leb_spec 0 h); destruct (Z.ltb_spec h 24); cbn [andb negb bind];
    try discriminate.
  destruct (Z.leb_spec 0 m); destruct (Z.ltb_spec m 60); cbn [andb negb bind];
    try discriminate.
  fold (same_day_at (now env) h m).
  assert (Vb : DT.valid (same_day_at (now env) h m) = true).
  { apply valid_bounds in V. apply valid_intro; cbn; lia. }
  destruct (DT.leb (same_day_at (now env) h m) (now env)) eqn:L.
  - intros E.
    destruct (add_one_day_spec (same_day_at (now env) h m) (now env) Vb
                eq_refl eq_refl eq_refl E) as (V' & Lt' & Hh & Hm & Hs & Hu).
    cbn in Hh, Hm, Hs, Hu. repeat split; try assumption; lia.
  - intros E. inversion E; subst dt.
    repeat split; try assumption; try lia. apply not_leb_ltb, L.
Qed.

(** It does return for a time of day, except on the calendar's last day. *)
Lemma remind_instant_returns (env : Env) (h m : Z) :
  DT.valid (now env) = true -> last_day (now env) = false ->
  0 <= h < 24 -> 0 <= m < 60 ->
  exists dt, remind_instant env h m = Returned dt.
Proof.
  intros V L Hh Hm. unfold remind_instant, DT.replace_time.
  destruct (Z.leb_spec 0 h); destruct (Z.ltb_spec h 24); try lia.
  destruct (Z.leb_spec 0 m); destruct (Z.ltb_spec m 60); try lia.
  cbn [andb negb bind].
  destruct (DT.leb _ (now env)); [|eauto].
  unfold DT.add_one_day. cbn [DT.year DT.month DT.day].
  apply valid_bounds in V. unfold last_day in L.
  destruct (Z.ltb_spec (DT.day (now env))
              (DT.days_in_month (DT.year (now env)) (DT.month (now env)))); [eauto|].
  destruct (Z.ltb_spec (DT.month (now env)) 12); [eauto|].
  destruct (Z.ltb_spec (DT.year (now env)) 9999); [eauto|].
  exfalso.
  assert (DT.month (now env) = 12) as E12 by lia.
  assert (DT.year (now env) = 9999) as E9 by lia.
  rewrite E12, E9 in *. cbn in *.
  assert (DT.day (now env) = 31) as E31 by lia.
  rewrite E31 in L. discriminate.
Qed.

(** The hour in 24-hour form: pm adds 12 below 12, am takes 12 to 0. *)
Lemma to_24h_cases (h : Z) :
  to_24h h (Some "pm") = (if h <? 12 then h + 12 else h) /\
  to_24h h (Some "am") = (if h =? 12 then 0 else h) /\
  to_24h h None = h.
Proof.
  unfold to_24h. cbn.
  destruct (h <? 12); destruct (h =? 12); repeat split; reflexivity.
Qed.

End RemindInstant.

(** ** Which inputs reach the reminder handler *)

Lemma process_routed (env : Env) (d : db) (text : string) :
  routed_to_remind env (lower (strip text)) = true ->
  process env d text = lift_remind (_handle_remind env d (lower (strip text))).
Proof.
  unfold routed_to_remind. intros H.
  repeat (apply andb_prop in H; destruct H as [H ?]).
  repeat match goal with
         | X : negb _ = true |- _ => apply negb_true_iff in X
         end.
  unfold process, folder_stage, open_stage, close_stage, remind_stage.
  repeat match goal with
         | X : _ = false |- _ => rewrite X; clear X
         | X : hit _ _ = true |- _ => rewrite X; clear X
         end.
  reflexivity.
Qed.

Lemma same_reminders_refl (d : db) : same_reminders d d.
Proof. split; reflexivity. Qed.

Ltac outer_if :=
  match goal with
  | |- same_reminders (snd (if ?c then _ else _)) _ => destruct c eqn:?
  end.

Ltac easy_branch :=
  first [ apply same_reminders_refl | split; reflexivity ].

(** An input that is not routed to the reminder handler leaves the
    reminder table as it was. *)
Lemma process_elsewhere (env : Env) (d : db) (text : string) :
  routed_to_remind env (lower (strip text)) = false ->
  same_reminders (snd (process env d text)) d.
Proof.
  intros H. unfold process.
  repeat (outer_if; [easy_branch|]).
  unfold folder_stage. outer_if; [easy_branch|].
  unfold open_stage. outer_if; [easy_branch|].
  unfold close_stage. outer_if; [easy_branch|].
  unfold remind_stage. outer_if.
  { exfalso. revert H. unfold routed_to_remind.
    repeat match goal with
           | X : _ = false |- _ => rewrite X; clear X
           | X : hit _ _ = true |- _ => rewrite X; clear X
           end.
    discriminate. }
  outer_if.
  { destruct (_list_reminders env d); easy_branch. }
  outer_if.
  { unfold _handle_remember. destruct (Re.search true RE_fact _); easy_branch. }
  repeat (outer_if; [easy_branch|]).
  unfold calc_stage. destruct (_try_calculate env _); [easy_branch|].
  unfold knowledge_stage.
  repeat (outer_if; [easy_branch|]). easy_branch.
Qed.

Lemma questions_differ (task : string) : ask_task <> ask_time task.
Proof. unfold ask_task, ask_time. cbn. intros H. inversion H. Qed.

(** C9. On an input routed to the reminder handler: when the task phrase
    does not parse, [process] returns the question about task and time;
    when the task parses and the time does not, it returns the question
    about the time; the two differ, terminate=false in both, and the store
    is returned as it was.  Whatever the input, the reminder table changes
    only on such an input whose task and time both parse, and then by one
    [add_reminder]. *)
Theorem clarifying_questions (env : Env) (d : db) (text : string) :
  let t := lower (strip text) in
  (routed_to_remind env t = true -> Re.search true RE_task t = None ->
     process env d text = (Returned (ask_task, false), d)) /\
  (forall tm, routed_to_remind env t = true ->
     Re.search true RE_task t = Some tm ->
     Re.search true RE_time_pattern t = None ->
     process env d text = (Returned (ask_time (parsed_task t tm), false), d)) /\
  (forall task, ask_task <> ask_time task) /\
  (~ same_reminders (snd (process env d text)) d ->
     routed_to_remind env t = true /\
     exists tm tp dt,
       Re.search true RE_task t = Some tm /\
       Re.search true RE_time_pattern t = Some tp /\
       snd (process env d text) = add_reminder d (parsed_task t tm) dt).
Proof.
  intros t. split; [|split; [|split]].
  - intros R T. rewrite (process_routed env d text R). fold t.
    unfold _handle_remind. rewrite T. reflexivity.
  - intros tm R T P. rewrite (process_routed env d text R). fold t.
    unfold _handle_remind. rewrite T, P. reflexivity.
  - apply questions_differ.
  - intros N.
    destruct (routed_to_remind env t) eqn:R;
      [|exfalso; apply N, process_elsewhere, R].
    split; [reflexivity|].
    rewrite (process_routed env d text R) in *. fold t in N |- *.
    unfold _handle_remind in *.
    destruct (Re.search true RE_task t) as [tm|];
      [|exfalso; apply N, same_reminders_refl].
    destruct (Re.search true RE_time_pattern t) as [tp|];
      [|exfalso; apply N, same_reminders_refl].
    destruct (parsed_time t tp) as [h m].
    destruct (remind_instant env h m) as [dt|e];
      [|exfalso; apply N, same_reminders_refl].
    exists tm, tp, dt. repeat split.
Qed.

Lemma clarifying_questions_witness :
  process (quiet_env nine_am) empty_db "Remind me at 5"
  = (Returned ("What should I remind you about, and at what time?", false), empty_db) /\
  process (quiet_env nine_am) empty_db "remind me to call mom"
  = (Returned ("When should I remind you to 'call mom'? Please say a time like 'at 8 pm'.",
               false), empty_db).
Proof.
  split.
  - apply (clarifying_questions (quiet_env nine_am) empty_db "Remind me at 5");
      vm_compute; reflexivity.
  - pose proof (clarifying_questions (quiet_env nine_am) empty_db
                  "remind me to call mom") as (_ & H & _).
    destruct (Re.search true RE_task "remind me to call mom") as [tm|] eqn:E;
      [|vm_compute in E; discriminate E].
    specialize (H tm).
    vm_compute in E. injection E as <-.
    apply H; vm_compute; reflexivity.
Defined.

(** ** Reminders are set in the future *)

Section Future.
Local Open Scope Z_scope.

Lemma cmp_trunc_lt (n dt : DT.datetime) :
  0 <= DT.microsecond n -> DT.microsecond dt = 0 ->
  DT.cmp n dt = Lt ->
  DT.cmp (DT.trunc_seconds n) (DT.trunc_seconds dt) = Lt.
Proof.
  intros Hn Hd. unfold DT.cmp, DT.fields, DT.trunc_seconds.
  cbn [DT.lex_cmp DT.year DT.month DT.day DT.hour DT.minute DT.second DT.microsecond].
  rewrite Hd.
  destruct (DT.year n ?= DT.year dt); try trivial.
  destruct (DT.month n ?= DT.month dt); try trivial.
  destruct (DT.day n ?= DT.day dt); try trivial.
  destruct (DT.hour n ?= DT.hour dt); try trivial.
  destruct (DT.minute n ?= DT.minute dt); try trivial.
  destruct (DT.second n ?= DT.second dt); try trivial.
  destruct (Z.compare_spec (DT.microsecond n) 0); cbn; try discriminate.
  lia.
Qed.

(** The text stored for an instant after the clock's, on a whole second,
    sorts strictly after the clock's reading as the due query formats it. *)
Lemma iso_strictly_after (n dt : DT.datetime) :
  DT.valid n = true -> DT.valid dt = true -> DT.microsecond dt = 0 ->
  DT.ltb n dt = true ->
  String.ltb (DT.isoformat_seconds n) (DT.isoformat_seconds dt) = true.
Proof.
  intros Vn Vd Hu L. unfold String.ltb. rewrite iso_compare by assumption.
  rewrite cmp_trunc_lt; try assumption.
  - reflexivity.
  - apply valid_bounds in Vn. lia.
  - unfold DT.ltb in L. destruct (DT.cmp n dt); congruence.
Qed.

(** C2. When the task phrase and the time expression both parse and the
    time is a time of day (hour 0..23 after the am/pm rule, minute 0..59),
    the handler stores one reminder whose [remind_at] is the ISO text of an
    instant strictly after the clock's reading: the requested time today
    if that is still ahead, else the same time exactly one calendar day
    later; the stored text also sorts strictly after the reading.  The am/pm
    rule: pm adds 12 to an hour below 12, am turns 12 into 0.  (The one
    case without a reminder: the next day is needed and the clock stands
    on the calendar's last day, 9999-12-31; then [OverflowError] leaves
    the handler and nothing is stored.) *)
Theorem reminder_strictly_future (env : Env) (d : db) (t : string)
        (tm tp : Re.mobj) :
  DT.valid (now env) = true ->
  Re.search true RE_task t = Some tm ->
  Re.search true RE_time_pattern t = Some tp ->
  is_time_of_day (parsed_time t tp) = true ->
  let h := fst (parsed_time t tp) in
  let m := snd (parsed_time t tp) in
  let today := same_day_at (now env) h m in
  ((exists dt,
      _handle_remind env d t
      = (Returned (confirm (parsed_task t tm) (strftime env "%I:%M %p" dt)),
         add_reminder d (parsed_task t tm) dt) /\
      reminders (add_reminder d (parsed_task t tm) dt)
      = (reminders d ++ [ReminderRow (reminders_seq d + 1)
                           (strip (parsed_task t tm)) (DT.isoformat_seconds dt) 0])%list /\
      DT.ltb (now env) dt = true /\
      String.ltb (DT.isoformat_seconds (now env)) (DT.isoformat_seconds dt) = true /\
      (if DT.leb today (now env)
       then DT.add_one_day today = Returned dt
       else dt = today))
   \/
   (last_day (now env) = true /\ DT.leb today (now env) = true /\
    _handle_remind env d t = (Raised (OverflowError "date value out of range"), d)))
  /\
  (forall x, to_24h x (Some "pm") = (if x <? 12 then x + 12 else x)) /\
  (forall x, to_24h x (Some "am") = (if x =? 12 then 0 else x)) /\
  (forall x, to_24h x None = x) /\
  h = to_24h (int_of (group_str t tp 1)) (Re.group t tp 3).
Proof.
  intros V T P HM h m today.
  split; [|repeat split; try apply to_24h_cases].
  unfold _handle_remind. rewrite T, P.
  rewrite (surjective_pairing (parsed_time t tp)). fold h m.
  unfold is_time_of_day in HM. fold h m in HM.
  repeat (apply andb_prop in HM; destruct HM as [HM ?]).
  repeat match goal with
         | X : (_ <=? _) = true |- _ => apply Z.leb_le in X
         | X : (_ <? _) = true |- _ => apply Z.ltb_lt in X
         end.
  destruct (last_day (now env)) eqn:L.
  - (* the calendar's last day *)
    destruct (remind_instant env h m) as [dt|e] eqn:E.
    + left. exists dt.
      destruct (@remind_instant_spec env h m dt V E) as (_ & Vd & Lt' & (_ & _ & _ & Hu) & Which).
      repeat split; try assumption.
      apply iso_strictly_after; assumption.
    + right. unfold remind_instant, DT.replace_time in E.
      destruct (Z.leb_spec 0 h); destruct (Z.ltb_spec h 24); try lia.
      destruct (Z.leb_spec 0 m); destruct (Z.ltb_spec m 60); try lia.
      cbn [andb negb bind] in E. fold (same_day_at (now env) h m) in E.
      fold today in E.
      destruct (DT.leb today (now env)); [|discriminate E].
      unfold DT.add_one_day in E.
      repeat match type of E with
             | (if ?c then _ else _) = _ => destruct c; [discriminate E|]
             end.
      inversion E. repeat split.
  - left.
    destruct (@remind_instant_returns env h m V L) as (dt & E); [lia | lia |].
    exists dt. rewrite E.
    destruct (@remind_instant_spec env h m dt V E) as (_ & Vd & Lt' & (_ & _ & _ & Hu) & Which).
    repeat split; try assumption.
    apply iso_strictly_after; assumption.
Qed.

End Future.

Lemma reminder_strictly_future_witness :
  exists dt,
    _handle_remind (quiet_env nine_am) empty_db "remind me to call mom at 8 am"
    = (Returned "Got it! I'll remind you to 'call mom' at %I:%M %p.",
       add_reminder empty_db "call mom" dt) /\
    dt = DT.Datetime 2024 5 18 8 0 0 0 /\
    DT.ltb nine_am dt = true.
Proof.
  destruct (Re.search true RE_task "remind me to call mom at 8 am") as [tm|] eqn:T;
    [|vm_compute in T; discriminate T].
  destruct (Re.search true RE_time_pattern "remind me to call mom at 8 am")
    as [tp|] eqn:P; [|vm_compute in P; discriminate P].
  pose proof (@reminder_strictly_future (quiet_env nine_am) empty_db
                "remind me to call mom at 8 am" tm tp eq_refl T P) as H.
  vm_compute in T, P. injection T as <-. injection P as <-.
  destruct (H eq_refl) as [[(dt & E & _ & L & _ & W) | (F & _)] _].
  - exists dt. vm_compute in W. inversion W; subst dt.
    split; [exact E|]. split; [reflexivity | exact L].
  - vm_compute in F. discriminate F.
Defined.

(** ** What [process] does to the reminder table *)

Lemma process_reminders (env : Env) (d : db) (text : string) :
  same_reminders (snd (process env d text)) d \/
  exists task h m dt,
    remind_instant env h m = Returned dt /\
    snd (process env d text) = add_reminder d task dt.
Proof.
  destruct (routed_to_remind env (lower (strip text))) eqn:R;
    [|left; apply process_elsewhere, R].
  rewrite (process_routed env d text R). unfold _handle_remind.
  destruct (Re.search true RE_task _) as [tm|];
    [|left; apply same_reminders_refl].
  destruct (Re.search true RE_time_pattern _) as [tp|];
    [|left; apply same_reminders_refl].
  destruct (parsed_time _ tp) as [h m].
  destruct (remind_instant env h m) as [dt|e] eqn:E;
    [|left; apply same_reminders_refl].
  right. exists (parsed_task (lower (strip text)) tm), h, m, dt.
  split; [exact E | reflexivity].
Qed.

(** ** The stored text *)

Lemma iso_has_shape (dt : DT.datetime) : iso_shape (DT.isoformat_seconds dt) = true.
Proof.
  unfold iso_shape, DT.isoformat_seconds, DT.pad4, DT.pad2.
  cbn [String.append String.length substring forallb_str Nat.eqb].
  rewrite !digit_is_digit. reflexivity.
Qed.

Lemma add_reminder_rows_iso (d : db) (task_ : string) (dt : DT.datetime) :
  DT.valid dt = true -> rows_iso d -> rows_iso (add_reminder d task_ dt).
Proof.
  intros V H. unfold rows_iso, add_reminder. cbn [reminders].
  apply Forall_app. split; [exact H|].
  constructor; [|constructor]. exists dt. split; [exact V | reflexivity].
Qed.

Lemma process_rows_iso (env : Env) (d : db) (text : string) :
  DT.valid (now env) = true -> rows_iso d ->
  rows_iso (snd (process env d text)).
Proof.
  intros V H.
  destruct (process_reminders env d text) as [[E _] | (task_ & h & m & dt & E & ->)].
  - unfold rows_iso. rewrite E. exact H.
  - apply add_reminder_rows_iso; [|exact H].
    apply (@remind_instant_spec env h m dt V E).
Qed.

(** C10. What [add_reminder] writes is [YYYY-MM-DDTHH:MM:SS]; every row
    of a store that [process] has worked on holds such a text for an
    instant; and on such texts the byte-wise order of the store is the
    order of the instants to the second, so that a row is due exactly when
    it is pending and its instant is not after the clock's reading, and the
    pending list's order is the order in time. *)
Theorem remind_at_iso (env : Env) (d : db) (text task_ : string)
        (a b : DT.datetime) :
  DT.valid a = true -> DT.valid b = true ->
  (exists rows,
     reminders (add_reminder d task_ a) = (rows ++ [ReminderRow (reminders_seq d + 1)
        (strip task_) (DT.isoformat_seconds a) 0])%list) /\
  iso_shape (DT.isoformat_seconds a) = true /\
  (DT.valid (now env) = true -> rows_iso d ->
     rows_iso (snd (process env d text))) /\
  String.leb (DT.isoformat_seconds a) (DT.isoformat_seconds b)
  = DT.leb (DT.trunc_seconds a) (DT.trunc_seconds b) /\
  String.ltb (DT.isoformat_seconds a) (DT.isoformat_seconds b)
  = DT.ltb (DT.trunc_seconds a) (DT.trunc_seconds b) /\
  (forall r, remind_at r = DT.isoformat_seconds a ->
     due (DT.isoformat_seconds b) r
     = pending r && DT.leb (DT.trunc_seconds a) (DT.trunc_seconds b)).
Proof.
  intros Va Vb.
  split; [exists (reminders d); reflexivity|].
  split; [apply iso_has_shape|].
  split; [apply process_rows_iso|].
  unfold String.leb, String.ltb, DT.leb, DT.ltb, due.
  repeat split.
  - rewrite iso_compare by assumption. reflexivity.
  - rewrite iso_compare by assumption. reflexivity.
  - intros r ->. unfold String.leb. rewrite iso_compare by assumption. reflexivity.
Qed.

Lemma remind_at_iso_witness :
  iso_shape (DT.isoformat_seconds nine_am) = true /\
  DT.isoformat_seconds nine_am = "2024-05-17T09:00:00" /\
  String.leb (DT.isoformat_seconds nine_am)
             (DT.isoformat_seconds (DT.Datetime 2024 5 17 10 30 0 0))
  = DT.leb nine_am (DT.Datetime 2024 5 17 10 30 0 0).
Proof.
  pose proof (@remind_at_iso (quiet_env nine_am) empty_db "remind me" "x"
                nine_am (DT.Datetime 2024 5 17 10 30 0 0) eq_refl eq_refl)
    as (_ & S & _ & L & _).
  split; [exact S|]. split; [reflexivity | exact L].
Defined.

(** ** Row ids *)

Section Ids.
Local Open Scope Z_scope.

Lemma empty_db_ok : db_ok empty_db.
Proof. split; constructor. Qed.

Lemma sorted_snoc (l : list Z) (x : Z) :
  StronglySorted Z.lt l -> Forall (fun y => y < x) l ->
  StronglySorted Z.lt (l ++ [x]).
Proof.
  induction 1 as [|y l Hs IH Hy]; intros Hx; cbn [app].
  - repeat constructor.
  - inversion Hx; subst. constructor; [apply IH; assumption|].
    apply Forall_app. split; [exact Hy|]. repeat constructor. assumption.
Qed.

Lemma add_reminder_ok (d : db) (task_ : string) (dt : DT.datetime) :
  db_ok d -> db_ok (add_reminder d task_ dt).
Proof.
  intros [S B]. unfold db_ok, add_reminder. cbn [reminders reminders_seq].
  split.
  - rewrite map_app. cbn [map id]. apply sorted_snoc; [exact S|].
    rewrite Forall_map. eapply Forall_impl; [|exact B]. cbn. intros; lia.
  - apply Forall_app. split.
    + eapply Forall_impl; [|exact B]. cbn. intros; lia.
    + repeat constructor. cbn. lia.
Qed.

Lemma mark_notified_ids (d : db) (i : Z) :
  map id (reminders (mark_notified d i)) = map id (reminders d).
Proof.
  unfold mark_notified. cbn [reminders]. rewrite map_map.
  apply map_ext. intros r. destruct (id r =? i); reflexivity.
Qed.


Lemma same_reminders_ok (d' d : db) : same_reminders d' d -> db_ok d -> db_ok d'.
Proof. intros [E1 E2]. unfold db_ok. rewrite E1, E2. trivial. Qed.

Lemma process_ok (env : Env) (d : db) (text : string) :
  db_ok d -> db_ok (snd (process env d text)).
Proof.
  intros H.
  destruct (process_reminders env d text) as [E | (task_ & h & m & dt & _ & ->)].
  - apply (same_reminders_ok E H).
  - apply add_reminder_ok, H.
Qed.

Lemma sorted_filter (f : reminder_row -> bool) (l : list reminder_row) :
  StronglySorted Z.lt (map id l) -> StronglySorted Z.lt (map id (filter f l)).
Proof.
  induction l as [|r l IH]; cbn [map filter]; intros S; [constructor|].
  inversion S as [|? ? S' F]; subst.
  destruct (f r); cbn [map]; [|apply IH, S'].
  constructor; [apply IH, S'|].
  rewrite Forall_forall in *. intros x Hx. apply F.
  apply in_map_iff in Hx. destruct Hx as (r' & <- & Hr').
  apply filter_In in Hr'. apply in_map, Hr'.
Qed.

Lemma due_ids_ascend (now_ : DT.datetime) (d : db) :
  db_ok d -> StronglySorted Z.lt (map v_id (get_due_reminders now_ d)).
Proof.
  intros [S _]. unfold get_due_reminders. rewrite map_map.
  change (fun x => v_id (view x)) with id. apply sorted_filter, S.
Qed.


End Ids.

(** ** One scheduler cycle *)

Lemma deliver_all_spec (l : list reminder_view) :
  forall d, deliver_all l d = (l, fold_left mark_notified (map v_id l) d).
Proof.
  induction l as [|r l IH]; intros d; cbn [deliver_all map fold_left].
  - reflexivity.
  - rewrite IH. reflexivity.
Qed.

Lemma for_trace_runs (l : list reminder_view) :
  forall d log,
    run (State d [InFor l] log) (for_trace (List.length l))
    = Some (State (fold_left mark_notified (map v_id l) d) [AtLoopHead]
                  (log ++ map (pair 0%nat) l)).
Proof.
  induction l as [|r l IH]; intros d log; cbn [List.length for_trace].
  - cbn. rewrite app_nil_r. reflexivity.
  - cbn [run step at_pc pollers nth_error set_nth store deliveries].
    rewrite IH. cbn [map fold_left]. rewrite <- app_assoc. reflexivity.
Qed.

(** C5, as stated, fails: at 11 pm both reminders are due, and the cycle
    fetches and delivers the one set for 10 pm before the one set for
    9 pm. *)
Lemma due_order_counterexample :
  fst (cycle eleven_pm late_then_early)
  = [ View 1 "call mom" "2024-05-17T22:00:00";
      View 2 "feed the cat" "2024-05-17T21:00:00" ] /\
  get_due_reminders eleven_pm late_then_early = fst (cycle eleven_pm late_then_early) /\
  ~ ascending_remind_at (fst (cycle eleven_pm late_then_early)).
Proof.
  assert (E : fst (cycle eleven_pm late_then_early)
              = [ View 1 "call mom" "2024-05-17T22:00:00";
                  View 2 "feed the cat" "2024-05-17T21:00:00" ])
    by (vm_compute; reflexivity).
  split; [exact E|]. split; [vm_compute; reflexivity|].
  rewrite E. intros S.
  inversion S as [|? ? _ H]; subst. inversion H as [|? ? L]; subst.
  vm_compute in L. discriminate L.
Qed.

(** C5, amended. In every scheduler cycle the due reminders come back in
    the table's row order, which is ascending id, the order of creation;
    the cycle delivers them in exactly the order returned and marks each
    one notified right after its delivery, which are the steps the polling
    thread takes; afterwards none of them is due. *)
Theorem due_in_creation_order (now_ : DT.datetime) (d : db) :
  db_ok d ->
  StronglySorted Z.lt (map v_id (get_due_reminders now_ d)) /\
  fst (cycle now_ d) = get_due_reminders now_ d /\
  snd (cycle now_ d)
  = fold_left mark_notified (map v_id (get_due_reminders now_ d)) d /\
  run (start 1 d)
      (Poll 0 now_ :: for_trace (List.length (get_due_reminders now_ d)))
  = Some (State (snd (cycle now_ d)) [AtLoopHead]
                (map (pair 0%nat) (fst (cycle now_ d)))).
Proof.
  intros Ok. unfold cycle. rewrite deliver_all_spec. cbn [fst snd].
  split; [apply due_ids_ascend, Ok|]. split; [reflexivity|]. split; [reflexivity|].
  change (run (start 1 d) (Poll 0 now_ :: ?tr))
    with (run (State d [InFor (get_due_reminders now_ d)] []) tr).
  rewrite for_trace_runs. reflexivity.
Qed.

Lemma due_in_creation_order_witness :
  map v_id (get_due_reminders eleven_pm late_then_early) = [1%Z; 2%Z] /\
  StronglySorted Z.lt (map v_id (get_due_reminders eleven_pm late_then_early)) /\
  get_due_reminders eleven_pm (snd (cycle eleven_pm late_then_early)) = [].
Proof.
  split; [vm_compute; reflexivity|]. split; [|vm_compute; reflexivity].
  apply (@due_in_creation_order eleven_pm late_then_early).
  split; vm_compute; repeat constructor; intros H; discriminate H.
Defined.

(** ** At most one delivery per reminder *)

Section AtMostOnce.
Local Open Scope Z_scope.










End AtMostOnce.




(** ** Reading the stored text back *)

Section ReadBack.
Local Open Scope Z_scope.

Lemma digit_value (x : Z) : Z.of_nat (code (DT.digit x)) - 48 = x mod 10.
Proof.
  unfold code, DT.digit.
  destruct (mod10_cases x) as [H|[H|[H|[H|[H|[H|[H|[H|[H|H]]]]]]]]];
    cbv zeta in H; rewrite H; reflexivity.
Qed.

Lemma int_of_pad2 (n : Z) :
  0 <= n < 100 ->
  int_of (String (DT.digit (n / 10)) (String (DT.digit n) EmptyString)) = n.
Proof.
  intros H. unfold int_of. cbn [int_acc]. rewrite !digit_value.
  Z.div_mod_to_equations. lia.
Qed.

Lemma int_of_pad4 (n : Z) :
  0 <= n < 10000 ->
  int_of (String (DT.digit (n / 1000)) (String (DT.digit (n / 100))
            (String (DT.digit (n / 10)) (String (DT.digit n) EmptyString)))) = n.
Proof.
  intros H. unfold int_of. cbn [int_acc]. rewrite !digit_value.
  Z.div_mod_to_equations. lia.
Qed.

Lemma valid_trunc (dt : DT.datetime) :
  DT.valid dt = true -> DT.valid (DT.trunc_seconds dt) = true.
Proof.
  intros V. apply valid_bounds in V. apply valid_intro; cbn; lia.
Qed.

(** [fromisoformat] undoes [isoformat(timespec="seconds")]. *)
Lemma fromisoformat_isoformat (dt : DT.datetime) :
  DT.valid dt = true ->
  fromisoformat (DT.isoformat_seconds dt) = Returned (DT.trunc_seconds dt).
Proof.
  intros V. pose proof (valid_trunc dt V) as Vt.
  pose proof (valid_bounds dt V) as B.
  pose proof (days_in_month_bounds (DT.year dt) (DT.month dt)).
  unfold fromisoformat, DT.isoformat_seconds, DT.pad4, DT.pad2.
  cbn [String.append String.length substring forallb_str Nat.eqb].
  rewrite !digit_is_digit.
  rewrite int_of_pad4 by lia. rewrite !int_of_pad2 by lia.
  cbn [andb String.eqb Ascii.eqb Bool.eqb].
  fold (DT.trunc_seconds dt). rewrite Vt. reflexivity.
Qed.

Lemma insert_by_remind_at_In (r x : reminder_row) (l : list reminder_row) :
  In x (insert_by_remind_at r l) -> x = r \/ In x l.
Proof.
  induction l as [|y l IH]; cbn [insert_by_remind_at].
  - intros [<-|[]]. left. reflexivity.
  - destruct (String.leb (remind_at r) (remind_at y)); cbn [In].
    + intros [<-|H]; auto.
    + intros [<-|H]; auto. destruct (IH H); auto.
Qed.

Lemma order_by_remind_at_In (x : reminder_row) (l : list reminder_row) :
  In x (order_by_remind_at l) -> In x l.
Proof.
  induction l as [|r l IH]; cbn [order_by_remind_at fold_right]; [trivial|].
  intros H. apply insert_by_remind_at_In in H. destruct H as [->|H].
  - left. reflexivity.
  - right. apply IH, H.
Qed.

(** On a store whose rows hold ISO text, listing the reminders returns. *)
Lemma list_reminders_returns (env : Env) (d : db) :
  rows_iso d -> exists s, _list_reminders env d = Returned s.
Proof.
  intros H. unfold _list_reminders.
  assert (A : Forall (fun v => exists dt, DT.valid dt = true /\
                         v_remind_at v = DT.isoformat_seconds dt)
                     (get_pending_reminders d)).
  { unfold get_pending_reminders. rewrite Forall_map, Forall_forall.
    intros r Hr. apply order_by_remind_at_In, filter_In in Hr.
    unfold rows_iso in H. rewrite Forall_forall in H. apply H, Hr. }
  assert (L : exists lines,
             reminder_lines env (get_pending_reminders d) = Returned lines).
  { induction A as [|v l (dt & V & E) _ (lines & IH)]; cbn [reminder_lines].
    - eauto.
    - rewrite E, (fromisoformat_isoformat dt V). cbn [bind]. rewrite IH.
      cbn [bind]. eauto. }
  destruct L as (lines & L).
  destruct (get_pending_reminders d); [eauto|].
  rewrite L. cbn [bind]. eauto.
Qed.

End ReadBack.

(** ** Where an exception can leave [process] *)

Lemma say_returns (d : db) (r : string) : returns (say d r).
Proof. exists r, false. reflexivity. Qed.

Ltac outer_if_returns :=
  match goal with
  | |- returns (if ?c then _ else _) => destruct c eqn:?
  end.

(** Off the reminder handler [process] returns, the store's rows holding
    ISO text. *)
Lemma process_returns_elsewhere (env : Env) (d : db) (text : string) :
  rows_iso d ->
  routed_to_remind env (lower (strip text)) = false ->
  returns (process env d text).
Proof.
  intros Iso H. unfold process.
  outer_if_returns; [apply say_returns|].
  outer_if_returns; [eexists; eexists; reflexivity|].
  repeat (outer_if_returns; [apply say_returns|]).
  unfold folder_stage. outer_if_returns; [apply say_returns|].
  unfold open_stage. outer_if_returns; [apply say_returns|].
  unfold close_stage. outer_if_returns; [apply say_returns|].
  unfold remind_stage. outer_if_returns.
  { exfalso. revert H. unfold routed_to_remind.
    repeat match goal with
           | X : _ = false |- _ => rewrite X; clear X
           | X : hit _ _ = true |- _ => rewrite X; clear X
           end.
    discriminate. }
  outer_if_returns.
  { destruct (list_reminders_returns env Iso) as (s & ->). apply say_returns. }
  outer_if_returns.
  { destruct (_handle_remember env d _). apply say_returns. }
  repeat (outer_if_returns; [apply say_returns|]).
  unfold calc_stage. destruct (_try_calculate env _); [apply say_returns|].
  unfold knowledge_stage.
  repeat (outer_if_returns; [apply say_returns|]). apply say_returns.
Qed.

(** The exceptions of [process], on a store it has written itself: only a
    reminder request whose task and time both parse raises, and what it
    raises is what setting the instant raises. *)
Lemma process_raises_only_in_remind (env : Env) (d : db) (text : string) (e : exn) :
  rows_iso d ->
  fst (process env d text) = Raised e ->
  let t := lower (strip text) in
  routed_to_remind env t = true /\
  exists tm tp,
    Re.search true RE_task t = Some tm /\
    Re.search true RE_time_pattern t = Some tp /\
    remind_instant env (fst (parsed_time t tp)) (snd (parsed_time t tp)) = Raised e /\
    snd (process env d text) = d.
Proof.
  intros Iso E t.
  destruct (routed_to_remind env t) eqn:R.
  - split; [reflexivity|].
    rewrite (process_routed env d text R) in *. fold t in E |- *.
    unfold _handle_remind in *.
    destruct (Re.search true RE_task t) as [tm|]; [|discriminate E].
    destruct (Re.search true RE_time_pattern t) as [tp|]; [|discriminate E].
    exists tm, tp. rewrite (surjective_pairing (parsed_time t tp)) in *.
    destruct (remind_instant env _ _) as [dt|e']; [discriminate E|].
    cbn in E. inversion E; subst. repeat split.
  - destruct (process_returns_elsewhere env text Iso R) as (r & b & F).
    rewrite F in E. discriminate E.
Qed.

(** C3 at its failing inputs: an hour or a minute that is no time of day
    makes [datetime.replace] raise [ValueError], and nothing between there
    and the caller of [process] catches it. *)
Theorem bad_time_of_day_raises (env : Env) (d : db) :
  process env d "remind me to call mom at 25"
  = (Raised (ValueError "hour must be in 0..23"), d) /\
  process env d "Remind me to call mom at 7:75 pm"
  = (Raised (ValueError "minute must be in 0..59"), d).
Proof. split; vm_compute; reflexivity. Qed.

(** ** Only a farewell ends the session *)

Lemma say_stays (d : db) (r : string) : stays (say d r).
Proof. intros r' H. discriminate H. Qed.

Ltac outer_if_stays :=
  match goal with
  | |- stays (if ?c then _ else _) => destruct c eqn:?
  end.

Lemma terminate_only_on_farewell (env : Env) (d : db) (text r : string) :
  fst (process env d text) = Returned (r, true) ->
  hit RE_farewell (lower (strip text)) = true.
Proof.
  intros H. destruct (hit RE_farewell (lower (strip text))) eqn:F; [reflexivity|].
  exfalso. revert r H. change (stays (process env d text)).
  unfold process. rewrite F.
  repeat (outer_if_stays; [apply say_stays|]).
  unfold folder_stage. outer_if_stays; [apply say_stays|].
  unfold open_stage. outer_if_stays; [apply say_stays|].
  unfold close_stage. outer_if_stays; [apply say_stays|].
  unfold remind_stage. outer_if_stays.
  { destruct (_handle_remind env d _) as [[?|?] ?]; intros r H; discriminate H. }
  outer_if_stays.
  { destruct (_list_reminders env d); [apply say_stays|].
    intros r H; discriminate H. }
  outer_if_stays.
  { destruct (_handle_remember env d _). apply say_stays. }
  repeat (outer_if_stays; [apply say_stays|]).
  unfold calc_stage. destruct (_try_calculate env _); [apply say_stays|].
  unfold knowledge_stage.
  repeat (outer_if_stays; [apply say_stays|]). apply say_stays.
Qed.

(** ** The pending list is in the order of the stored text *)

Lemma insert_by_remind_at_sorted (r : reminder_row) (l : list reminder_row) :
  Sorted by_remind_at l -> Sorted by_remind_at (insert_by_remind_at r l).
Proof.
  induction 1 as [|x l Hs IH Hx]; cbn [insert_by_remind_at].
  - repeat constructor.
  - destruct (String.leb (remind_at r) (remind_at x)) eqn:E.
    + constructor; [constructor; assumption|]. constructor. exact E.
    + constructor; [exact IH|].
      assert (Hxr : by_remind_at x r).
      { unfold by_remind_at. destruct (String.leb_total (remind_at x) (remind_at r));
          [assumption | congruence]. }
      destruct l as [|y l]; cbn [insert_by_remind_at].
      * constructor. exact Hxr.
      * destruct (String.leb (remind_at r) (remind_at y));
          constructor; [exact Hxr | inversion Hx; assumption].
Qed.

Lemma pending_in_text_order (d : db) :
  Sorted by_remind_at (order_by_remind_at (filter pending (reminders d))).
Proof.
  induction (filter pending (reminders d)) as [|r l IH];
    cbn [order_by_remind_at fold_right].
  - constructor.
  - apply insert_by_remind_at_sorted, IH.
Qed.

(* ================================================================== *)
(** * Further properties of the router                                *)
(* ================================================================== *)

(** ** [str.strip] *)

Lemma lstrip_blank (s : string) : blank s = true -> lstrip s = "".
Proof.
  unfold blank. induction s as [|c s IH]; cbn [forallb_str lstrip]; [reflexivity|].
  intros H. apply andb_prop in H. destruct H as [Hc Hs]. rewrite Hc. apply IH, Hs.
Qed.

Lemma blank_lstrip (s : string) : blank (lstrip s) = blank s.
Proof.
  unfold blank. induction s as [|c s IH]; cbn [forallb_str lstrip]; [reflexivity|].
  destruct (is_space c) eqn:E; [exact IH|].
  cbn [forallb_str]. rewrite E. reflexivity.
Qed.

Lemma rstrip_empty_iff (s : string) : rstrip s = "" <-> blank s = true.
Proof.
  unfold blank. induction s as [|c s IH]; cbn [forallb_str rstrip]; [tauto|].
  destruct (rstrip s) as [|c' r].
  - destruct (is_space c); cbn [andb].
    + split; [intros _; apply IH; reflexivity | reflexivity].
    + split; discriminate.
  - split; [discriminate|]. intros H. apply andb_prop in H.
    destruct H as [_ H]. apply IH in H. discriminate H.
Qed.

Lemma strip_empty_iff (s : string) : strip s = "" <-> blank s = true.
Proof. unfold strip. rewrite rstrip_empty_iff. rewrite blank_lstrip. tauto. Qed.

Lemma rstrip_idem (s : string) : rstrip (rstrip s) = rstrip s.
Proof.
  induction s as [|c s IH]; cbn [rstrip]; [reflexivity|].
  destruct (rstrip s) as [|c' r] eqn:E.
  - destruct (is_space c) eqn:Hc; cbn [rstrip]; [reflexivity|].
    rewrite Hc. reflexivity.
  - cbn [rstrip]. cbn [rstrip] in IH.
    destruct (match rstrip r with
              | "" => if is_space c' then "" else String c' ""
              | String a s0 => String c' (String a s0)
              end); [discriminate IH|].
    rewrite IH. reflexivity.
Qed.

Lemma lstrip_no_lead (s : string) : no_lead (lstrip s) = true.
Proof.
  induction s as [|c s IH]; cbn [lstrip]; [reflexivity|].
  destruct (is_space c) eqn:E; [exact IH|]. cbn. rewrite E. reflexivity.
Qed.

Lemma lstrip_fix (s : string) : no_lead s = true -> lstrip s = s.
Proof.
  destruct s as [|c s]; cbn; [reflexivity|].
  destruct (is_space c); [discriminate | reflexivity].
Qed.

Lemma rstrip_no_lead (s : string) : no_lead s = true -> no_lead (rstrip s) = true.
Proof.
  destruct s as [|c s]; cbn [rstrip no_lead]; [reflexivity|].
  intros H. destruct (rstrip s); destruct (is_space c) eqn:E;
    cbn [no_lead]; rewrite ?E; try reflexivity; discriminate H.
Qed.

Lemma strip_idem (s : string) : strip (strip s) = strip s.
Proof.
  unfold strip.
  rewrite (lstrip_fix (rstrip (lstrip s))).
  - apply rstrip_idem.
  - apply rstrip_no_lead, lstrip_no_lead.
Qed.

(** ** Ending the session *)

(** X1. [process] asks the session to end exactly when the stripped,
    lower-cased input holds a farewell phrase: no other intent, no handler
    and no collaborator can set the flag. *)
Theorem session_ends_iff_farewell (env : Env) (d : db) (text : string) :
  (exists r, fst (process env d text) = Returned (r, true)) <->
  hit RE_farewell (lower (strip text)) = true.
Proof.
  split.
  - intros (r & H). apply (terminate_only_on_farewell env d text H).
  - intros H. exists farewell_response. unfold process.
    rewrite (hit_farewell_nonempty _ H), H. reflexivity.
Qed.

(** ** Blank input *)

(** X2. An input of white space only (the empty input too) is answered
    with "I didn't catch that. Could you repeat?", the session goes on and
    the store is not touched; for every other input the text the router
    works on is not empty. *)
Theorem blank_input_not_caught (env : Env) (d : db) (text : string) :
  (blank text = true ->
     process env d text
     = (Returned ("I didn't catch that. Could you repeat?", false), d)) /\
  (blank text = false -> lower (strip text) <> "").
Proof.
  split.
  - intros H. unfold process.
    apply strip_empty_iff in H. rewrite H. reflexivity.
  - intros H E. assert (S : strip text = "").
    { destruct (strip text); [reflexivity | discriminate E]. }
    apply strip_empty_iff in S. congruence.
Qed.

Lemma blank_input_not_caught_witness :
  process (quiet_env nine_am) two_reminders "   "
  = (Returned ("I didn't catch that. Could you repeat?", false), two_reminders) /\
  lower (strip " Hi ") <> "".
Proof.
  split.
  - apply (blank_input_not_caught (quiet_env nine_am) two_reminders "   ").
    reflexivity.
  - apply (blank_input_not_caught (quiet_env nine_am) two_reminders " Hi ").
    reflexivity.
Defined.

(** ** The exceptions of [process] *)

Section Raises.
Local Open Scope Z_scope.

Lemma remind_instant_raises (env : Env) (h m : Z) (e : exn) :
  DT.valid (now env) = true ->
  remind_instant env h m = Raised e ->
  (e = ValueError "hour must be in 0..23" /\ ~ (0 <= h < 24)) \/
  (e = ValueError "minute must be in 0..59" /\ 0 <= h < 24 /\ ~ (0 <= m < 60)) \/
  (e = OverflowError "date value out of range" /\
   is_time_of_day (h, m) = true /\ last_day (now env) = true /\
   DT.leb (same_day_at (now env) h m) (now env) = true).
Proof.
  intros V. unfold remind_instant, DT.replace_time.
  destruct (Z.leb_spec 0 h); destruct (Z.ltb_spec h 24); cbn [andb negb bind];
    try (intros E; inversion E; left; split; [reflexivity | lia]).
  destruct (Z.leb_spec 0 m); destruct (Z.ltb_spec m 60); cbn [andb negb bind];
    try (intros E; inversion E; right; left; repeat split; try reflexivity; lia).
  fold (same_day_at (now env) h m).
  destruct (DT.leb (same_day_at (now env) h m) (now env)) eqn:L; [|discriminate].
  unfold DT.add_one_day, same_day_at. cbn [DT.year DT.month DT.day].
  apply valid_bounds in V.
  destruct (Z.ltb_spec (DT.day (now env))
              (DT.days_in_month (DT.year (now env)) (DT.month (now env))));
    [discriminate|].
  destruct (Z.ltb_spec (DT.month (now env)) 12); [discriminate|].
  destruct (Z.ltb_spec (DT.year (now env)) 9999); [discriminate|].
  intros E. inversion E. right. right.
  split; [reflexivity|]. split.
  - unfold is_time_of_day. cbn [fst snd].
    repeat (apply andb_true_intro; split);
      first [apply Z.leb_le | apply Z.ltb_lt]; lia.
  - split; [|reflexivity]. unfold last_day.
    assert (DT.month (now env) = 12) as E12 by lia.
    assert (DT.year (now env) = 9999) as E9 by lia.
    rewrite E12, E9 in *. cbn in *.
    assert (DT.day (now env) = 31) as E31 by lia.
    rewrite E31. reflexivity.
Qed.

(** X3. On a store whose rows [process] has written, an exception leaves
    [process] only from the reminder handler, with task and time both
    parsed, and it is one of three: [ValueError] for an hour outside
    0..23, [ValueError] for a minute outside 0..59, or [OverflowError] when
    the reminder would fall on the day after 9999-12-31.  The store is
    then as it was. *)
Theorem only_reminder_times_raise (env : Env) (d : db) (text : string) (e : exn) :
  DT.valid (now env) = true -> rows_iso d ->
  fst (process env d text) = Raised e ->
  snd (process env d text) = d /\
  routed_to_remind env (lower (strip text)) = true /\
  exists tm tp,
    Re.search true RE_task (lower (strip text)) = Some tm /\
    Re.search true RE_time_pattern (lower (strip text)) = Some tp /\
    let h := fst (parsed_time (lower (strip text)) tp) in
    let m := snd (parsed_time (lower (strip text)) tp) in
    (e = ValueError "hour must be in 0..23" /\ ~ (0 <= h < 24)) \/
    (e = ValueError "minute must be in 0..59" /\ 0 <= h < 24 /\ ~ (0 <= m < 60)) \/
    (e = OverflowError "date value out of range" /\
     is_time_of_day (h, m) = true /\ last_day (now env) = true /\
     DT.leb (same_day_at (now env) h m) (now env) = true).
Proof.
  intros V Iso E.
  destruct (@process_raises_only_in_remind env d text e Iso E)
    as (R & tm & tp & T & P & I & S).
  split; [exact S|]. split; [exact R|].
  exists tm, tp. split; [exact T|]. split; [exact P|].
  apply (@remind_instant_raises env _ _ e V I).
Qed.

End Raises.

Lemma only_reminder_times_raise_witness :
  snd (process (quiet_env nine_am) two_reminders "remind me to stretch at 7:75")
  = two_reminders /\
  routed_to_remind (quiet_env nine_am) "remind me to stretch at 7:75" = true.
Proof.
  destruct (@only_reminder_times_raise (quiet_env nine_am) two_reminders
              "remind me to stretch at 7:75"
              (ValueError "minute must be in 0..59")) as (S & R & _).
  - reflexivity.
  - unfold rows_iso. cbn [reminders two_reminders].
    repeat constructor.
    + exists (DT.Datetime 2024 5 17 8 0 0 0). split; reflexivity.
    + exists (DT.Datetime 2024 5 17 8 30 0 0). split; reflexivity.
    + exists (DT.Datetime 2024 5 17 12 0 0 0). split; reflexivity.
  - vm_compute. reflexivity.
  - split; [exact S | exact R].
Defined.

(** ** The store after a call *)

Ltac outer_if_effect :=
  match goal with
  | |- store_effect _ _ (snd (if ?c then _ else _)) => destruct c eqn:?
  end.

Lemma process_store_effect (env : Env) (d : db) (text : string) :
  store_effect env d (snd (process env d text)).
Proof.
  unfold process.
  repeat (outer_if_effect; [apply NoWrite|]).
  unfold folder_stage. outer_if_effect; [apply NoWrite|].
  unfold open_stage. outer_if_effect; [apply NoWrite|].
  unfold close_stage. outer_if_effect; [apply NoWrite|].
  unfold remind_stage. outer_if_effect.
  { unfold _handle_remind.
    destruct (Re.search true RE_task _); [|apply NoWrite].
    destruct (Re.search true RE_time_pattern _); [|apply NoWrite].
    destruct (parsed_time _ _) as [hh mm].
    destruct (remind_instant env hh mm); [apply ReminderAdded | apply NoWrite]. }
  outer_if_effect.
  { destruct (_list_reminders env d); apply NoWrite. }
  outer_if_effect.
  { unfold _handle_remember.
    destruct (Re.search true RE_fact _); [apply NoteSaved | apply NoWrite]. }
  outer_if_effect; [apply NoWrite|].
  outer_if_effect; [apply NotesCleared|].
  unfold calc_stage. destruct (_try_calculate env _); [apply NoWrite|].
  unfold knowledge_stage.
  repeat (outer_if_effect; [apply NoWrite|]). apply NoWrite.
Qed.

(** X4. One call of [process] makes at most one write to the store: it
    saves one note, or deletes all notes, or adds one reminder, or writes
    nothing.  So it never alters or removes a reminder: the reminder table
    afterwards is the table before, followed by at most one new pending row
    whose id is the next one; and the notes afterwards are the notes
    before, or those followed by one new note, or none. *)
Theorem process_writes_once (env : Env) (d : db) (text : string) :
  store_effect env d (snd (process env d text)) /\
  (exists new,
     reminders (snd (process env d text)) = (reminders d ++ new)%list /\
     (List.length new <= 1)%nat /\
     Forall (fun r => id r = (reminders_seq d + 1)%Z /\ notified r = 0%Z) new) /\
  (memories (snd (process env d text)) = memories d \/
   memories (snd (process env d text)) = [] \/
   exists fact,
     memories (snd (process env d text))
     = (memories d ++ [MemoryRow (memories_seq d + 1) (strip fact)
                         (DT.isoformat_seconds (now env))])%list).
Proof.
  pose proof (process_store_effect env d text) as E.
  split; [exact E|].
  destruct E as [|fact| |task_ dt]; cbn [reminders memories add_reminder
    save_memory clear_memories].
  - split; [exists []; rewrite app_nil_r; repeat split; auto|]. left. reflexivity.
  - split; [exists []; rewrite app_nil_r; repeat split; auto|].
    right. right. exists fact. reflexivity.
  - split; [exists []; rewrite app_nil_r; repeat split; auto|].
    right. left. reflexivity.
  - split; [|left; reflexivity].
    eexists. split; [reflexivity|]. split; [cbn; lia|].
    repeat constructor.
Qed.

(** ** The names the router hands to the launcher *)

Lemma well_keyed_get (table : list (string * string)) (n : string) :
  well_keyed table = true -> In n (Config.keys table) ->
  exists path, Config.get table (lower n) = Some path /\ path <> "".
Proof.
  unfold well_keyed. rewrite forallb_forall. intros H Hn.
  specialize (H n Hn). apply andb_prop in H. destruct H as [L T].
  apply String.eqb_eq in L. rewrite L.
  destruct (Config.get table n) as [path|]; [|discriminate T].
  exists path. split; [reflexivity|]. intros ->. discriminate T.
Qed.

(** X5. A name handler never hands the launcher a name it has no entry
    for: whenever [_handle_open], [_handle_close] or [_handle_folder] gives
    a response, it is the launcher's report on a configured name that
    occurs in the text, with the path or process name of that entry; the
    "I don't have a shortcut" and "I don't know the process name" answers
    cannot come out of the router. *)
Theorem router_names_are_configured (env : Env) (t r : string) :
  (_handle_open env t = Some r ->
     exists n path, first_name_in Config.APP_COMMANDS t = Some n /\
       contains n t = true /\ Config.get Config.APP_COMMANDS n = Some path /\
       r = open_report env n path) /\
  (_handle_close env t = Some r ->
     exists n proc, first_name_in Config.PROCESS_NAMES t = Some n /\
       contains n t = true /\ Config.get Config.PROCESS_NAMES n = Some proc /\
       r = close_report env n proc) /\
  (_handle_folder env t = Some r ->
     exists n path, first_name_in Config.FOLDER_COMMANDS t = Some n /\
       contains n t = true /\ Config.get Config.FOLDER_COMMANDS n = Some path /\
       r = folder_report env n path).
Proof.
  unfold _handle_open, _handle_close, _handle_folder.
  split; [|split].
  - pose proof (first_name_in_ok Config.APP_COMMANDS t) as C.
    destruct (first_name_in Config.APP_COMMANDS t) as [n|]; [|discriminate].
    destruct C as (Hin & Hc & _). intros E. inversion E; subst r; clear E.
    assert (K : well_keyed Config.APP_COMMANDS = true) by (vm_compute; reflexivity).
    pose proof K as K'. unfold well_keyed in K'. rewrite forallb_forall in K'.
    specialize (K' n Hin). apply andb_prop in K'. destruct K' as [L _].
    apply String.eqb_eq in L.
    destruct (well_keyed_get Config.APP_COMMANDS n K Hin) as (path & G & Ne).
    exists n, path. rewrite L in G.
    split; [reflexivity|]. split; [exact Hc|]. split; [exact G|].
    unfold Apps.open_app, open_report. rewrite L, G.
    rewrite (truthy_Some Ne). reflexivity.
  - pose proof (first_name_in_ok Config.PROCESS_NAMES t) as C.
    destruct (first_name_in Config.PROCESS_NAMES t) as [n|]; [|discriminate].
    destruct C as (Hin & Hc & _). intros E. inversion E; subst r; clear E.
    assert (K : well_keyed Config.PROCESS_NAMES = true) by (vm_compute; reflexivity).
    pose proof K as K'. unfold well_keyed in K'. rewrite forallb_forall in K'.
    specialize (K' n Hin). apply andb_prop in K'. destruct K' as [L _].
    apply String.eqb_eq in L.
    destruct (well_keyed_get Config.PROCESS_NAMES n K Hin) as (proc & G & Ne).
    exists n, proc. rewrite L in G.
    split; [reflexivity|]. split; [exact Hc|]. split; [exact G|].
    unfold Apps.close_app, close_report. rewrite L, G.
    rewrite (truthy_Some Ne). reflexivity.
  - pose proof (first_name_in_ok Config.FOLDER_COMMANDS t) as C.
    destruct (first_name_in Config.FOLDER_COMMANDS t) as [n|]; [|discriminate].
    destruct C as (Hin & Hc & _). intros E. inversion E; subst r; clear E.
    assert (K : well_keyed Config.FOLDER_COMMANDS = true) by (vm_compute; reflexivity).
    pose proof K as K'. unfold well_keyed in K'. rewrite forallb_forall in K'.
    specialize (K' n Hin). apply andb_prop in K'. destruct K' as [L _].
    apply String.eqb_eq in L.
    destruct (well_keyed_get Config.FOLDER_COMMANDS n K Hin) as (path & G & Ne).
    exists n, path. rewrite L in G.
    split; [reflexivity|]. split; [exact Hc|]. split; [exact G|].
    unfold Apps.open_folder, folder_report. rewrite L, G.
    rewrite (truthy_Some Ne). reflexivity.
Qed.

Lemma router_names_are_configured_witness :
  exists n path, first_name_in Config.APP_COMMANDS "open notepad now" = Some n /\
    contains n "open notepad now" = true /\
    Config.get Config.APP_COMMANDS n = Some path /\
    "Opening notepad." = open_report (quiet_env nine_am) n path.
Proof.
  apply (@router_names_are_configured (quiet_env nine_am) "open notepad now"
           "Opening notepad.").
  vm_compute. reflexivity.
Defined.

(** ** What reaches [eval] *)

(** X6. The calculator hands [eval] nothing but arithmetic: the
    expression it evaluates is not empty and is made of digits, white
    space and [+ - * / ( ) .] only, so no name, attribute or call can be in
    it; an answer is always "The answer is" and the value of such an
    expression.  Hence two evaluators that agree on such expressions give
    the same calculator. *)
Theorem eval_sees_only_arithmetic (env env' : Env) (text : string) :
  (forall r, _try_calculate env text = Some r ->
     exists expr value,
       expr <> "" /\ forallb_str safe_char expr = true /\
       py_eval env expr = Some value /\ r = "The answer is " ++ value ++ ".") /\
  ((forall expr, forallb_str safe_char expr = true ->
      py_eval env expr = py_eval env' expr) ->
   _try_calculate env text = _try_calculate env' text).
Proof.
  pose proof (math_match_iff (calc_cleaned text)) as M.
  unfold _try_calculate. split.
  - intros r. destruct (Re.match_start false RE_math (calc_cleaned text));
      [|discriminate].
    cbn [is_some] in M. symmetry in M. apply andb_prop in M. destruct M as [A N].
    destruct (py_eval env _) as [value|] eqn:E; [|discriminate].
    intros R. inversion R; subst r.
    exists (replace_char "^" "**" (calc_cleaned text)), value.
    split; [|split; [apply replace_caret_safe, A | split; [exact E | reflexivity]]].
    destruct (calc_cleaned text) as [|c s]; [discriminate N|].
    cbn [replace_char]. destruct (Ascii.eqb c "^"); discriminate.
  - intros Agree.
    destruct (Re.match_start false RE_math (calc_cleaned text)); [|reflexivity].
    cbn [is_some] in M. symmetry in M. apply andb_prop in M. destruct M as [A _].
    rewrite (Agree _ (replace_caret_safe _ A)). reflexivity.
Qed.

Lemma eval_sees_only_arithmetic_witness :
  exists expr value,
    expr <> "" /\ forallb_str safe_char expr = true /\
    py_eval (quiet_env nine_am) expr = Some value /\
    "The answer is 4." = "The answer is " ++ value ++ ".".
Proof.
  apply (@eval_sees_only_arithmetic (quiet_env nine_am) (quiet_env nine_am)
           "what is 2 + 2").
  vm_compute. reflexivity.
Defined.

(** ** Remember, then recall *)

Lemma get_all_memories_save (now_ : DT.datetime) (d : db) (text : string) :
  get_all_memories (save_memory now_ d text)
  = (strip text, DT.isoformat_seconds now_) :: get_all_memories d.
Proof.
  unfold get_all_memories, save_memory. cbn [memories].
  rewrite rev_app_distr. reflexivity.
Qed.

Lemma iso_date_prefix (d : DT.datetime) :
  substring 0 10 (DT.isoformat_seconds d) = iso_date d.
Proof. reflexivity. Qed.

(** X7. What is remembered can be recalled: when the note handler finds
    a fact in the text, it stores the fact stripped of surrounding white
    space, with the clock's reading, and answers "I'll remember that:
    '<fact>'"; a recall after that lists the new note first, as
    "• <fact>  (saved YYYY-MM-DD)" with the day it was saved, above the
    lines of the older notes. *)
Theorem remember_then_recall (env : Env) (d : db) (t : string) (fm : Re.mobj) :
  Re.search true RE_fact t = Some fm ->
  let fact := strip (group_str t fm 1) in
  _handle_remember env d t
  = ("I'll remember that: '" ++ fact ++ "'", save_memory (now env) d fact) /\
  get_all_memories (snd (_handle_remember env d t))
  = (fact, DT.isoformat_seconds (now env)) :: get_all_memories d /\
  _handle_recall (snd (_handle_remember env d t))
  = "Here's what I remember:" ++ nl ++
    join nl (("• " ++ fact ++ "  (saved " ++ iso_date (now env) ++ ")")
             :: map recall_line (get_all_memories d)).
Proof.
  intros F fact. unfold _handle_remember. rewrite F. fold fact. cbn [snd].
  split; [reflexivity|].
  assert (G : get_all_memories (save_memory (now env) d fact)
              = (fact, DT.isoformat_seconds (now env)) :: get_all_memories d).
  { rewrite get_all_memories_save. unfold fact. rewrite strip_idem. reflexivity. }
  split; [exact G|].
  unfold _handle_recall. rewrite G. cbn [map fst snd].
  rewrite iso_date_prefix. reflexivity.
Qed.

Lemma remember_then_recall_witness :
  _handle_recall
    (snd (_handle_remember (quiet_env nine_am) empty_db
            "remember that  the wifi code is 1234"))
  = "Here's what I remember:" ++ nl ++
    "• the wifi code is 1234  (saved 2024-05-17)".
Proof.
  destruct (Re.search true RE_fact "remember that  the wifi code is 1234")
    as [fm|] eqn:F; [|vm_compute in F; discriminate F].
  pose proof (@remember_then_recall (quiet_env nine_am)
                empty_db "remember that  the wifi code is 1234" fm F)
    as (_ & _ & H).
  rewrite H. vm_compute in F. injection F as <-. vm_compute. reflexivity.
Defined.

(* ================================================================== *)
(** * Further properties of the store                                 *)
(* ================================================================== *)

Section StoreHistory.
Import StoreOps.

Lemma ids_from_snoc (k n : nat) :
  ids_from k (S n) = (ids_from k n ++ [Z.of_nat (S (k + n))])%list.
Proof.
  unfold ids_from. rewrite seq_S, map_app. cbn [map].
  replace (S k + n)%nat with (S (k + n)) by lia. reflexivity.
Qed.

Lemma apply_counted (d : db) (o : op) (adds saves : nat) :
  counted d adds saves ->
  counted (apply d o)
          (adds + (if is_add o then 1 else 0))
          (saves + (if is_save o then 1 else 0)).
Proof.
  intros (Hr & Hs & Hm & Hl & Hi).
  destruct o as [now_ text| |task_ at_|i]; cbn [apply is_add is_save];
    rewrite ?Nat.add_0_r.
  - unfold counted, save_memory. cbn [reminders reminders_seq memories memories_seq].
    rewrite length_app, map_app. cbn [List.length map mem_id].
    repeat split; try assumption; try lia.
    replace (saves + 1 - (List.length (memories d) + 1))%nat
      with (saves - List.length (memories d))%nat by lia.
    rewrite Nat.add_1_r, ids_from_snoc, Hi, Hm. do 2 f_equal. lia.
  - unfold counted, clear_memories. cbn [reminders reminders_seq memories memories_seq].
    repeat split; try assumption. cbn. lia.
  - unfold counted, add_reminder. cbn [reminders reminders_seq memories memories_seq].
    rewrite map_app. cbn [map id].
    repeat split; try assumption; try lia.
    rewrite Nat.add_1_r, ids_from_snoc, Hr, Hs. do 2 f_equal. lia.
  - unfold counted. rewrite mark_notified_ids.
    cbn [mark_notified reminders_seq memories memories_seq].
    repeat split; assumption.
Qed.

Lemma apply_all_counted (ops : list op) :
  forall d adds saves,
    counted d adds saves ->
    counted (apply_all d ops) (adds + count is_add ops) (saves + count is_save ops).
Proof.
  unfold apply_all, count.
  induction ops as [|o ops IH]; intros d adds saves H; cbn [fold_left filter].
  - cbn. rewrite !Nat.add_0_r. exact H.
  - apply (apply_counted o) in H. apply IH in H.
    destruct (is_add o), (is_save o); cbn [List.length];
      rewrite ?Nat.add_0_r in H;
      repeat rewrite <- Nat.add_assoc in H; exact H.
Qed.

(** X8. Whatever sequence of writes a fresh store has seen: no reminder
    was ever removed, and the reminders carry the ids 1, 2, ..., n in the
    order they were added, n being the number of [add_reminder] calls; the
    notes held carry consecutive ids ending at the number of [save_memory]
    calls, so that the id of a note deleted by [clear_memories] is never
    given out again. *)
Theorem ids_count_the_writes (ops : list op) :
  let d := apply_all empty_db ops in
  map id (reminders d) = ids_from 0 (count is_add ops) /\
  List.length (reminders d) = count is_add ops /\
  reminders_seq d = Z.of_nat (count is_add ops) /\
  memories_seq d = Z.of_nat (count is_save ops) /\
  (List.length (memories d) <= count is_save ops)%nat /\
  map mem_id (memories d)
  = ids_from (count is_save ops - List.length (memories d))
             (List.length (memories d)).
Proof.
  intros d.
  assert (H : counted empty_db 0 0) by (repeat split; cbn; lia).
  apply (apply_all_counted ops) in H. cbn [Nat.add] in H. fold d in H.
  destruct H as (Hr & Hs & Hm & Hl & Hi).
  repeat split; try assumption.
  rewrite <- (length_map id), Hr. unfold ids_from.
  rewrite length_map, length_seq. reflexivity.
Qed.

End StoreHistory.

(** ** Marking *)

Lemma mark_notified_unknown (d : db) (i : Z) :
  ~ In i (map id (reminders d)) -> mark_notified d i = d.
Proof.
  intros H. destruct d as [ms mq rs rq]. unfold mark_notified.
  cbn [memories memories_seq reminders reminders_seq] in *. f_equal.
  induction rs as [|r rs IH]; cbn [map] in *; [reflexivity|].
  destruct (Z.eqb_spec (id r) i) as [E|E].
  - exfalso. apply H. left. exact E.
  - f_equal. apply IH. intros Hin. apply H. right. exact Hin.
Qed.

Lemma insert_by_remind_at_perm (r : reminder_row) (l : list reminder_row) :
  Permutation (insert_by_remind_at r l) (r :: l).
Proof.
  induction l as [|x l IH]; cbn [insert_by_remind_at]; [reflexivity|].
  destruct (String.leb (remind_at r) (remind_at x)); [reflexivity|].
  rewrite IH. apply perm_swap.
Qed.

Lemma order_by_remind_at_perm (l : list reminder_row) :
  Permutation (order_by_remind_at l) l.
Proof.
  induction l as [|r l IH]; cbn [order_by_remind_at fold_right]; [reflexivity|].
  rewrite insert_by_remind_at_perm. constructor. exact IH.
Qed.

Lemma pending_after_mark (d : db) (i : Z) (v : reminder_view) :
  In v (get_pending_reminders (mark_notified d i)) <->
  In v (get_pending_reminders d) /\ v_id v <> i.
Proof.
  unfold get_pending_reminders.
  rewrite !in_map_iff. split.
  - intros (r & <- & Hr).
    apply (Permutation_in _ (order_by_remind_at_perm _)) in Hr.
    apply filter_In in Hr. destruct Hr as (Hin & Hp).
    unfold mark_notified in Hin. cbn [reminders] in Hin.
    apply in_map_iff in Hin. destruct Hin as (r0 & E & Hr0).
    destruct (Z.eqb_spec (id r0) i) as [Ei|Ei]; subst r; [discriminate Hp|].
    split; [|exact Ei]. exists r0. split; [reflexivity|].
    apply (Permutation_in _ (Permutation_sym (order_by_remind_at_perm _))).
    apply filter_In. split; assumption.
  - intros ((r & <- & Hr) & Ne).
    apply (Permutation_in _ (order_by_remind_at_perm _)) in Hr.
    apply filter_In in Hr. destruct Hr as (Hin & Hp).
    exists r. split; [reflexivity|].
    apply (Permutation_in _ (Permutation_sym (order_by_remind_at_perm _))).
    apply filter_In. split; [|exact Hp].
    unfold mark_notified. cbn [reminders]. apply in_map_iff.
    exists r. split; [|exact Hin]. cbn [view v_id] in Ne.
    destruct (Z.eqb_spec (id r) i); [contradiction | reflexivity].
Qed.

(** X9. [mark_notified] is idempotent and marks for different ids
    commute; for an id no row has, it changes nothing; it leaves the notes
    alone; and afterwards the pending list holds exactly the reminders it
    held before, but for the one marked. *)
Theorem mark_notified_is_local (d : db) (i j : Z) :
  mark_notified (mark_notified d i) i = mark_notified d i /\
  mark_notified (mark_notified d i) j = mark_notified (mark_notified d j) i /\
  (~ In i (map id (reminders d)) -> mark_notified d i = d) /\
  memories (mark_notified d i) = memories d /\
  map id (reminders (mark_notified d i)) = map id (reminders d) /\
  (forall v, In v (get_pending_reminders (mark_notified d i)) <->
             In v (get_pending_reminders d) /\ v_id v <> i).
Proof.
  split; [|split; [|split; [|split; [|split]]]].
  - unfold mark_notified. cbn [memories memories_seq reminders reminders_seq].
    f_equal. rewrite map_map. apply map_ext. intros r.
    destruct (Z.eqb_spec (id r) i) as [E|E]; cbn [id].
    + rewrite E, Z.eqb_refl. reflexivity.
    + destruct (Z.eqb_spec (id r) i); [contradiction | reflexivity].
  - unfold mark_notified. cbn [memories memories_seq reminders reminders_seq].
    f_equal. rewrite !map_map. apply map_ext. intros r.
    destruct (Z.eqb (id r) i) eqn:Ei; destruct (Z.eqb (id r) j) eqn:Ej;
      cbn [id]; rewrite ?Ei, ?Ej; reflexivity.
  - apply mark_notified_unknown.
  - reflexivity.
  - apply mark_notified_ids.
  - apply pending_after_mark.
Qed.

Lemma mark_notified_is_local_witness :
  mark_notified two_reminders 7 = two_reminders /\
  get_pending_reminders (mark_notified two_reminders 1)
  = [View 3 "lunch" "2024-05-17T12:00:00"].
Proof.
  split.
  - apply (mark_notified_is_local two_reminders 7 7).
    cbn. intros [H|[H|[H|[]]]]; discriminate H.
  - reflexivity.
Defined.

(** ** The pending list *)

Lemma Sorted_map_view (l : list reminder_row) :
  Sorted by_remind_at l -> ascending_remind_at (map view l).
Proof.
  unfold ascending_remind_at.
  induction 1 as [|r l Hs IH Hr]; cbn [map]; constructor; [exact IH|].
  destruct Hr as [|x l' Hx]; cbn [map]; constructor. exact Hx.
Qed.

(** X10. [get_pending_reminders] returns the reminders not yet notified,
    each once, in ascending order of the stored [remind_at] text; on a
    store whose rows hold ISO text this is the order in time. *)
Theorem pending_sorted_in_time (d : db) :
  Permutation (get_pending_reminders d) (map view (filter pending (reminders d))) /\
  ascending_remind_at (get_pending_reminders d) /\
  (rows_iso d -> Sorted chronological (get_pending_reminders d)).
Proof.
  unfold get_pending_reminders. split; [|split].
  - apply Permutation_map, order_by_remind_at_perm.
  - apply Sorted_map_view, pending_in_text_order.
  - intros Iso.
    assert (A : Forall (fun r => exists dt, DT.valid dt = true /\
                          remind_at r = DT.isoformat_seconds dt)
                       (order_by_remind_at (filter pending (reminders d)))).
    { rewrite Forall_forall. intros r Hr.
      apply order_by_remind_at_In, filter_In in Hr.
      unfold rows_iso in Iso. rewrite Forall_forall in Iso. apply Iso, Hr. }
    pose proof (pending_in_text_order d) as S.
    induction S as [|r l Hs IH Hr]; cbn [map]; [constructor|].
    inversion A as [|? ? (a & Va & Ea) A']; subst.
    constructor; [apply IH, A'|].
    destruct Hr as [|x l' Hx]; cbn [map]; constructor.
    inversion A' as [|? ? (b & Vb & Eb) _]; subst.
    exists a, b. repeat split; try assumption.
    unfold by_remind_at in Hx. rewrite Ea, Eb in Hx.
    unfold String.leb in Hx. rewrite (iso_compare a b Va Vb) in Hx. exact Hx.
Qed.

Lemma pending_sorted_in_time_witness :
  Sorted chronological (get_pending_reminders late_then_early) /\
  map v_id (get_pending_reminders late_then_early) = [2%Z; 1%Z].
Proof.
  split; [|vm_compute; reflexivity].
  apply (pending_sorted_in_time late_then_early).
  unfold rows_iso. vm_compute reminders.
  repeat constructor.
  - exists (DT.Datetime 2024 5 17 22 0 0 0). split; reflexivity.
  - exists (DT.Datetime 2024 5 17 21 0 0 0). split; reflexivity.
Defined.

(** ** What a cycle leaves behind *)

Section CycleEffect.
Local Open Scope Z_scope.

Lemma fold_mark_rows (ids : list Z) :
  forall d,
    reminders (fold_left mark_notified ids d)
    = map (fun r => if existsb (Z.eqb (id r)) ids then marked r else r)
          (reminders d) /\
    memories (fold_left mark_notified ids d) = memories d /\
    reminders_seq (fold_left mark_notified ids d) = reminders_seq d.
Proof.
  induction ids as [|i ids IH]; intros d; cbn [fold_left existsb].
  - split; [|split; reflexivity]. rewrite map_id. reflexivity.
  - destruct (IH (mark_notified d i)) as (R & M & Q).
    rewrite R, M, Q. split; [|split; reflexivity].
    unfold mark_notified. cbn [reminders]. rewrite map_map.
    apply map_ext. intros r. unfold marked.
    destruct (Z.eqb (id r) i); cbn [id task remind_at orb];
      [destruct (existsb _ ids)|]; reflexivity.
Qed.

Lemma same_id_same_row (l : list reminder_row) (r r' : reminder_row) :
  StronglySorted Z.lt (map id l) -> In r l -> In r' l -> id r = id r' -> r = r'.
Proof.
  induction l as [|x l IH]; cbn [map]; intros S Hr Hr' E; [destruct Hr|].
  inversion S as [|? ? S' F]; subst. rewrite Forall_forall in F.
  destruct Hr as [->|Hr]; destruct Hr' as [->|Hr'].
  - reflexivity.
  - specialize (F (id r') (in_map id _ _ Hr')). lia.
  - specialize (F (id r) (in_map id _ _ Hr)). lia.
  - apply IH; assumption.
Qed.

Lemma due_ids_mem (now_ : DT.datetime) (d : db) (r : reminder_row) :
  db_ok d -> In r (reminders d) ->
  existsb (Z.eqb (id r)) (map v_id (get_due_reminders now_ d))
  = due (DT.isoformat_seconds now_) r.
Proof.
  intros [S _] Hr.
  destruct (due (DT.isoformat_seconds now_) r) eqn:D.
  - apply existsb_exists. exists (id r). split; [|apply Z.eqb_refl].
    unfold get_due_reminders. rewrite map_map. apply in_map_iff.
    exists r. split; [reflexivity|]. apply filter_In. split; assumption.
  - destruct (existsb _ _) eqn:E; [|reflexivity]. exfalso.
    apply existsb_exists in E. destruct E as (i & Hi & Ei).
    apply Z.eqb_eq in Ei. subst i.
    unfold get_due_reminders in Hi. rewrite map_map in Hi.
    apply in_map_iff in Hi. destruct Hi as (r' & E' & Hr').
    apply filter_In in Hr'. destruct Hr' as (Hin & D').
    cbn [view v_id] in E'.
    rewrite (@same_id_same_row (reminders d) r r' S Hr Hin (eq_sym E')) in D.
    congruence.
Qed.

Lemma none_due_after_marking (now_str : string) (l : list reminder_row) :
  filter (due now_str) (map (fun r => if due now_str r then marked r else r) l) = [].
Proof.
  induction l as [|r l IH]; cbn [map filter]; [reflexivity|].
  destruct (due now_str r) eqn:D.
  - cbn [due pending marked notified andb Z.eqb]. exact IH.
  - rewrite D. exact IH.
Qed.

(** X11. After a scheduler cycle, on a store with distinct row ids: the
    rows that were due are marked notified and every other row, and every
    note, is as before; nothing is due any more at that clock reading, so a
    second cycle at the same reading delivers nothing. *)
Theorem cycle_marks_exactly_the_due (now_ : DT.datetime) (d : db) :
  db_ok d ->
  reminders (snd (cycle now_ d))
  = map (fun r => if due (DT.isoformat_seconds now_) r then marked r else r)
        (reminders d) /\
  memories (snd (cycle now_ d)) = memories d /\
  get_due_reminders now_ (snd (cycle now_ d)) = [] /\
  fst (cycle now_ (snd (cycle now_ d))) = [].
Proof.
  intros Ok. unfold cycle. rewrite !deliver_all_spec. cbn [fst snd].
  destruct (fold_mark_rows (map v_id (get_due_reminders now_ d)) d) as (R & M & _).
  assert (R' : reminders (fold_left mark_notified
                            (map v_id (get_due_reminders now_ d)) d)
               = map (fun r => if due (DT.isoformat_seconds now_) r
                               then marked r else r) (reminders d)).
  { rewrite R. apply map_ext_in. intros r Hr.
    rewrite (@due_ids_mem now_ d r Ok Hr). reflexivity. }
  assert (N : get_due_reminders now_
                (fold_left mark_notified (map v_id (get_due_reminders now_ d)) d)
              = []).
  { unfold get_due_reminders at 1. rewrite R', none_due_after_marking.
    reflexivity. }
  split; [exact R'|]. split; [exact M|]. split; [exact N|]. exact N.
Qed.

End CycleEffect.

Lemma cycle_marks_exactly_the_due_witness :
  map notified (reminders (snd (cycle nine_am two_reminders))) = [1%Z; 1%Z; 0%Z] /\
  fst (cycle nine_am (snd (cycle nine_am two_reminders))) = [].
Proof.
  destruct (@cycle_marks_exactly_the_due nine_am two_reminders) as (R & _ & _ & N).
  - split; cbn; repeat constructor; cbn; lia.
  - split; [rewrite R; vm_compute; reflexivity | exact N].
Defined.

(* ================================================================== *)
(** * Further properties of the scheduler                             *)
(* ================================================================== *)

(** ** No reminder fires early *)

Lemma fetched_due_more (seen more : list action) (i : nat) (v : reminder_view) :
  fetched_due seen i v -> fetched_due (seen ++ more) i v.
Proof.
  intros (now_ & Hin & L). exists now_. split; [|exact L].
  apply in_or_app. left. exact Hin.
Qed.

Lemma nth_error_set_nth (A : Type) (l : list A) :
  forall i j (x p : A),
    nth_error (set_nth i x l) j = Some p ->
    (i = j /\ p = x) \/ nth_error l j = Some p.
Proof.
  induction l as [|y l IH]; intros i j x p; cbn [set_nth].
  - destruct i; intros H; right; exact H.
  - destruct i as [|i]; destruct j as [|j]; cbn [nth_error]; intros H.
    + left. inversion H. split; reflexivity.
    + right. exact H.
    + right. exact H.
    + destruct (IH i j x p H) as [[-> ->]|H']; [left; split; reflexivity|].
      right. exact H'.
Qed.

Lemma step_well_fetched (seen : list action) (s s' : state) (a : action) :
  well_fetched seen s -> step s a = Some s' ->
  well_fetched (seen ++ [a]) s'.
Proof.
  intros (D & H).
  assert (D' : forall i v, In (i, v) (deliveries s) ->
                           fetched_due (seen ++ [a]) i v).
  { intros i v Hin. apply fetched_due_more, D, Hin. }
  assert (H' : forall i p v, nth_error (pollers s) i = Some p -> In v (held p) ->
                             fetched_due (seen ++ [a]) i v).
  { intros i p v Hn Hv. apply fetched_due_more, (H i p v Hn Hv). }
  destruct a as [i now_|i|i|i|i|env text]; cbn [step]; unfold at_pc.
  - (* Poll *)
    destruct (nth_error (pollers s) i) as [[| | |]|] eqn:E; try discriminate.
    intros X. inversion X; subst s'; clear X. unfold goto.
    split; cbn [deliveries pollers]; [exact D'|].
    intros j p v Hn Hv.
    destruct (nth_error_set_nth _ _ _ _ Hn) as [[<- ->]|Hn']; [|apply (H' j p v Hn' Hv)].
    cbn [held] in Hv. unfold get_due_reminders in Hv.
    apply in_map_iff in Hv. destruct Hv as (r & <- & Hr).
    apply filter_In in Hr. destruct Hr as (_ & Hd).
    unfold due in Hd. apply andb_prop in Hd. destruct Hd as (_ & L).
    exists now_. split; [|exact L]. apply in_or_app. right. left. reflexivity.
  - (* Deliver *)
    destruct (nth_error (pollers s) i) as [[|[|r todo]| |]|] eqn:E; try discriminate.
    intros X. inversion X; subst s'; clear X.
    split; cbn [deliveries pollers].
    + intros j v Hin. apply in_app_or in Hin.
      destruct Hin as [Hin|[Hin|[]]]; [apply D', Hin|].
      inversion Hin; subst j v. apply (H' i _ r E). left. reflexivity.
    + intros j p v Hn Hv.
      destruct (nth_error_set_nth _ _ _ _ Hn) as [[<- ->]|Hn']; [|apply (H' j p v Hn' Hv)].
      apply (H' i _ v E). exact Hv.
  - (* Mark *)
    destruct (nth_error (pollers s) i) as [[| |r todo|]|] eqn:E; try discriminate.
    intros X. inversion X; subst s'; clear X.
    split; cbn [deliveries pollers]; [exact D'|].
    intros j p v Hn Hv.
    destruct (nth_error_set_nth _ _ _ _ Hn) as [[<- ->]|Hn']; [|apply (H' j p v Hn' Hv)].
    apply (H' i _ v E). right. exact Hv.
  - (* Sleep *)
    destruct (nth_error (pollers s) i) as [[|[|]| |]|] eqn:E; try discriminate.
    intros X. inversion X; subst s'; clear X. unfold goto.
    split; cbn [deliveries pollers]; [exact D'|].
    intros j p v Hn Hv.
    destruct (nth_error_set_nth _ _ _ _ Hn) as [[<- ->]|Hn']; [|apply (H' j p v Hn' Hv)].
    destruct Hv.
  - (* Stop *)
    destruct (nth_error (pollers s) i) as [[| | |]|] eqn:E; try discriminate.
    intros X. inversion X; subst s'; clear X. unfold goto.
    split; cbn [deliveries pollers]; [exact D'|].
    intros j p v Hn Hv.
    destruct (nth_error_set_nth _ _ _ _ Hn) as [[<- ->]|Hn']; [|apply (H' j p v Hn' Hv)].
    destruct Hv.
  - (* Ask *)
    intros X. inversion X; subst s'; clear X.
    split; cbn [deliveries pollers]; assumption.
Qed.

Lemma run_well_fetched (trace : list action) :
  forall seen s s',
    well_fetched seen s -> run s trace = Some s' ->
    well_fetched (seen ++ trace) s'.
Proof.
  induction trace as [|a trace IH]; intros seen s s' W; cbn [run].
  - intros E. inversion E; subst. rewrite app_nil_r. exact W.
  - destruct (step s a) as [s1|] eqn:E; [|discriminate].
    intros R. pose proof (step_well_fetched a W E) as W1.
    apply (IH _ _ _ W1) in R. rewrite <- app_assoc in R. exact R.
Qed.

(** X12. No reminder is delivered before its time: in every run of the
    store with any number of polling threads and any session activity in
    between, each delivery a thread makes is of a reminder that the same
    thread fetched at one of its polls, and whose [remind_at] was at most
    the clock's reading of that poll. *)
Theorem never_delivered_early (n : nat) (d : db) (trace : list action)
        (s : state) (i : nat) (v : reminder_view) :
  run (start n d) trace = Some s ->
  In (i, v) (deliveries s) ->
  exists now_,
    In (Poll i now_) trace /\
    String.leb (v_remind_at v) (DT.isoformat_seconds now_) = true.
Proof.
  intros R Hin.
  assert (W : well_fetched [] (start n d)).
  { split; cbn [start deliveries pollers].
    - intros j w [].
    - intros j p w Hn Hw. apply nth_error_In, repeat_spec in Hn. subst p.
      destruct Hw. }
  apply (run_well_fetched trace W) in R. cbn [app] in R.
  apply (proj1 R i v Hin).
Qed.

Lemma never_delivered_early_witness :
  exists now_,
    In (Poll 1 now_) [Poll 0 eight_pm; Poll 1 nine_am; Deliver 1; Mark 1] /\
    String.leb "2024-05-17T08:00:00" (DT.isoformat_seconds now_) = true.
Proof.
  eapply (@never_delivered_early 2 two_reminders
            [Poll 0 eight_pm; Poll 1 nine_am; Deliver 1; Mark 1]
            _ 1 (View 1 "call mom" "2024-05-17T08:00:00")).
  - vm_compute. reflexivity.
  - cbn. left. reflexivity.
Defined.

(** ** Reminders persist *)

Lemma persists_refl (l : list reminder_row) : persists l l.
Proof. intros k r H. exists r. repeat split; auto. Qed.

Lemma persists_trans (l1 l2 l3 : list reminder_row) :
  persists l1 l2 -> persists l2 l3 -> persists l1 l3.
Proof.
  intros A B k r H.
  destruct (A k r H) as (r2 & H2 & I2 & T2 & R2 & N2).
  destruct (B k r2 H2) as (r3 & H3 & I3 & T3 & R3 & N3).
  exists r3. repeat split; try congruence.
  destruct N2 as [N2|N2]; destruct N3 as [N3|N3]; try (right; congruence).
  left. congruence.
Qed.

Lemma persists_mark (d : db) (i : Z) :
  persists (reminders d) (reminders (mark_notified d i)).
Proof.
  intros k r H. unfold mark_notified. cbn [reminders].
  rewrite nth_error_map, H. cbn [option_map].
  eexists. split; [reflexivity|].
  destruct (Z.eqb (id r) i); cbn; repeat split; auto.
Qed.

Lemma persists_effect (env : Env) (d d' : db) :
  store_effect env d d' -> persists (reminders d) (reminders d').
Proof.
  intros [|fact| |task_ dt]; try apply persists_refl.
  intros k r H. exists r. split; [|repeat split; auto].
  unfold add_reminder. cbn [reminders].
  rewrite nth_error_app1; [exact H|]. apply nth_error_Some. congruence.
Qed.

Lemma step_persists (s s' : state) (a : action) :
  step s a = Some s' -> persists (reminders (store s)) (reminders (store s')).
Proof.
  destruct a as [i now_|i|i|i|i|env text]; cbn [step]; unfold at_pc, goto.
  - destruct (nth_error (pollers s) i) as [[| | |]|]; try discriminate.
    intros X; inversion X; apply persists_refl.
  - destruct (nth_error (pollers s) i) as [[|[|]| |]|]; try discriminate.
    intros X; inversion X; apply persists_refl.
  - destruct (nth_error (pollers s) i) as [[| | |]|]; try discriminate.
    intros X; inversion X. apply persists_mark.
  - destruct (nth_error (pollers s) i) as [[|[|]| |]|]; try discriminate.
    intros X; inversion X; apply persists_refl.
  - destruct (nth_error (pollers s) i) as [[| | |]|]; try discriminate.
    intros X; inversion X; apply persists_refl.
  - intros X; inversion X. cbn [store].
    apply (persists_effect (process_store_effect env (store s) text)).
Qed.

(** X13. Nothing that runs ever removes or rewrites a reminder: along
    every run of polling threads and session calls, each row of the
    reminder table stays at its place with its id, task and [remind_at];
    its flag stays as it was or becomes 1, so a reminder once notified is
    never pending again; new rows only come behind. *)
Theorem reminders_persist (s s' : state) (trace : list action) :
  run s trace = Some s' ->
  persists (reminders (store s)) (reminders (store s')) /\
  (List.length (reminders (store s)) <= List.length (reminders (store s')))%nat.
Proof.
  intros R.
  assert (P : persists (reminders (store s)) (reminders (store s'))).
  { revert s R. induction trace as [|a trace IH]; intros s; cbn [run].
    - intros E. inversion E. apply persists_refl.
    - destruct (step s a) as [s1|] eqn:E; [|discriminate].
      intros R. apply (persists_trans (step_persists _ _ E) (IH s1 R)). }
  split; [exact P|].
  destruct (Nat.le_gt_cases (List.length (reminders (store s)))
              (List.length (reminders (store s')))) as [L|L]; [exact L|].
  exfalso.
  destruct (nth_error (reminders (store s)) (List.length (reminders (store s'))))
    as [r|] eqn:E.
  - destruct (P _ r E) as (r' & E' & _).
    assert (X : nth_error (reminders (store s'))
                  (List.length (reminders (store s'))) <> None) by congruence.
    apply nth_error_Some in X. lia.
  - apply nth_error_None in E. lia.
Qed.

Lemma reminders_persist_witness :
  persists (reminders two_reminders)
    (reminders (store (State (add_reminder (mark_notified two_reminders 1) "tea" eleven_pm)
                             [InFor []] [(0%nat, View 1 "call mom" "2024-05-17T08:00:00")]))).
Proof.
  apply (@reminders_persist (start 1 two_reminders)
           (State (add_reminder (mark_notified two_reminders 1) "tea" eleven_pm)
                  [InFor []] [(0%nat, View 1 "call mom" "2024-05-17T08:00:00")])
           [Poll 0 nine_am; Deliver 0;
            Ask (quiet_env nine_am) "remind me to tea at 11 pm"; Mark 0]).
  vm_compute. reflexivity.
Defined.

(* ================================================================== *)
(** * Further properties of the knowledge lookup                      *)
(* ================================================================== *)

(** X14. [find_answer] always answers with a non-empty text: the answer
    of the preferred search when that is a non-empty text, else the answer
    of the other search when that is one, else the fixed "couldn't find"
    sentence; an empty text from a search counts as no answer. *)
Theorem find_answer_never_empty (env : Env) (query : string) (prefer : bool) :
  let first := if prefer then search_wikipedia env query
               else search_duckduckgo env query in
  let second := if prefer then search_duckduckgo env query
                else search_wikipedia env query in
  Knowledge.find_answer env query prefer <> "" /\
  (forall a, first = Some a -> a <> "" ->
     Knowledge.find_answer env query prefer = a) /\
  (truthy first = false -> forall a, second = Some a -> a <> "" ->
     Knowledge.find_answer env query prefer = a) /\
  (truthy first = false -> truthy second = false ->
     Knowledge.find_answer env query prefer = no_answer).
Proof.
  intros first second.
  assert (E : Knowledge.find_answer env query prefer
              = if truthy (py_or first second)
                then match py_or first second with Some a => a | None => "" end
                else no_answer).
  { unfold Knowledge.find_answer, first, second. destruct prefer; reflexivity. }
  rewrite E. unfold py_or. clearbody first second.
  split; [|split; [|split]].
  - destruct (truthy first) eqn:F.
    + rewrite F. destruct first as [a|]; [|discriminate F].
      intros ->. discriminate F.
    + destruct (truthy second) eqn:S; [|discriminate].
      destruct second as [a|]; [|discriminate S]. intros ->. discriminate S.
  - intros a -> Ne. rewrite (truthy_Some Ne), (truthy_Some Ne). reflexivity.
  - intros F a -> Ne. rewrite F, (truthy_Some Ne). reflexivity.
  - intros F S. rewrite F, S. reflexivity.
Qed.

Lemma find_answer_never_empty_witness :
  Knowledge.find_answer (quiet_env nine_am) "black holes" true = no_answer.
Proof.
  apply (@find_answer_never_empty (quiet_env nine_am) "black holes" true);
    reflexivity.
Defined.

(* ================================================================== *)
(** * Properties of the session loop                                  *)
(* ================================================================== *)

Lemma farewell_branch (env : Env) (d : db) (text : string) :
  hit RE_farewell (lower (strip text)) = true ->
  process env d text = (Returned (farewell_response, true), d).
Proof.
  intros H. unfold process. rewrite (hit_farewell_nonempty _ H), H. reflexivity.
Qed.

Lemma turn_farewell (env : Env) (u : string) (d : db) (spoken : list string) :
  ends_session u = true ->
  Main.turn env u d spoken
  = Main.Session Main.Stopped d (spoken ++ [farewell_response])%list.
Proof.
  unfold ends_session, is_help. intros H.
  apply andb_prop in H. destruct H as [H F].
  apply andb_prop in H. destruct H as [E Hp].
  apply negb_true_iff in E, Hp.
  unfold Main.turn. rewrite E, Hp. cbn [Main.WAKE_WORD truthy].
  rewrite (farewell_branch env d u F).
  vm_compute (Helpers.sanitize_for_speech farewell_response).
  reflexivity.
Qed.

Lemma turn_goes_on (env : Env) (u : string) (d : db) (spoken : list string) :
  ends_session u = false ->
  Main.st (Main.turn env u d spoken) = Main.Listening.
Proof.
  unfold ends_session, is_help, Main.turn. intros H.
  destruct (String.eqb u ""); [reflexivity|].
  destruct (existsb _ Main.help_phrases); [reflexivity|].
  cbn [negb andb] in H. cbn [Main.WAKE_WORD truthy].
  destruct (process env d u) as [[[r b]|e] d'] eqn:P; [|reflexivity].
  destruct b; [|reflexivity]. exfalso.
  assert (X : fst (process env d u) = Returned (r, true)) by (rewrite P; reflexivity).
  apply terminate_only_on_farewell in X. congruence.
Qed.

(** X15. The session loop stops at the first utterance that reaches the
    router and holds a farewell phrase, and at no other: empty utterances
    and help phrases are passed over, whatever else was said before does
    not stop it, and nothing said after is looked at.  The last thing
    spoken is the farewell, and the store is as the utterances before left
    it. *)
Theorem session_stops_at_first_farewell
        (pre post : list (Env * string)) (env : Env) (u : string)
        (d : db) (spoken : list string) :
  (Main.st (Main.loop pre d spoken) = Main.Stopped <->
   existsb (fun p => ends_session (snd p)) pre = true) /\
  (existsb (fun p => ends_session (snd p)) pre = false ->
   ends_session u = true ->
   Main.loop (pre ++ (env, u) :: post) d spoken
   = Main.Session Main.Stopped (Main.db_ (Main.loop pre d spoken))
       (Main.spoken_ (Main.loop pre d spoken) ++ [farewell_response])%list).
Proof.
  split.
  - revert d spoken. induction pre as [|[e0 u0] pre IH]; intros d spoken;
      cbn [Main.loop existsb snd].
    + cbn. split; discriminate.
    + destruct (ends_session u0) eqn:E.
      * rewrite (turn_farewell e0 u0 d spoken E). cbn. tauto.
      * pose proof (turn_goes_on e0 u0 d spoken E) as G. rewrite G.
        cbn [orb]. apply IH.
  - revert d spoken. induction pre as [|[e0 u0] pre IH]; intros d spoken;
      cbn [Main.loop existsb snd app].
    + intros _ E. rewrite (turn_farewell env u d spoken E). reflexivity.
    + intros N E. apply orb_false_iff in N. destruct N as [N0 N].
      rewrite (turn_goes_on e0 u0 d spoken N0). apply (IH _ _ N E).
Qed.

Lemma session_stops_at_first_farewell_witness :
  Main.loop ([(quiet_env nine_am, ""); (quiet_env nine_am, "help");
              (quiet_env nine_am, "remind me to stretch at 25")]
             ++ (quiet_env nine_am, "ok bye") :: [(quiet_env nine_am, "open chrome")])
            empty_db []
  = Main.Session Main.Stopped empty_db
      [Main.help_reply; Main.failure_reply; "Take care, Rihan! Shutting down now."].
Proof.
  rewrite (proj2 (@session_stops_at_first_farewell
             [(quiet_env nine_am, ""); (quiet_env nine_am, "help");
              (quiet_env nine_am, "remind me to stretch at 25")]
             [(quiet_env nine_am, "open chrome")]
             (quiet_env nine_am) "ok bye" empty_db [])).
  - vm_compute. reflexivity.
  - vm_compute. reflexivity.
  - vm_compute. reflexivity.
Defined.

(** ** The store through a session *)

Lemma turn_store (env : Env) (u : string) (d : db) (spoken : list string) :
  Main.db_ (Main.turn env u d spoken) = d \/
  Main.db_ (Main.turn env u d spoken) = snd (process env d u).
Proof.
  unfold Main.turn.
  destruct (String.eqb u ""); [left; reflexivity|].
  destruct (existsb _ Main.help_phrases); [left; reflexivity|].
  cbn [Main.WAKE_WORD truthy].
  destruct (process env d u) as [[[r b]|e] d']; right; reflexivity.
Qed.

(** X16. A whole session keeps the store well formed and loses nothing:
    whatever is said, with clocks that read valid instants, the row ids
    stay distinct and ascending, every [remind_at] stays an ISO text of an
    instant, and every reminder there was at the start is still there at
    the end with its id, task and time. *)
Theorem session_keeps_the_store (inputs : list (Env * string)) (d : db)
        (spoken : list string) :
  clocks_valid inputs -> db_ok d -> rows_iso d ->
  db_ok (Main.db_ (Main.loop inputs d spoken)) /\
  rows_iso (Main.db_ (Main.loop inputs d spoken)) /\
  persists (reminders d) (reminders (Main.db_ (Main.loop inputs d spoken))).
Proof.
  intros V. revert d spoken.
  induction V as [|[env u] inputs Vn V IH]; intros d spoken Ok Iso;
    cbn [Main.loop].
  - cbn. split; [exact Ok|]. split; [exact Iso | apply persists_refl].
  - cbn [fst] in Vn.
    assert (T : db_ok (Main.db_ (Main.turn env u d spoken)) /\
                rows_iso (Main.db_ (Main.turn env u d spoken)) /\
                persists (reminders d)
                         (reminders (Main.db_ (Main.turn env u d spoken)))).
    { destruct (turn_store env u d spoken) as [-> | ->].
      - split; [exact Ok|]. split; [exact Iso | apply persists_refl].
      - split; [apply process_ok, Ok|].
        split; [apply process_rows_iso; assumption|].
        apply (persists_effect (process_store_effect env d u)). }
    destruct T as (Ok1 & Iso1 & P1).
    destruct (Main.st (Main.turn env u d spoken)).
    + destruct (IH _ (Main.spoken_ (Main.turn env u d spoken)) Ok1 Iso1)
        as (Ok2 & Iso2 & P2).
      split; [exact Ok2|]. split; [exact Iso2|].
      apply (persists_trans P1 P2).
    + split; [exact Ok1|]. split; [exact Iso1 | exact P1].
Qed.

Lemma session_keeps_the_store_witness :
  db_ok (Main.db_ (Main.loop [(quiet_env nine_am, "remind me to stretch at 10 am");
                              (quiet_env nine_am, "forget everything")]
                             empty_db [])).
Proof.
  apply (@session_keeps_the_store
           [(quiet_env nine_am, "remind me to stretch at 10 am");
            (quiet_env nine_am, "forget everything")] empty_db []).
  - repeat constructor.
  - split; constructor.
  - constructor.
Defined.

(* ================================================================== *)
(** * What [sanitize_for_speech] returns                              *)
(* ================================================================== *)

(** A greedy run of a class before a continuation that cannot fail takes
    the longest prefix. *)
Lemma rep_greedy_total (A : Type) (p : ascii -> bool)
      (k : Re.cursor -> Re.caps -> option A) :
  (forall cur cs, k cur cs <> None) ->
  forall s lo i pv cs,
    Re.rep p true lo None i pv s cs k
    = if Nat.leb lo (span p s) then k (after_run p i pv s) cs else None.
Proof.
  intros K. induction s as [|c s IH]; intros lo i pv cs;
    cbn [Re.rep span after_run].
  - destruct lo; cbn [Nat.leb]; [|reflexivity].
    unfold Re.orelse. reflexivity.
  - destruct (p c) eqn:Pc; cbn [andb Re.may_take Re.dec_hi option_map].
    + rewrite IH. destruct lo as [|lo]; cbn [pred Nat.leb]; [|reflexivity].
      unfold Re.orelse.
      destruct (k (after_run p (S i) (Some c) s) cs) eqn:E; [reflexivity|].
      exfalso. apply (K _ _ E).
    + destruct lo; cbn [Nat.leb]; [|reflexivity].
      unfold Re.orelse. reflexivity.
Qed.

Lemma after_run_pos (p : ascii -> bool) (s : string) :
  forall i pv, Re.pos (after_run p i pv s) = i + span p s.
Proof.
  induction s as [|c s IH]; intros i pv; cbn [after_run span].
  - cbn. lia.
  - destruct (p c); [rewrite IH; lia | cbn; lia].
Qed.

Lemma spaces_match (i : nat) (pv : option ascii) (s : string) :
  Re.match_here false Helpers.RE_spaces (Re.Cursor i pv s)
  = if Nat.leb 1 (span is_space s)
    then Some (Re.Match i (i + span is_space s) [])
    else None.
Proof.
  unfold Re.match_here, Helpers.RE_spaces, Re.plus.
  cbn [Re.run Re.pos Re.prev Re.rest].
  rewrite rep_greedy_total by discriminate.
  rewrite after_run_pos. reflexivity.
Qed.

(** The whitespace step of the clean-up is [squeeze]. *)
Lemma sub_spaces_squeeze (s : string) :
  (forall i pv,
     Helpers.sub_go false false Helpers.RE_spaces (fun _ => " ")
                    (span is_space s) i pv s = squeeze true s) /\
  (forall i pv,
     Helpers.sub_go false false Helpers.RE_spaces (fun _ => " ") 0 i pv s
     = squeeze false s).
Proof.
  induction s as [|c s [IH1 IH2]]; [split; reflexivity|].
  assert (Z : forall i pv,
             Helpers.sub_go false false Helpers.RE_spaces (fun _ => " ") 0 i pv
                            (String c s) = squeeze false (String c s)).
  { intros i pv. cbn [Helpers.sub_go squeeze negb orb].
    rewrite spaces_match. cbn [span].
    destruct (is_space c) eqn:Sc.
    - cbn [Nat.leb Re.m_end].
      replace (i + S (span is_space s) - i) with (S (span is_space s)) by lia.
      rewrite IH1. reflexivity.
    - cbn [Nat.leb]. rewrite IH2. reflexivity. }
  split; [|exact Z].
  intros i pv. cbn [span]. destruct (is_space c) eqn:Sc.
  - cbn [Helpers.sub_go squeeze]. rewrite Sc. apply IH1.
  - rewrite Z. cbn [squeeze]. rewrite Sc. reflexivity.
Qed.

Lemma squeeze_loose (s : string) : forall b, loose b (squeeze b s) = true.
Proof.
  induction s as [|c s IH]; intros b; cbn [squeeze]; [reflexivity|].
  destruct (is_space c) eqn:Sc.
  - destruct b; [apply IH|]. cbn [loose]. rewrite IH. reflexivity.
  - cbn [loose]. rewrite Sc. apply IH.
Qed.

Lemma loose_lstrip (s : string) : loose false s = true -> loose true (lstrip s) = true.
Proof.
  destruct s as [|c s]; cbn [loose lstrip]; [reflexivity|].
  destruct (is_space c) eqn:Sc.
  - intros H. apply andb_prop in H. destruct H as [_ H].
    destruct s as [|c' s]; [reflexivity|].
    cbn [loose lstrip] in *. destruct (is_space c') eqn:Sc'.
    + apply andb_prop in H. destruct H as [H _].
      apply andb_prop in H. destruct H as [_ H]. discriminate H.
    + cbn [loose]. rewrite Sc'. exact H.
  - intros H. cbn [loose]. rewrite Sc. exact H.
Qed.

Lemma loose_rstrip (s : string) :
  forall b, loose b s = true ->
    match rstrip s with
    | EmptyString => True
    | r => spaced b r = true
    end.
Proof.
  induction s as [|c s IH]; intros b; cbn [loose rstrip]; [trivial|].
  destruct (is_space c) eqn:Sc.
  - intros H. apply andb_prop in H. destruct H as [H1 H2].
    specialize (IH true H2).
    destruct (rstrip s) as [|c' r]; [trivial|].
    cbn [spaced]. rewrite Sc, H1. exact IH.
  - intros H. specialize (IH false H).
    destruct (rstrip s) as [|c' r]; cbn [spaced]; rewrite Sc; [reflexivity | exact IH].
Qed.

Lemma strip_squeeze_tidy (s : string) : tidy (strip (squeeze false s)) = true.
Proof.
  unfold strip.
  pose proof (loose_rstrip _ true (loose_lstrip _ (squeeze_loose s false))) as H.
  destruct (rstrip (lstrip (squeeze false s))); [reflexivity | exact H].
Qed.

Lemma spaced_no_lf (s : string) : forall b, spaced b s = true -> no_lf s = true.
Proof.
  unfold no_lf. induction s as [|c s IH]; intros b; cbn [spaced forallb_str];
    [reflexivity|].
  destruct (is_space c) eqn:Sc.
  - intros H. apply andb_prop in H. destruct H as [H1 H2].
    apply andb_prop in H1. destruct H1 as [H1 _].
    apply Ascii.eqb_eq in H1. subst c. rewrite (IH true H2). reflexivity.
  - intros H. rewrite (IH false H), andb_true_r.
    destruct (Nat.eqb (code c) 10) eqn:E; [|reflexivity].
    apply Nat.eqb_eq in E. unfold code in E.
    rewrite <- (ascii_nat_embedding c), E in Sc. discriminate Sc.
Qed.

(** Past index 0 of a string without line feeds, a pattern that starts
    with [^] finds nothing. *)
Lemma sub_bol_tail (r : Re.re) (repl : Re.mobj -> string) (s : string) :
  forall skip i c,
    Nat.eqb (code c) 10 = false -> no_lf s = true ->
    Helpers.sub_go false true r repl skip i (Some c) s = drop skip s.
Proof.
  unfold no_lf. induction s as [|x s IH]; intros skip i c Hc H;
    cbn [Helpers.sub_go drop forallb_str] in *.
  - destruct skip; reflexivity.
  - apply andb_prop in H. destruct H as [Hx Hs]. apply negb_true_iff in Hx.
    destruct skip as [|n].
    + cbn [negb orb Helpers.line_start]. rewrite Hc.
      rewrite (IH 0 (S i) x Hx Hs). destruct s; reflexivity.
    + apply (IH n (S i) x Hx Hs).
Qed.

(** After a non-blank, a tidy rest has at most one blank in front, and
    what follows the blank is tidy. *)
Lemma spaced_after_word (s : string) :
  spaced false s = true ->
  span is_space s = 0 \/
  exists c s', s = String c s' /\ span is_space s = 1 /\ spaced true s' = true.
Proof.
  destruct s as [|c s]; cbn [spaced span]; [left; reflexivity|].
  destruct (is_space c) eqn:Sc; [|left; reflexivity].
  intros H. apply andb_prop in H. destruct H as [_ H].
  right. exists c, s. split; [reflexivity|]. split; [|exact H].
  destruct s as [|c' s]; [reflexivity|].
  cbn [spaced span] in *. destruct (is_space c'); [|reflexivity].
  apply andb_prop in H. destruct H as [H _].
  apply andb_prop in H. destruct H as [_ H]. discriminate H.
Qed.

Lemma spaced_true_tidy (s : string) : spaced true s = true -> tidy s = true.
Proof. destruct s; [reflexivity | trivial]. Qed.

Lemma bullet_tail (i : nat) (pv : option ascii) (rest : string) (cs : Re.caps) :
  spaced false rest = true ->
  forall m,
    Re.rep is_space true 1 None i pv rest cs
      (fun cur cs' => Some (Re.Match 0 (Re.pos cur) cs')) = Some m ->
    Re.m_end m = S i /\ tidy (drop 1 rest) = true.
Proof.
  intros H m. rewrite rep_greedy_total by discriminate.
  rewrite after_run_pos.
  destruct (spaced_after_word rest H) as [Z | (x & s' & -> & S1 & T)].
  - rewrite Z. discriminate.
  - rewrite S1. cbn [Nat.leb]. intros E. inversion E. cbn [Re.m_end drop].
    split; [lia | apply spaced_true_tidy, T].
Qed.

Lemma bullet_match (t : string) (m : Re.mobj) :
  spaced true t = true ->
  Re.match_here false Helpers.RE_bullet (Re.Cursor 0 None t) = Some m ->
  exists n, Re.m_end m = S n /\ tidy (drop (S n) t) = true.
Proof.
  intros T. unfold Re.match_here, Helpers.RE_bullet.
  cbn [Re.seqs Re.lit Re.run Re.plus Re.pos Re.prev Re.rest].
  unfold Re.orelse, Re.chr_eq.
  destruct t as [|c1 t1]; cbv beta iota; [discriminate|].
  cbn [spaced] in T.
  destruct (is_space c1) eqn:S1;
    [cbn [negb] in T; rewrite andb_false_r in T; discriminate T|].
  destruct (Ascii.eqb c1 "-" || Ascii.eqb c1 "*") eqn:F.
  - (* a dash or a star: the bullet's bytes do not match *)
    match goal with
    | |- context [Ascii.eqb ?b c1] => destruct (Ascii.eqb b c1) eqn:E1
    end.
    { apply Ascii.eqb_eq in E1. subst c1. vm_compute in F. discriminate F. }
    cbv beta iota. intros R.
    destruct (@bullet_tail _ _ _ _ T _ R) as (Em & Td).
    exists 1. split; [exact Em | exact Td].
  - match goal with
    | |- context [Ascii.eqb ?b c1] => destruct (Ascii.eqb b c1) eqn:E1
    end; cbv beta iota; [|discriminate].
    destruct t1 as [|c2 t2]; cbv beta iota; [discriminate|].
    match goal with
    | |- context [Ascii.eqb ?b c2] => destruct (Ascii.eqb b c2) eqn:E2
    end; cbv beta iota; [|discriminate].
    apply Ascii.eqb_eq in E2. subst c2.
    destruct t2 as [|c3 t3]; cbv beta iota; [discriminate|].
    match goal with
    | |- context [Ascii.eqb ?b c3] => destruct (Ascii.eqb b c3) eqn:E3
    end; cbv beta iota; [|discriminate].
    apply Ascii.eqb_eq in E3. subst c3.
    cbn in T.
    match goal with
    | |- match ?x with _ => _ end = _ -> _ => destruct x as [m'|] eqn:R
    end; cbv beta iota; [|discriminate].
    intros E. inversion E; subst m'.
    destruct (@bullet_tail _ _ _ _ T _ R) as (Em & Td).
    exists 3. split; [exact Em | exact Td].
Qed.

Lemma bullet_step_tidy (t : string) :
  tidy t = true ->
  tidy (Helpers.sub true Helpers.RE_bullet (fun _ => "") t) = true.
Proof.
  intros T. destruct t as [|c t']; [reflexivity|].
  cbn [tidy] in T. pose proof (spaced_no_lf _ _ T) as N.
  unfold no_lf in N. cbn [forallb_str] in N.
  apply andb_prop in N. destruct N as [Nc Nt]. apply negb_true_iff in Nc.
  unfold Helpers.sub. cbn [Helpers.sub_go negb orb Helpers.line_start].
  destruct (Re.match_here false Helpers.RE_bullet (Re.Cursor 0 None (String c t')))
    as [m|] eqn:M.
  - destruct (bullet_match _ T M) as (n & Em & Td).
    rewrite Em. cbn [Nat.sub String.append].
    rewrite (sub_bol_tail _ _ t' n 1 c Nc Nt). exact Td.
  - rewrite (sub_bol_tail _ _ t' 0 1 c Nc Nt).
    destruct t'; exact T.
Qed.

(** On a text of white space only, a pattern that cannot start on white
    space replaces nothing. *)
Lemma sub_go_blank (ic bol : bool) (r : Re.re) (repl : Re.mobj -> string) :
  (forall i pv c s, is_space c = true ->
     Re.match_here ic r (Re.Cursor i pv (String c s)) = None) ->
  forall s i pv, blank s = true -> Helpers.sub_go ic bol r repl 0 i pv s = s.
Proof.
  intros N. unfold blank.
  induction s as [|c s IH]; intros i pv; cbn [forallb_str Helpers.sub_go];
    [reflexivity|].
  intros H. apply andb_prop in H. destruct H as [Hc Hs].
  rewrite (N i pv c s Hc), (IH _ _ Hs).
  destruct (negb bol || Helpers.line_start pv); reflexivity.
Qed.

Lemma space_is_not (x c : ascii) :
  is_space x = false -> is_space c = true -> Ascii.eqb x c = false.
Proof.
  intros Hx Hc. destruct (Ascii.eqb x c) eqn:E; [|reflexivity].
  apply Ascii.eqb_eq in E. congruence.
Qed.

Lemma url_not_on_space (i : nat) (pv : option ascii) (c : ascii) (s : string) :
  is_space c = true ->
  Re.match_here false Helpers.RE_url (Re.Cursor i pv (String c s)) = None.
Proof.
  intros H. unfold Re.match_here, Helpers.RE_url.
  cbn [Re.seqs Re.lit Re.run Re.rest]. unfold Re.chr_eq.
  rewrite (space_is_not "h" c eq_refl H). reflexivity.
Qed.

Lemma emphasis_not_on_space (i : nat) (pv : option ascii) (c : ascii) (s : string) :
  is_space c = true ->
  Re.match_here false Helpers.RE_emphasis (Re.Cursor i pv (String c s)) = None.
Proof.
  intros H. unfold Re.match_here, Helpers.RE_emphasis.
  cbn [Re.seqs Re.run Re.rest Re.pos Re.prev Re.rep]. unfold Helpers.is_star.
  rewrite Ascii.eqb_sym, (space_is_not "*" c eq_refl H). reflexivity.
Qed.

Lemma header_not_on_space (i : nat) (pv : option ascii) (c : ascii) (s : string) :
  is_space c = true ->
  Re.match_here false Helpers.RE_header (Re.Cursor i pv (String c s)) = None.
Proof.
  intros H. unfold Re.match_here, Helpers.RE_header.
  cbn [Re.seqs Re.run Re.rest Re.pos Re.prev Re.rep]. unfold Helpers.is_hash.
  rewrite Ascii.eqb_sym, (space_is_not "#" c eq_refl H). reflexivity.
Qed.

Lemma squeeze_blank (s : string) :
  forall b, blank s = true -> blank (squeeze b s) = true.
Proof.
  unfold blank. induction s as [|c s IH]; intros b; cbn [forallb_str squeeze];
    [reflexivity|].
  intros H. apply andb_prop in H. destruct H as [Hc Hs]. rewrite Hc.
  destruct b; [apply IH, Hs|]. cbn [forallb_str]. rewrite (IH true Hs). reflexivity.
Qed.

Lemma sanitize_tidy (text : string) :
  tidy (Helpers.sanitize_for_speech text) = true.
Proof.
  unfold Helpers.sanitize_for_speech. apply bullet_step_tidy.
  unfold Helpers.sub at 1. rewrite (proj2 (sub_spaces_squeeze _)).
  apply strip_squeeze_tidy.
Qed.

(** X17. What [sanitize_for_speech] returns is one line of words
    separated by single blanks: whatever the text, the result holds no
    white space but the blank, never two blanks in a row, none at its start
    and none at its end; a text of white space only gives the empty text. *)
Theorem sanitized_is_tidy (text : string) :
  tidy (Helpers.sanitize_for_speech text) = true /\
  no_lf (Helpers.sanitize_for_speech text) = true /\
  (blank text = true -> Helpers.sanitize_for_speech text = "").
Proof.
  pose proof (sanitize_tidy text) as T.
  split; [exact T|]. split.
  - destruct (Helpers.sanitize_for_speech text) as [|c s] eqn:E; [reflexivity|].
    apply (spaced_no_lf _ _ T).
  - intros B. clear T. unfold Helpers.sanitize_for_speech, Helpers.sub.
    rewrite (@sub_go_blank false false _ _ url_not_on_space text 0 None B).
    rewrite (@sub_go_blank false false _ _ emphasis_not_on_space text 0 None B).
    rewrite (@sub_go_blank false true _ _ header_not_on_space text 0 None B).
    rewrite (proj2 (sub_spaces_squeeze text)).
    rewrite (proj2 (strip_empty_iff _) (squeeze_blank text false B)).
    reflexivity.
Qed.

Lemma sanitized_is_tidy_witness :
  Helpers.sanitize_for_speech (" " ++ nl ++ "  ") = "" /\
  Helpers.sanitize_for_speech ("# Result" ++ nl ++ "* see  **this**: https://en.wikipedia.org/wiki/X ")
  = "Result see this:".
Proof.
  split.
  - apply (sanitized_is_tidy (" " ++ nl ++ "  ")). reflexivity.
  - vm_compute. reflexivity.
Defined.

(** ** What the session says *)

Lemma say_speakable (spoken : list string) (text : string) :
  Forall speakable spoken -> tidy text = true ->
  Forall speakable (Main.say spoken text).
Proof.
  intros F T. unfold Main.say.
  destruct (String.eqb_spec text "") as [E|E]; cbn [orb]; [exact F|].
  destruct (String.eqb (strip text) ""); [exact F|].
  apply Forall_app. split; [exact F|]. repeat constructor; assumption.
Qed.

Lemma turn_speakable (env : Env) (u : string) (d : db) (spoken : list string) :
  Forall speakable spoken ->
  Forall speakable (Main.spoken_ (Main.turn env u d spoken)).
Proof.
  intros F. unfold Main.turn.
  destruct (String.eqb u ""); [exact F|].
  destruct (existsb _ Main.help_phrases);
    [apply say_speakable; [exact F | vm_compute; reflexivity]|].
  cbn [Main.WAKE_WORD truthy].
  destruct (process env d u) as [[[r b]|e] d']; cbn [Main.spoken_].
  - apply say_speakable; [exact F | apply sanitize_tidy].
  - apply say_speakable; [exact F | vm_compute; reflexivity].
Qed.

(** X18. Whatever is said to it, every text the session hands to the
    speech engine, from the greeting on, is fit to be spoken: never empty,
    and one line of words separated by single blanks. *)
Theorem session_speaks_tidy (clock : DT.datetime) (inputs : list (Env * string))
        (d : db) :
  Forall speakable (Main.spoken_ (Main.run clock inputs d)).
Proof.
  unfold Main.run.
  assert (G : Forall speakable (Main.say [] (Main.greet clock))).
  { apply say_speakable; [constructor|]. unfold Main.greet.
    repeat match goal with
           | |- context [if ?c then _ else _] => destruct c
           end; vm_compute; reflexivity. }
  revert G. generalize (Main.say [] (Main.greet clock)). revert d.
  induction inputs as [|[env u] inputs IH]; intros d spoken F; cbn [Main.loop].
  - exact F.
  - pose proof (turn_speakable env u d F) as T.
    destruct (Main.st (Main.turn env u d spoken)); [|exact T].
    apply IH, T.
Qed.

(** ** A reminder from its instant on *)

Section DueFromInstant.
Local Open Scope Z_scope.

(** X19. A reminder that [add_reminder] has just stored is in the
    pending list, and it is among the due reminders at a clock reading
    exactly when its instant is not after that reading (both to the
    second). *)
Theorem reminder_due_from_its_instant (d : db) (task_ : string)
        (dt now_ : DT.datetime) :
  DT.valid dt = true -> DT.valid now_ = true ->
  let v := View (reminders_seq d + 1) (strip task_) (DT.isoformat_seconds dt) in
  In v (get_pending_reminders (add_reminder d task_ dt)) /\
  (In v (get_due_reminders now_ (add_reminder d task_ dt)) <->
   DT.leb (DT.trunc_seconds dt) (DT.trunc_seconds now_) = true).
Proof.
  intros Vd Vn v.
  assert (Row : In (ReminderRow (reminders_seq d + 1) (strip task_)
                      (DT.isoformat_seconds dt) 0)
                   (reminders (add_reminder d task_ dt))).
  { unfold add_reminder. cbn [reminders]. apply in_or_app. right. left. reflexivity. }
  assert (L : String.leb (DT.isoformat_seconds dt) (DT.isoformat_seconds now_)
              = DT.leb (DT.trunc_seconds dt) (DT.trunc_seconds now_)).
  { unfold String.leb, DT.leb. rewrite (iso_compare dt now_ Vd Vn). reflexivity. }
  split; [|split].
  - unfold get_pending_reminders. apply in_map_iff. eexists. split; [|
      apply (Permutation_in _ (Permutation_sym (order_by_remind_at_perm _)));
      apply filter_In; split; [exact Row | reflexivity]].
    reflexivity.
  - unfold get_due_reminders. intros H. apply in_map_iff in H.
    destruct H as (r & E & Hr). apply filter_In in Hr. destruct Hr as (_ & D).
    unfold due in D. apply andb_prop in D. destruct D as (_ & D).
    unfold v in E. destruct r as [i t ra n]. cbn [view] in E.
    inversion E; subst. cbn [remind_at] in D. rewrite L in D. exact D.
  - intros H. unfold get_due_reminders. apply in_map_iff. eexists.
    split; [|apply filter_In; split; [exact Row|]]; [reflexivity|].
    unfold due, pending. cbn [notified remind_at]. rewrite L, H. reflexivity.
Qed.

End DueFromInstant.

Lemma reminder_due_from_its_instant_witness :
  In (View 4 "tea" "2024-05-17T23:00:00")
     (get_due_reminders eleven_pm (add_reminder two_reminders " tea " eleven_pm)) /\
  ~ In (View 4 "tea" "2024-05-17T23:00:00")
       (get_due_reminders eight_pm (add_reminder two_reminders " tea " eleven_pm)).
Proof.
  split.
  - apply (@reminder_due_from_its_instant two_reminders " tea " eleven_pm eleven_pm
             eq_refl eq_refl). reflexivity.
  - intros H.
    apply (@reminder_due_from_its_instant two_reminders " tea " eleven_pm eight_pm
             eq_refl eq_refl) in H.
    discriminate H.
Defined.

(** ** Listing the reminders *)

Lemma reminder_lines_iso (env : Env) (l : list reminder_view) :
  Forall (fun v => exists dt, DT.valid dt = true /\
                     v_remind_at v = DT.isoformat_seconds dt) l ->
  exists lines, reminder_lines env l = Returned lines /\
                Forall2 (line_of env) l lines.
Proof.
  induction 1 as [|v l (dt & V & E) _ (lines & IH & F)]; cbn [reminder_lines].
  - exists []. split; [reflexivity | constructor].
  - rewrite E, (fromisoformat_isoformat dt V). cbn [bind]. rewrite IH. cbn [bind].
    eexists. split; [reflexivity|]. constructor; [|exact F].
    exists dt. split; [exact V|]. split; [exact E | reflexivity].
Qed.

(** X20. On a store whose rows [process] has written, listing the
    reminders never fails: with nothing pending the answer is "You have no
    pending reminders."; otherwise it is "Your reminders:" followed by one
    line for each pending reminder, in the order of the pending list, each
    with the task and the instant it was stored for, read back from its ISO
    text. *)
Theorem listing_shows_the_pending (env : Env) (d : db) :
  rows_iso d ->
  (get_pending_reminders d = [] ->
     _list_reminders env d = Returned "You have no pending reminders.") /\
  (get_pending_reminders d <> [] ->
     exists lines,
       _list_reminders env d = Returned ("Your reminders:" ++ nl ++ join nl lines) /\
       Forall2 (line_of env) (get_pending_reminders d) lines).
Proof.
  intros Iso. unfold _list_reminders.
  assert (A : Forall (fun v => exists dt, DT.valid dt = true /\
                         v_remind_at v = DT.isoformat_seconds dt)
                     (get_pending_reminders d)).
  { unfold get_pending_reminders. rewrite Forall_map, Forall_forall.
    intros r Hr. apply order_by_remind_at_In, filter_In in Hr.
    unfold rows_iso in Iso. rewrite Forall_forall in Iso. apply Iso, Hr. }
  destruct (reminder_lines_iso env A) as (lines & L & F).
  split.
  - intros ->. reflexivity.
  - intros Ne. exists lines. split; [|exact F].
    destruct (get_pending_reminders d); [contradiction|].
    rewrite L. reflexivity.
Qed.

Lemma listing_shows_the_pending_witness :
  rows_iso late_then_early /\
  get_pending_reminders late_then_early <> [] /\
  exists lines,
    _list_reminders (quiet_env nine_am) late_then_early
    = Returned ("Your reminders:" ++ nl ++ join nl lines) /\
    Forall2 (line_of (quiet_env nine_am))
            (get_pending_reminders late_then_early) lines.
Proof.
  assert (Iso : rows_iso late_then_early).
  { unfold rows_iso. vm_compute reminders. repeat constructor.
    - exists (DT.Datetime 2024 5 17 22 0 0 0). split; reflexivity.
    - exists (DT.Datetime 2024 5 17 21 0 0 0). split; reflexivity. }
  assert (Ne : get_pending_reminders late_then_early <> [])
    by (vm_compute; discriminate).
  split; [exact Iso|]. split; [exact Ne|].
  exact (proj2 (@listing_shows_the_pending (quiet_env nine_am) late_then_early Iso) Ne).
Defined.
